(** * Bulk MPR upload: the normalisation pipeline of [upload/tasks.py]

    A shallow embedding of the active (non-commented) code of
    [upload/tasks.py] and of the result view of [upload/views.py],
    followed by the properties of the specification that were checked
    against it.

    Conventions.
    - A Python [str] is a [string]; every [ascii] stands for one code point
      below 256, so the whitespace class is the one of [str.isspace]
      restricted to that range.
    - pandas, the cache and the database are not part of the repository.
      The two parsers [pandas.to_numeric] (the float and the integer it
      reads in a string) and [pandas.to_datetime] and the bulk insert of
      the [Transaction] model are Section variables; the DataFrame
      operations the code relies on, the dtype of a converted column and of
      a row among them, are written out.
    - A Python exception is a [Raise] in the error monad [res]. *)

From Stdlib Require Import List String Ascii Bool Arith ZArith QArith Lia.
From Stdlib Require Import Relations.
Import ListNotations.

Close Scope Q_scope.
Open Scope string_scope.
Open Scope list_scope.
Open Scope nat_scope.

(* ================================================================= *)
(** ** Characters and strings *)

Definition chars (s : string) : list ascii := list_ascii_of_string s.
Definition text (l : list ascii) : string := string_of_list_ascii l.

Definition LF : ascii := ascii_of_nat 10.
Definition LBRACKET : ascii := "["%char.
Definition RBRACKET : ascii := "]"%char.
Definition DOT : ascii := "."%char.
Definition UNDERSCORE : ascii := "_"%char.
Definition COMMA : ascii := ","%char.

(** [str.isspace] on one code point below 256: TAB, LF, VT, FF, CR,
    FS, GS, RS, US, SPACE, NEL (0x85) and NBSP (0xA0). *)
Definition isspace (c : ascii) : bool :=
  let n := nat_of_ascii c in
  ((9 <=? n) && (n <=? 13)) || ((28 <=? n) && (n <=? 32))
  || (n =? 133) || (n =? 160).

(* ================================================================= *)
(** ** Header Normalizer: [clean_column_name] *)

(** [closes s]: the lazy body [.*?\]] of the pattern matches at the start of
    [s], that is a [']'] occurs before any line feed ([.] does not match a
    line feed, the pattern is compiled without DOTALL). *)
Fixpoint closes (s : list ascii) : bool :=
  match s with
  | [] => false
  | c :: r =>
      if Ascii.eqb c RBRACKET then true
      else if Ascii.eqb c LF then false
      else closes r
  end.

(** [column_cleaning_regex.sub('', s)] for the pattern [\[.*?\]]: matches are
    found left to right and do not overlap.  [inside = true] while the scan is
    within a match, whose end is the first [']']. *)
Fixpoint regex_sub (s : list ascii) (inside : bool) : list ascii :=
  match s with
  | [] => []
  | c :: r =>
      if inside then
        if Ascii.eqb c RBRACKET then regex_sub r false else regex_sub r true
      else if Ascii.eqb c LBRACKET && closes r then regex_sub r true
      else c :: regex_sub r false
  end.

Definition column_cleaning_regex_sub (s : list ascii) : list ascii :=
  regex_sub s false.

(** [str.split()] with no separator: the maximal runs of non-whitespace
    characters.  [part] is the run being read. *)
Fixpoint split_from (s part : list ascii) : list (list ascii) :=
  match s with
  | [] => match part with [] => [] | _ => [part] end
  | c :: r =>
      if isspace c then
        match part with
        | [] => split_from r []
        | _ => part :: split_from r []
        end
      else split_from r (part ++ [c])
  end.

Definition py_split (s : list ascii) : list (list ascii) := split_from s [].

Definition nonempty (p : list ascii) : bool :=
  match p with [] => false | _ => true end.

(** [''.join(parts)] *)
Definition py_join (parts : list (list ascii)) : list ascii := List.concat parts.

(** [str.strip()] *)
Fixpoint lstrip (s : list ascii) : list ascii :=
  match s with
  | [] => []
  | c :: r => if isspace c then lstrip r else s
  end.

Definition rstrip (s : list ascii) : list ascii := rev (lstrip (rev s)).
Definition strip (s : list ascii) : list ascii := rstrip (lstrip s).

Definition is_punct (c : ascii) : bool :=
  Ascii.eqb c DOT || Ascii.eqb c UNDERSCORE.

Definition clean_chars (column_name : list ascii) : list ascii :=
  let cleaned_name := column_cleaning_regex_sub column_name in
  let cleaned_name := py_join (filter nonempty (py_split cleaned_name)) in
  strip (filter (fun char => negb (is_punct char)) cleaned_name).

Definition clean_column_name (column_name : string) : string :=
  text (clean_chars (chars column_name)).

(** The four passes named by the specification, each as a function of its
    own; [clean_chars] is shown below to be their composition. *)
Definition remove_bracketed (s : list ascii) : list ascii := regex_sub s false.
Definition remove_whitespace (s : list ascii) : list ascii :=
  filter (fun c => negb (isspace c)) s.
Definition remove_punct (s : list ascii) : list ascii :=
  filter (fun c => negb (is_punct c)) s.

(** Characters that survive the second and third pass. *)
Definition kept (c : ascii) : bool := negb (isspace c) && negb (is_punct c).

(** No [']'] and no line feed in [s]. *)
Definition plain (s : list ascii) : bool :=
  forallb (fun c => negb (Ascii.eqb c RBRACKET) && negb (Ascii.eqb c LF)) s.

(** [pending a]: [a] holds a ['['] with neither [']'] nor a line feed after
    it, so that a [']'] following [a] would close a match begun inside [a]. *)
Fixpoint pending (a : list ascii) : bool :=
  match a with
  | [] => false
  | c :: r => pending r || (Ascii.eqb c LBRACKET && plain r)
  end.

(** The position between [a] and [b] lies inside a bracketed annotation. *)
Definition inside_bracket (a b : list ascii) : bool := pending a && closes b.

(** Headers that differ only in formatting, as the specification words it:
    one step inserts a whitespace character, a ['.'] or ['_'] anywhere, or
    appends a bracketed suffix. *)
Inductive differs_step : list ascii -> list ascii -> Prop :=
| differs_space a w b :
    isspace w = true -> differs_step (a ++ b) (a ++ w :: b)
| differs_punct a p b :
    is_punct p = true -> differs_step (a ++ b) (a ++ p :: b)
| differs_suffix h c :
    differs_step h (h ++ LBRACKET :: c ++ [RBRACKET]).

Definition differs_only_in_formatting : relation (list ascii) :=
  clos_refl_sym_trans _ differs_step.

(** The same steps, with the two places where the bracket pass, which runs
    first, can tell the headers apart left out: a line feed put inside a
    bracketed annotation, and a suffix put after an unclosed ['[']. *)
Inductive variant_step : list ascii -> list ascii -> Prop :=
| variant_blank a w b :
    isspace w = true -> w <> LF -> variant_step (a ++ b) (a ++ w :: b)
| variant_linefeed a b :
    inside_bracket a b = false -> variant_step (a ++ b) (a ++ LF :: b)
| variant_punct a p b :
    is_punct p = true -> variant_step (a ++ b) (a ++ p :: b)
| variant_suffix h c :
    pending h = false -> plain c = true ->
    variant_step h (h ++ LBRACKET :: c ++ [RBRACKET]).

Definition header_variant : relation (list ascii) :=
  clos_refl_sym_trans _ variant_step.

(* ================================================================= *)
(** ** Values, exceptions and dictionaries *)

Inductive exn : Type := KeyError | AttributeError | ValueError.

Inductive res (A : Type) : Type :=
| Ok (a : A)
| Raise (e : exn).
Arguments Ok {A} a.
Arguments Raise {A} e.

Definition bind {A B : Type} (c : res A) (k : A -> res B) : res B :=
  match c with
  | Ok a => k a
  | Raise e => Raise e
  end.

Notation "x <- c ;; k" := (bind c (fun x => k))
  (at level 61, c at next level, right associativity).
Notation "' pat <- c ;; k" := (bind c (fun x => match x with pat => k end))
  (at level 61, pat pattern, c at next level, right associativity).

(** A Python float.  Every finite double is a rational, so [Finite] covers
    all of them; how a string is rounded to one is the parser's business. *)
Inductive pyfloat : Type :=
| Finite (q : Q)
| PosInf
| NegInf
| NaN.

(** [x > 0] and [x < 0]; both are false on NaN. *)
Definition float_gt0 (x : pyfloat) : bool :=
  match x with
  | Finite q => (0 <? Qnum q)%Z
  | PosInf => true
  | NegInf | NaN => false
  end.

Definition float_lt0 (x : pyfloat) : bool :=
  match x with
  | Finite q => (Qnum q <? 0)%Z
  | NegInf => true
  | PosInf | NaN => false
  end.

(** One cell of a DataFrame or one element of a row.  A missing cell of a
    file read with [dtype=str] is [SFloat NaN]. *)
Inductive scalar : Type :=
| SNone
| SStr (s : string)
| SFloat (x : pyfloat)
| SInt (z : Z)
| SNaT
| STimestamp (t : Z).

(** [pd.isna] *)
Definition isna (c : scalar) : bool :=
  match c with
  | SNone | SNaT | SFloat NaN => true
  | _ => false
  end.

(** A column with its dtype: object, float64, datetime64 (after
    [to_datetime]), or int64 and uint64 ([unsigned]), the two dtypes
    [to_numeric] gives a column of integers. *)
Inductive Series : Type :=
| ObjectSeries (cells : list scalar)
| FloatSeries (xs : list pyfloat)
| DatetimeSeries (ts : list (option Z))
| IntSeries (unsigned : bool) (zs : list Z).

Definition timestamp_cell (t : option Z) : scalar :=
  match t with
  | Some t => STimestamp t
  | None => SNaT
  end.

Definition values (s : Series) : list scalar :=
  match s with
  | ObjectSeries cells => cells
  | FloatSeries xs => map SFloat xs
  | DatetimeSeries ts => map timestamp_cell ts
  | IntSeries _ zs => map SInt zs
  end.

(** A DataFrame: a range index of [index_len] rows and labelled columns.
    Labels may repeat (two raw headers can clean to the same name). *)
Record DataFrame : Type := mkDataFrame {
  index_len : nat;
  data : list (string * Series)
}.

Definition labels (df : DataFrame) : list string := map fst (data df).

(** [col in df.columns], [col in df] *)
Definition has_column (df : DataFrame) (col : string) : bool :=
  existsb (String.eqb col) (labels df).

(** [df.columns = [f(col) for col in df.columns]] and
    [df.rename(columns=..., inplace=True)] *)
Definition map_labels (f : string -> string) (df : DataFrame) : DataFrame :=
  mkDataFrame (index_len df) (map (fun p => (f (fst p), snd p)) (data df)).

(** The columns selected by [df[col]]: none (KeyError), one (a Series) or
    several (a DataFrame). *)
Definition select (df : DataFrame) (col : string) : list Series :=
  map snd (filter (fun p => String.eqb (fst p) col) (data df)).

(** [df[col] = s]: replaces the column(s) of that label, or appends one. *)
Definition setitem (df : DataFrame) (col : string) (s : Series) : DataFrame :=
  if has_column df col then
    mkDataFrame (index_len df)
      (map (fun p => if String.eqb (fst p) col then (fst p, s) else p) (data df))
  else mkDataFrame (index_len df) (data df ++ [(col, s)]).

Definition is_numeric (s : Series) : bool :=
  match s with
  | FloatSeries _ | IntSeries _ _ => true
  | _ => false
  end.

Definition is_float64 (s : Series) : bool :=
  match s with
  | FloatSeries _ => true
  | _ => false
  end.

Definition is_int64 (s : Series) : bool :=
  match s with
  | IntSeries false _ => true
  | _ => false
  end.

Definition is_uint64 (s : Series) : bool :=
  match s with
  | IntSeries true _ => true
  | _ => false
  end.

(** [DataFrame.values], from which [iterrows] takes its rows, is one array
    with one dtype: float64 when every column is numeric and the integer
    columns cannot keep their dtype (a float64 column, or int64 beside
    uint64); the dtype of the columns when they all have the same; object
    in every other case. *)
Definition float_values (df : DataFrame) : bool :=
  let dtypes := map snd (data df) in
  forallb is_numeric dtypes
  && (existsb is_float64 dtypes
      || (existsb is_int64 dtypes && existsb is_uint64 dtypes)).

(** One element of that array: an integer becomes a float in a float64
    array and keeps its type in an integer or object array. *)
Definition interleaved (df : DataFrame) (c : scalar) : scalar :=
  match c with
  | SInt z => if float_values df then SFloat (Finite (inject_Z z)) else c
  | _ => c
  end.

(** One row as [iterrows] yields it: a Series indexed by the column labels. *)
Definition row : Type := list (string * scalar).

Definition row_at (df : DataFrame) (i : nat) : row :=
  map (fun p => (fst p, interleaved df (nth i (values (snd p)) (SFloat NaN))))
    (data df).

Definition iterrows (df : DataFrame) : list row :=
  map (row_at df) (seq 0 (index_len df)).

(** What a field of the record can hold: a scalar, the sub-Series that
    [row.get] returns for a repeated label, or the chunk itself. *)
Inductive value : Type :=
| Cell (c : scalar)
| SubSeries (cs : list scalar)
| FrameRef.

Definition VNone : value := Cell SNone.

(** [row.get(key)], default [None] *)
Definition row_get (r : row) (key : string) : value :=
  match filter (fun p => String.eqb (fst p) key) r with
  | [] => VNone
  | [p] => Cell (snd p)
  | ps => SubSeries (map snd ps)
  end.

(** Python dictionaries with string keys, in insertion order. *)
Definition dict (V : Type) : Type := list (string * V).

Fixpoint dict_get {V : Type} (d : dict V) (k : string) : option V :=
  match d with
  | [] => None
  | (k', v) :: rest => if String.eqb k' k then Some v else dict_get rest k
  end.

Fixpoint dict_set {V : Type} (d : dict V) (k : string) (v : V) : dict V :=
  match d with
  | [] => [(k, v)]
  | (k', v') :: rest =>
      if String.eqb k' k then (k', v) :: rest else (k', v') :: dict_set rest k v
  end.

Definition dict_keys {V : Type} (d : dict V) : list string := map fst d.

Definition record : Type := dict value.

(* ================================================================= *)
(** ** Schema Registry: the static tables *)

Record SchemaEntry : Type := mkEntry {
  columns : list string;
  column_mapping : dict string
}.

Definition BANK_CODE_MAPPING : dict Z :=
  [("hdfc", 101%Z); ("icici", 102%Z); ("karur_vysya", 40%Z)].

Definition karur_vysya_booking : SchemaEntry :=
  mkEntry
    ["TXN DATE"; "IRCTC ORDER NO."; "BANK BOOKING REF.NO."; "BOOKING AMOUNT";
     "CREDITED ON"]
    [("IRCTCORDERNO", "Order_Id"); ("BANKBOOKINGREFNO", "Bank_Ref_id");
     ("BOOKINGAMOUNT", "Payable_Merchant"); ("TXNDATE", "Transaction_Date");
     ("CREDITEDON", "Settlement_Date")].

Definition karur_vysya_refund : SchemaEntry :=
  mkEntry
    ["REFUND DATE"; "IRCTC ORDER NO."; "BANK BOOKING REF.NO.";
     "BANK REFUND REF.NO."; "REFUND AMOUNT"; "DEBITED ON"]
    [("IRCTCORDERNO", "Order_Id"); ("REFUNDAMOUNT", "Payable_Merchant");
     ("DEBITEDON", "Settlement_Date"); ("REFUNDDATE", "Transaction_Date");
     ("BANKBOOKINGREFNO", "Bank_Ref_id");
     ("BANKREFUNDREFNO", "Refund_Order_Id")].

Definition icici_both : SchemaEntry :=
  mkEntry
    ["POST DATE"; "FT NO."; "SESSION ID [ASPD]"; "ARN NO"; "MID";
     "TRANSACTION DATE"; "NET AMT"; "CARD NUMBER"; "CARD TYPE"; "TID"]
    [("TRANSACTIONDATE", "Transaction_Date"); ("SESSIONID", "Order_Id");
     ("FTNO", "Transaction_Id"); ("ARNNO", "Arn_No"); ("MID", "MID");
     ("POSTDATE", "Settlement_Date"); ("NETAMT", "Payable_Merchant");
     ("CARDNUMBER", "Card_No"); ("CARDTYPE", "Card_type"); ("TID", "Tid")].

Definition BANK_MAPPINGS : dict (dict SchemaEntry) :=
  [("karur_vysya",
    [("booking", karur_vysya_booking); ("refund", karur_vysya_refund)]);
   ("icici", [("both", icici_both)])].

Definition banks_with_mid_override : list string := ["hdfc"; "icici"; "indus"].

Definition transaction_types : list string := ["booking"; "refund"; "both"].

Definition datetime_fields : list string :=
  ["Transaction_Date"; "Settlement_Date"; "Refund_Request_Date";
   "Credit_Debit_Date"; "File_upload_Date"].

(** The keys of the dictionary built for every row, in its order. *)
Definition canonical_fields : list string :=
  ["Transaction_type"; "Merchant_Name"; "MID"; "Transaction_Id"; "Order_Id";
   "Transaction_Date"; "Settlement_Date"; "Refund_Request_Date";
   "Gross_Amount"; "Aggregator_Com"; "Acquirer_Comm"; "Payable_Merchant";
   "Payout_from_Nodal"; "BankName_Receive_Funds"; "Nodal_Account_No";
   "Aggregator_Name"; "Acquirer_Name"; "Refund_Flag"; "Payments_Type";
   "MOP_Type"; "Credit_Debit_Date"; "Bank_Name"; "Refund_Order_Id"; "Acq_Id";
   "Approve_code"; "Arn_No"; "Card_No"; "Tid"; "Remarks"; "Bank_Ref_id";
   "File_upload_Date"; "User_name"; "Recon_Status"; "Mpr_Summary_Trans";
   "Merchant_code"; "Rec_Fmt"; "Card_type"; "Intl_Amount"; "Domestic_Amount";
   "UDF1"; "UDF2"; "UDF3"; "UDF4"; "UDF5"; "UDF6"; "GST_Number";
   "Credit_Debit_Amount"].

Definition monetary_fields : list string :=
  ["Gross_Amount"; "Aggregator_Com"; "Acquirer_Comm"; "Payable_Merchant";
   "Payout_from_Nodal"; "Intl_Amount"; "Domestic_Amount"].

Definition udf_fields : list string :=
  ["UDF1"; "UDF2"; "UDF3"; "UDF4"; "UDF5"; "UDF6"].

(** The entries of the literal that call a converter on the chunk when the
    chunk has a column of that name. *)
Definition converted_fields : list string :=
  ["Refund_Request_Date"; "Gross_Amount"; "Aggregator_Com"; "Acquirer_Comm";
   "Payout_from_Nodal"; "Credit_Debit_Date"; "File_upload_Date"; "Intl_Amount";
   "Domestic_Amount"].

(** The entries read with [row.get]: field and column label. *)
Definition row_fields : list (string * string) :=
  map (fun f => (f, f))
    ["Merchant_Name"; "Transaction_Id"; "Order_Id"; "Transaction_Date";
     "Settlement_Date"; "Payable_Merchant"; "BankName_Receive_Funds";
     "Nodal_Account_No"; "Aggregator_Name"; "Acquirer_Name"; "Refund_Flag";
     "Payments_Type"; "MOP_Type"; "Refund_Order_Id"; "Acq_Id"; "Approve_code";
     "Arn_No"; "Card_No"; "Tid"; "Remarks"; "Bank_Ref_id"; "User_name";
     "Recon_Status"; "Mpr_Summary_Trans"; "Merchant_code"; "Rec_Fmt";
     "Card_type"; "GST_Number"]
  ++ [("Credit_Debit_Amount", "CREDIT_DEBIT_AMOUNT")].

(** The registry read as one table keyed by (bank, category), the way the
    specification describes it. *)
Definition registry : list (string * string * SchemaEntry) :=
  flat_map (fun b => map (fun c => (fst b, fst c, snd c)) (snd b)) BANK_MAPPINGS.

Fixpoint registry_entry_in (table : list (string * string * SchemaEntry))
    (bank category : string) : option SchemaEntry :=
  match table with
  | [] => None
  | (b, c, e) :: rest =>
      if String.eqb b bank && String.eqb c category then Some e
      else registry_entry_in rest bank category
  end.

Definition registry_entry (bank category : string) : option SchemaEntry :=
  registry_entry_in registry bank category.

(** The schema lookup of [process_dataframe_chunk]:
    [BANK_MAPPINGS.get(bank_name, {})], then the category, then ['both']. *)
Definition resolve (bank_name transaction_type : string) : option SchemaEntry :=
  let bank_mapping :=
    match dict_get BANK_MAPPINGS bank_name with
    | Some m => m
    | None => []
    end in
  match dict_get bank_mapping transaction_type with
  | Some columns_mapping => Some columns_mapping
  | None => dict_get bank_mapping "both"
  end.

(** [df_chunk.rename(columns=column_mapping)] on one label *)
Definition rename_label (column_mapping : dict string) (l : string) : string :=
  match dict_get column_mapping l with
  | Some target => target
  | None => l
  end.

(** [[clean_column_name(col) for col in columns_mapping.get('columns', [])]] *)
Definition expected_columns (e : SchemaEntry) : list string :=
  map clean_column_name (columns e).

(** [transaction_results_view] of [views.py]: the pair shown to the user,
    zero/zero when the cache slot is empty. *)
Definition transaction_results_view (slot : option (nat * nat)) : nat * nat :=
  match slot with
  | None => (0, 0)
  | Some results => results
  end.

(* ================================================================= *)
(** ** Reference collaborators and sample chunks

    Stand-ins for the parsers and the database, used to run the pipeline on
    concrete chunks: a reader of plain decimal literals, a date reader that
    accepts strings of digits, and an in-memory table. *)

Definition digit (c : ascii) : option Z :=
  let n := nat_of_ascii c in
  if (48 <=? n) && (n <=? 57) then Some (Z.of_nat (n - 48)) else None.

(** Reads a run of digits: its value on top of [acc], its length, the rest. *)
Fixpoint read_digits (s : list ascii) (acc : Z) (n : nat)
  : Z * nat * list ascii :=
  match s with
  | [] => (acc, n, [])
  | c :: r =>
      match digit c with
      | Some d => read_digits r (10 * acc + d)%Z (S n)
      | None => (acc, n, s)
      end
  end.

(** An optional sign, digits, and an optional fraction; anything else is
    NaN. *)
Definition decimal_literal (s : string) : pyfloat :=
  let cs := chars s in
  let '(negative, cs) :=
    match cs with
    | "-"%char :: r => (true, r)
    | "+"%char :: r => (false, r)
    | _ => (false, cs)
    end in
  let '(whole, n_whole, rest) := read_digits cs 0%Z 0 in
  let '(mantissa, n_frac, rest) :=
    match rest with
    | "."%char :: r => read_digits r whole 0
    | _ => (whole, 0, rest)
    end in
  match rest with
  | [] =>
      if 0 <? n_whole + n_frac then
        Finite (Qred (Qmake (if negative then - mantissa else mantissa)
                        (Z.to_pos (10 ^ Z.of_nat n_frac))))
      else NaN
  | _ => NaN
  end.

(** An optional sign and digits: the integer literals among the decimal
    literals. *)
Definition integer_literal (s : string) : option Z :=
  let cs := chars s in
  let '(negative, cs) :=
    match cs with
    | "-"%char :: r => (true, r)
    | "+"%char :: r => (false, r)
    | _ => (false, cs)
    end in
  match read_digits cs 0%Z 0 with
  | (whole, S _, []) => Some (if negative then - whole else whole)%Z
  | _ => None
  end.

(** A date reader for the examples: a cell holding digits only is a
    timestamp, every other cell is NaT. *)
Definition digits_datetime (column : list scalar) (i : nat) : option Z :=
  match nth i column SNone with
  | SStr s =>
      match read_digits (chars s) 0%Z 0 with
      | (t, S _, []) => Some t
      | _ => None
      end
  | _ => None
  end.

(** An in-memory table that takes every batch, and a database that is down. *)
Definition table_insert (batch : list record) (table : list record)
  : option (list record) := Some (table ++ batch).

Definition table_down (batch : list record) (table : list record)
  : option (list record) := None.

Definition object_column (label : string) (cells : list string)
  : string * Series := (label, ObjectSeries (map SStr cells)).

(** Two spellings of one header: the second has a line feed inside its
    bracketed annotation. *)
Definition amount_header : string := "AMT[INR]".
Definition amount_header_two_lines : string :=
  String.append "AMT[" (String LF "INR]").

(** Three karur_vysya booking rows; rows two and three are the same. *)
Definition karur_booking_chunk : DataFrame :=
  mkDataFrame 3
    [ object_column "TXN DATE" ["20240105"; "20240106"; "20240106"];
      object_column "IRCTC ORDER NO." ["1001"; "1002"; "1002"];
      object_column "BANK BOOKING REF.NO." ["R1"; "R2"; "R2"];
      object_column "BOOKING AMOUNT" ["1,234.50"; "80"; "80"];
      object_column "CREDITED ON" ["20240107"; "bad date"; "bad date"] ].

(** The karur_vysya booking headers over no row at all. *)
Definition karur_empty_chunk : DataFrame :=
  mkDataFrame 0
    [ object_column "TXN DATE" [];
      object_column "IRCTC ORDER NO." [];
      object_column "BANK BOOKING REF.NO." [];
      object_column "BOOKING AMOUNT" [];
      object_column "CREDITED ON" [] ].

(** A karur_vysya booking chunk whose amount header comes twice, in two
    spellings that clean to the same name. *)
Definition karur_two_amounts_chunk : DataFrame :=
  mkDataFrame 1
    [ object_column "TXN DATE" ["20240105"];
      object_column "IRCTC ORDER NO." ["1001"];
      object_column "BANK BOOKING REF.NO." ["R1"];
      object_column "BOOKING AMOUNT" ["80"];
      object_column "BOOKING_AMOUNT" ["80"];
      object_column "CREDITED ON" ["20240107"] ].

(** The same chunk without its amount column. *)
Definition karur_missing_amount_chunk : DataFrame :=
  mkDataFrame 3
    [ object_column "TXN DATE" ["20240105"; "20240106"; "20240106"];
      object_column "IRCTC ORDER NO." ["1001"; "1002"; "1002"];
      object_column "BANK BOOKING REF.NO." ["R1"; "R2"; "R2"];
      object_column "CREDITED ON" ["20240107"; "bad date"; "bad date"] ].

(** Three icici rows with a positive, a negative and an unreadable amount;
    the third row carries a category of its own in an extra column. *)
Definition icici_chunk : DataFrame :=
  mkDataFrame 3
    [ object_column "POST DATE" ["20240107"; "20240108"; "20240109"];
      object_column "FT NO." ["F1"; "F2"; "F3"];
      object_column "SESSION ID [ASPD]" ["S1"; "S2"; "S3"];
      object_column "ARN NO" ["A1"; "A2"; "A3"];
      object_column "MID" ["M1"; "M2"; "M3"];
      object_column "TRANSACTION DATE" ["20240105"; "20240106"; "n/a"];
      object_column "NET AMT" ["50"; "-50"; "abc"];
      object_column "CARD NUMBER" ["C1"; "C2"; "C3"];
      object_column "CARD TYPE" ["V"; "M"; "V"];
      object_column "TID" ["T1"; "T2"; "T3"];
      object_column "Transaction_type" ["booking"; "booking"; "chargeback"] ].

(** Three icici rows whose amounts are all integer literals. *)
Definition icici_integer_chunk : DataFrame :=
  mkDataFrame 3
    [ object_column "POST DATE" ["20240107"; "20240108"; "20240109"];
      object_column "FT NO." ["F1"; "F2"; "F3"];
      object_column "SESSION ID [ASPD]" ["S1"; "S2"; "S3"];
      object_column "ARN NO" ["A1"; "A2"; "A3"];
      object_column "MID" ["M1"; "M2"; "M3"];
      object_column "TRANSACTION DATE" ["20240105"; "20240106"; "n/a"];
      object_column "NET AMT" ["50"; "-50"; "0"];
      object_column "CARD NUMBER" ["C1"; "C2"; "C3"];
      object_column "CARD TYPE" ["V"; "M"; "V"];
      object_column "TID" ["T1"; "T2"; "T3"] ].

(* ================================================================= *)
(** ** Type Coercers, Row Projector and Chunk Processor *)

Section Pipeline.

(** [pandas.to_numeric(..., errors='coerce')] on one string: the float it
    reads, NaN when it reads none. *)
Variable to_numeric_str : string -> pyfloat.

(** The integer [pandas.to_numeric] reads in a string it takes for an
    integer literal; [None] for a string with a fraction, an exponent or no
    number at all. *)
Variable to_integer_str : string -> option Z.

(** [pandas.to_datetime(column, errors='coerce')]: the result at position
    [i] of the column, [None] for NaT.  The whole column is an argument
    because pandas may infer one format for all of it. *)
Variable to_datetime : list scalar -> nat -> option Z.

(** The database behind [Transaction.bulk_create_transactions], called
    inside [transaction.atomic()]: the new state, or [None] when the call
    raises and the transaction is rolled back. *)
Variable Store : Type.
Variable bulk_create_transactions : list record -> Store -> option Store.

(** The database and the cache key ['latest_transaction_results']. *)
Record World : Type := mkWorld {
  db : Store;
  latest_transaction_results : option (nat * nat)
}.

(** [Series.str.replace(',', '')] on one cell: elements that are not
    strings come out as NaN. *)
Definition str_replace_comma (c : scalar) : scalar :=
  match c with
  | SStr s =>
      SStr (text (filter (fun ch => negb (Ascii.eqb ch COMMA)) (chars s)))
  | _ => SFloat NaN
  end.

(** The float [pd.to_numeric] reads in one cell of an object column: the
    element of a float64 result. *)
Definition to_numeric (c : scalar) : pyfloat :=
  match c with
  | SStr s => to_numeric_str s
  | SFloat x => x
  | SInt z => Finite (inject_Z z)
  | SNone | SNaT | STimestamp _ => NaN
  end.

(** The integer [pd.to_numeric] sees in one cell of an object column, if
    it sees one: only a string that reads as a number can be an integer
    literal. *)
Definition to_integer (c : scalar) : option Z :=
  match c with
  | SStr s =>
      match to_numeric_str s with
      | NaN => None
      | _ => to_integer_str s
      end
  | SInt z => Some z
  | _ => None
  end.

Fixpoint integers (cells : list scalar) : option (list Z) :=
  match cells with
  | [] => Some []
  | c :: rest =>
      match to_integer c, integers rest with
      | Some z, Some zs => Some (z :: zs)
      | _, _ => None
      end
  end.

Definition INT64_MIN : Z := (- 2 ^ 63)%Z.
Definition INT64_MAX : Z := (2 ^ 63 - 1)%Z.
Definition UINT64_MAX : Z := (2 ^ 64 - 1)%Z.

Definition in_int64 (z : Z) : bool :=
  (INT64_MIN <=? z)%Z && (z <=? INT64_MAX)%Z.

Definition in_uint64 (z : Z) : bool :=
  (0 <=? z)%Z && (z <=? UINT64_MAX)%Z.

(** [pd.to_numeric] on an object column.  The result is an integer column
    when every cell is an integer and one dtype holds them all: int64, or
    uint64 when one of them is above the int64 range.  A missing cell, a
    cell that is no integer literal, an integer outside both ranges, or a
    negative integer beside one above the int64 range make it float64. *)
Definition to_numeric_series (cells : list scalar) : Series :=
  match integers cells with
  | Some zs =>
      if forallb in_int64 zs then IntSeries false zs
      else if forallb in_uint64 zs then IntSeries true zs
      else FloatSeries (map to_numeric cells)
  | None => FloatSeries (map to_numeric cells)
  end.

(** The amount coercion of one cell: the element of a float64 result. *)
Definition coerce_amount (c : scalar) : pyfloat :=
  to_numeric (str_replace_comma c).

(** The amount coercion of a column. *)
Definition coerce_amounts (cells : list scalar) : Series :=
  to_numeric_series (map str_replace_comma cells).

(** The [.str] accessor exists on object columns only; on a numeric or
    datetime column, and on the DataFrame that [df[col]] is when the label
    repeats, it raises AttributeError. *)
Definition convert_payable_to_float (df : DataFrame) (column_name : string)
  : res DataFrame :=
  match select df column_name with
  | [] => Raise KeyError
  | [ObjectSeries cells] => Ok (setitem df column_name (coerce_amounts cells))
  | _ => Raise AttributeError
  end.

Definition to_datetime_series (s : Series) : Series :=
  let cells := values s in
  DatetimeSeries (map (to_datetime cells) (seq 0 (List.length cells))).

(** [pd.to_datetime] of a DataFrame (repeated label) needs year, month and
    day columns and raises ValueError. *)
Definition convert_column_to_datetime (df : DataFrame) (column_name : string)
  : res DataFrame :=
  match select df column_name with
  | [] => Raise KeyError
  | [s] => Ok (setitem df column_name (to_datetime_series s))
  | _ => Raise ValueError
  end.

(** [Series.fillna(0)] on a numeric column *)
Definition fillna0 (x : pyfloat) : pyfloat :=
  match x with
  | NaN => Finite 0%Q
  | _ => x
  end.

(** [lambda x: 'CREDIT' if x > 0 else 'DEBIT' if x < 0 else None] on an
    element of a float64 column and on an element of an integer column. *)
Definition credit_debit (x : pyfloat) : scalar :=
  if float_gt0 x then SStr "CREDIT"
  else if float_lt0 x then SStr "DEBIT"
  else SNone.

Definition credit_debit_int (z : Z) : scalar :=
  if (0 <? z)%Z then SStr "CREDIT"
  else if (z <? 0)%Z then SStr "DEBIT"
  else SNone.

(** The two assignments made for icici after the amount conversion.  An
    integer column has nothing to fill. *)
Definition icici_credit_debit (df : DataFrame) : res DataFrame :=
  match select df "Payable_Merchant" with
  | [FloatSeries xs] =>
      let filled := map fillna0 xs in
      let df := setitem df "Payable_Merchant" (FloatSeries filled) in
      Ok (setitem df "CREDIT_DEBIT_AMOUNT"
            (ObjectSeries (map credit_debit filled)))
  | [IntSeries unsigned zs] =>
      let df := setitem df "Payable_Merchant" (IntSeries unsigned zs) in
      Ok (setitem df "CREDIT_DEBIT_AMOUNT"
            (ObjectSeries (map credit_debit_int zs)))
  | [] => Raise KeyError
  | _ => Raise AttributeError
  end.

(** The conversions of [process_dataframe_chunk] between the rename and the
    call of [process_transactions]. *)
Definition coerce_columns (df_chunk : DataFrame) (bank_name : string)
  : res DataFrame :=
  df_chunk <- (if has_column df_chunk "Transaction_Date"
               then convert_column_to_datetime df_chunk "Transaction_Date"
               else Ok df_chunk) ;;
  df_chunk <- (if has_column df_chunk "Settlement_Date"
               then convert_column_to_datetime df_chunk "Settlement_Date"
               else Ok df_chunk) ;;
  if has_column df_chunk "Payable_Merchant" then
    df_chunk <- convert_payable_to_float df_chunk "Payable_Merchant" ;;
    if String.eqb bank_name "icici" then icici_credit_debit df_chunk
    else Ok df_chunk
  else Ok df_chunk.

(** [convert_column_to_datetime(df_chunk, f) if f in df_chunk else None]:
    the field receives the DataFrame the converter returns. *)
Definition datetime_if_present (df : DataFrame) (field : string)
  : res (DataFrame * value) :=
  if has_column df field then
    df <- convert_column_to_datetime df field ;; Ok (df, FrameRef)
  else Ok (df, VNone).

(** [convert_payable_to_float(df_chunk, f) if f in df_chunk else None] *)
Definition float_if_present (df : DataFrame) (field : string)
  : res (DataFrame * value) :=
  if has_column df field then
    df <- convert_payable_to_float df field ;; Ok (df, FrameRef)
  else Ok (df, VNone).

(** The dictionary literal of [process_transactions], given the values of
    the nine entries that call a converter on [df_chunk]. *)
Definition transaction_literal (r : row) (bank_name transaction_type : string)
    (bank_id : Z)
    (Refund_Request_Date Gross_Amount Aggregator_Com Acquirer_Comm
     Payout_from_Nodal Credit_Debit_Date File_upload_Date Intl_Amount
     Domestic_Amount : value) : record :=
  [ ("Transaction_type", Cell (SStr transaction_type));
    ("Merchant_Name", row_get r "Merchant_Name");
    ("MID", if existsb (String.eqb bank_name) banks_with_mid_override
            then row_get r "MID" else Cell (SInt bank_id));
    ("Transaction_Id", row_get r "Transaction_Id");
    ("Order_Id", row_get r "Order_Id");
    ("Transaction_Date", row_get r "Transaction_Date");
    ("Settlement_Date", row_get r "Settlement_Date");
    ("Refund_Request_Date", Refund_Request_Date);
    ("Gross_Amount", Gross_Amount);
    ("Aggregator_Com", Aggregator_Com);
    ("Acquirer_Comm", Acquirer_Comm);
    ("Payable_Merchant", row_get r "Payable_Merchant");
    ("Payout_from_Nodal", Payout_from_Nodal);
    ("BankName_Receive_Funds", row_get r "BankName_Receive_Funds");
    ("Nodal_Account_No", row_get r "Nodal_Account_No");
    ("Aggregator_Name", row_get r "Aggregator_Name");
    ("Acquirer_Name", row_get r "Acquirer_Name");
    ("Refund_Flag", row_get r "Refund_Flag");
    ("Payments_Type", row_get r "Payments_Type");
    ("MOP_Type", row_get r "MOP_Type");
    ("Credit_Debit_Date", Credit_Debit_Date);
    ("Bank_Name", Cell (SStr bank_name));
    ("Refund_Order_Id", row_get r "Refund_Order_Id");
    ("Acq_Id", row_get r "Acq_Id");
    ("Approve_code", row_get r "Approve_code");
    ("Arn_No", row_get r "Arn_No");
    ("Card_No", row_get r "Card_No");
    ("Tid", row_get r "Tid");
    ("Remarks", row_get r "Remarks");
    ("Bank_Ref_id", row_get r "Bank_Ref_id");
    ("File_upload_Date", File_upload_Date);
    ("User_name", row_get r "User_name");
    ("Recon_Status", row_get r "Recon_Status");
    ("Mpr_Summary_Trans", row_get r "Mpr_Summary_Trans");
    ("Merchant_code", row_get r "Merchant_code");
    ("Rec_Fmt", row_get r "Rec_Fmt");
    ("Card_type", row_get r "Card_type");
    ("Intl_Amount", Intl_Amount);
    ("Domestic_Amount", Domestic_Amount);
    ("UDF1", VNone);
    ("UDF2", VNone);
    ("UDF3", VNone);
    ("UDF4", VNone);
    ("UDF5", VNone);
    ("UDF6", VNone);
    ("GST_Number", row_get r "GST_Number");
    ("Credit_Debit_Amount", row_get r "CREDIT_DEBIT_AMOUNT") ].

(** The evaluation of that literal: the nine calls on [df_chunk] run in the
    order of the literal, each on the chunk the previous one left; the other
    entries read the row only. *)
Definition transaction_data (r : row) (df_chunk : DataFrame)
    (bank_name transaction_type : string) (bank_id : Z)
  : res (DataFrame * record) :=
  '(df_chunk, Refund_Request_Date) <-
      datetime_if_present df_chunk "Refund_Request_Date" ;;
  '(df_chunk, Gross_Amount) <- float_if_present df_chunk "Gross_Amount" ;;
  '(df_chunk, Aggregator_Com) <- float_if_present df_chunk "Aggregator_Com" ;;
  '(df_chunk, Acquirer_Comm) <- float_if_present df_chunk "Acquirer_Comm" ;;
  '(df_chunk, Payout_from_Nodal) <-
      float_if_present df_chunk "Payout_from_Nodal" ;;
  '(df_chunk, Credit_Debit_Date) <-
      datetime_if_present df_chunk "Credit_Debit_Date" ;;
  '(df_chunk, File_upload_Date) <-
      datetime_if_present df_chunk "File_upload_Date" ;;
  '(df_chunk, Intl_Amount) <- float_if_present df_chunk "Intl_Amount" ;;
  '(df_chunk, Domestic_Amount) <-
      float_if_present df_chunk "Domestic_Amount" ;;
  Ok (df_chunk,
      transaction_literal r bank_name transaction_type bank_id
        Refund_Request_Date Gross_Amount Aggregator_Com Acquirer_Comm
        Payout_from_Nodal Credit_Debit_Date File_upload_Date Intl_Amount
        Domestic_Amount).

(** [transaction_data[field] is pd.NaT] *)
Definition is_NaT (v : value) : bool :=
  match v with
  | Cell SNaT => true
  | _ => false
  end.

(** The loop of [handle_nat_in_datetime_fields]; a missing key raises. *)
Fixpoint handle_nat_fields (fields : list string) (td : record) : res record :=
  match fields with
  | [] => Ok td
  | field :: rest =>
      match dict_get td field with
      | None => Raise KeyError
      | Some v =>
          handle_nat_fields rest
            (if is_NaT v then dict_set td field VNone else td)
      end
  end.

Definition handle_nat_in_datetime_fields (td : record) : res record :=
  handle_nat_fields datetime_fields td.

(** The state of the row loop of [process_transactions]. *)
Record loop_state : Type := mkLoop {
  chunk : DataFrame;
  bulk_data_transactions : list record;
  success_count : nat;
  fail_count : nat
}.

(** [for index, row in df_chunk.iterrows(): ...]; the rows are those of the
    chunk when the loop starts. *)
Fixpoint row_loop (rows : list row) (bank_name transaction_type : string)
    (bank_id : Z) (st : loop_state) : res loop_state :=
  match rows with
  | [] => Ok st
  | r :: rest =>
      if negb (existsb (String.eqb transaction_type) transaction_types) then
        row_loop rest bank_name transaction_type bank_id
          (mkLoop (chunk st) (bulk_data_transactions st)
                  (success_count st) (fail_count st + 1))
      else
        '(df, td) <- transaction_data r (chunk st) bank_name
                       transaction_type bank_id ;;
        td <- handle_nat_in_datetime_fields td ;;
        row_loop rest bank_name transaction_type bank_id
          (mkLoop df (bulk_data_transactions st ++ [td])
                  (success_count st + 1) (fail_count st))
  end.

(** The end of [process_transactions], after the loop: the bulk insert of a
    non-empty batch inside [try], the counters, the cache write and the
    returned dictionary. *)
Definition commit_and_publish (st : loop_state) (w : World)
  : option (nat * nat) * World :=
  let batch := bulk_data_transactions st in
  let '(store, fail_count) :=
    match batch with
    | [] => (db w, fail_count st)
    | _ =>
        match bulk_create_transactions batch (db w) with
        | Some store => (store, fail_count st)
        | None => (db w, fail_count st + List.length batch)
        end
    end in
  let results := (success_count st, fail_count) in
  (Some results, mkWorld store (Some results)).

(** [process_transactions]: the returned dictionary, [None] on the early
    return, and the world it leaves. *)
Definition process_transactions (df_chunk : DataFrame)
    (bank_name transaction_type : string) (w : World)
  : res (option (nat * nat) * World) :=
  match dict_get BANK_CODE_MAPPING bank_name with
  | None => Ok (None, w)
  | Some bank_id =>
      st <- row_loop (iterrows df_chunk) bank_name transaction_type bank_id
              (mkLoop df_chunk [] 0 0) ;;
      Ok (commit_and_publish st w)
  end.

(** [process_dataframe_chunk]; it returns [None] on every path, so only
    the world is given back. *)
Definition process_dataframe_chunk (df_chunk : DataFrame)
    (bank_name transaction_type : string) (w : World) : res World :=
  let df_chunk := map_labels clean_column_name df_chunk in
  match resolve bank_name transaction_type with
  | None => Ok w
  | Some columns_mapping =>
      if forallb (has_column df_chunk) (expected_columns columns_mapping) then
        let df_chunk :=
          map_labels (rename_label (column_mapping columns_mapping)) df_chunk in
        df_chunk <- coerce_columns df_chunk bank_name ;;
        out <- process_transactions df_chunk bank_name transaction_type w ;;
        Ok (snd out)
      else Ok w
  end.

(** The chunk as [process_transactions] receives it. *)
Definition prepared (df_chunk : DataFrame) (columns_mapping : SchemaEntry)
    (bank_name : string) : res DataFrame :=
  coerce_columns
    (map_labels (rename_label (column_mapping columns_mapping))
       (map_labels clean_column_name df_chunk))
    bank_name.

(** The chunk loop of [process_uploaded_files] for one file, inside its
    [try]: an exception raised by a chunk is caught, the rest of the file
    is skipped and the submission goes on from the world reached so far. *)
Fixpoint process_file_chunks (df_chunks : list DataFrame)
    (bank_name transaction_type : string) (w : World) : World :=
  match df_chunks with
  | [] => w
  | df_chunk :: rest =>
      match process_dataframe_chunk df_chunk bank_name transaction_type w with
      | Ok w => process_file_chunks rest bank_name transaction_type w
      | Raise _ => w
      end
  end.

(** The string holds a ['_']. *)
Definition has_underscore (s : string) : bool :=
  existsb (fun c => Ascii.eqb c UNDERSCORE) (chars s).

(** The chunk has none of the columns that the literal would convert. *)
Definition no_converted_columns (df : DataFrame) : Prop :=
  forall f, In f converted_fields -> has_column df f = false.

(** The three entries of the registry. *)
Definition schema_entries : list SchemaEntry :=
  [karur_vysya_booking; karur_vysya_refund; icici_both].

(** [td] is the record emitted for row [r] of a chunk without converted
    columns: the literal, then the NaT pass. *)
Definition projected (r : row) (bank_name transaction_type : string)
    (bank_id : Z) (td : record) : Prop :=
  handle_nat_in_datetime_fields
    (transaction_literal r bank_name transaction_type bank_id
       VNone VNone VNone VNone VNone VNone VNone VNone VNone) = Ok td.

(** The MID the code assigns for a bank with code [bank_id]. *)
Definition assigned_mid (r : row) (bank_name : string) (bank_id : Z) : value :=
  if existsb (String.eqb bank_name) banks_with_mid_override
  then row_get r "MID" else Cell (SInt bank_id).

(** A monetary field holds [None] or a number: a float (NaN included) or
    an integer. *)
Definition nullable_decimal (v : value) : Prop :=
  v = VNone \/ (exists x, v = Cell (SFloat x)) \/ (exists z, v = Cell (SInt z)).

(** The sign of a float, stated with the order of the rationals. *)
Definition positive (x : pyfloat) : Prop :=
  match x with
  | Finite q => (0 < q)%Q
  | PosInf => True
  | NegInf | NaN => False
  end.

Definition negative (x : pyfloat) : Prop :=
  match x with
  | Finite q => (q < 0)%Q
  | NegInf => True
  | PosInf | NaN => False
  end.

Definition is_zero (x : pyfloat) : Prop :=
  match x with
  | Finite q => (q == 0)%Q
  | _ => False
  end.

(** The amount the label is derived from, and the label, for one raw cell of
    the icici amount column when the coerced column is float64. *)
Definition signed_amount (c : scalar) : pyfloat := fillna0 (coerce_amount c).
Definition credit_debit_of (c : scalar) : scalar := credit_debit (signed_amount c).

(** The icici amount column after [fillna(0)], and the labels derived from
    it. *)
Definition filled_amounts (s : Series) : Series :=
  match s with
  | FloatSeries xs => FloatSeries (map fillna0 xs)
  | _ => s
  end.

Definition amount_labels (s : Series) : list scalar :=
  match s with
  | FloatSeries xs => map credit_debit (map fillna0 xs)
  | IntSeries _ zs => map credit_debit_int zs
  | _ => []
  end.

(** The content of the cache slot after a run; [None] also when the run
    raised. *)
Definition published (run : res World) : option (nat * nat) :=
  match run with
  | Ok w => latest_transaction_results w
  | Raise _ => None
  end.

(* ================================================================= *)
(** ** Batch Coordinator: [process_uploaded_files] *)

(** [str.startswith] and [str.endswith] *)
Fixpoint starts_with (p s : list ascii) : bool :=
  match p, s with
  | [], _ => true
  | _ :: _, [] => false
  | a :: p', b :: s' => Ascii.eqb a b && starts_with p' s'
  end.

Definition endswith (s suffix : string) : bool :=
  starts_with (rev (chars suffix)) (rev (chars s)).

(** What iterating the reader of [pd.read_csv(..., chunksize=50000)] gives:
    chunks, then the end of the file or an exception. *)
Inductive reader : Type :=
| ReaderEnd
| ReaderChunk (df_chunk : DataFrame) (rest : reader)
| ReaderError (e : exn).

(** The two decoders of pandas, arguments of the coordinator:
    [read_excel content engine] is
    [pd.read_excel(BytesIO(content), dtype=str, engine=engine)], and
    [read_csv content] is [pd.read_csv(BytesIO(content), ...,
    chunksize=50000)], the reader or the exception raised when it is
    opened. *)
Definition excel_decoder : Type := string -> string -> res DataFrame.
Definition csv_decoder : Type := string -> res reader.

(** The chunk loop over a CSV reader, inside the [try] of its file. *)
Fixpoint process_reader (df_chunks : reader)
    (bank_name transaction_type : string) (w : World) : World :=
  match df_chunks with
  | ReaderEnd => w
  | ReaderError _ => w
  | ReaderChunk df_chunk rest =>
      match process_dataframe_chunk df_chunk bank_name transaction_type w with
      | Ok w => process_reader rest bank_name transaction_type w
      | Raise _ => w
      end
  end.

(** One turn of the file loop: the body of the inner [try], with its
    [except Exception: ... continue].  [file_formats[file_index]] raises
    IndexError past the end of the list. *)
Definition process_file (read_excel : excel_decoder) (read_csv : csv_decoder)
    (file_index : nat) (file_content file_name : string)
    (bank_name transaction_type : string) (file_formats : list string)
    (w : World) : World :=
  match nth_error file_formats file_index with
  | None => w
  | Some file_format =>
      if String.eqb file_format "excel" then
        if endswith file_name ".xlsx" then
          match read_excel file_content "openpyxl" with
          | Ok df => process_file_chunks [df] bank_name transaction_type w
          | Raise _ => w
          end
        else if endswith file_name ".xls" then
          match read_excel file_content "xlrd" with
          | Ok df => process_file_chunks [df] bank_name transaction_type w
          | Raise _ => w
          end
        else process_file_chunks [] bank_name transaction_type w
      else if String.eqb file_format "csv" then
        match read_csv file_content with
        | Ok df_chunks => process_reader df_chunks bank_name transaction_type w
        | Raise _ => w
        end
      else w
  end.

(** [for file_index, (file_content, file_name) in enumerate(file_contents)] *)
Fixpoint process_files_from (read_excel : excel_decoder)
    (read_csv : csv_decoder) (file_index : nat)
    (file_contents : list (string * string))
    (bank_name transaction_type : string) (file_formats : list string)
    (w : World) : World :=
  match file_contents with
  | [] => w
  | (file_content, file_name) :: rest =>
      process_files_from read_excel read_csv (S file_index) rest bank_name
        transaction_type file_formats
        (process_file read_excel read_csv file_index file_content file_name
           bank_name transaction_type file_formats w)
  end.

Definition process_uploaded_files (read_excel : excel_decoder)
    (read_csv : csv_decoder) (file_contents : list (string * string))
    (bank_name transaction_type : string) (file_formats : list string)
    (w : World) : World :=
  process_files_from read_excel read_csv 0 file_contents bank_name
    transaction_type file_formats w.

(** A reader that yields the chunks of [df_chunks] and then goes on as
    [rest]. *)
Fixpoint chunks_then (df_chunks : list DataFrame) (rest : reader) : reader :=
  match df_chunks with
  | [] => rest
  | df_chunk :: more => ReaderChunk df_chunk (chunks_then more rest)
  end.

(** The chunks processed one after the other with nothing caught: the world
    after the last one, or the first exception. *)
Fixpoint run_chunks (df_chunks : list DataFrame)
    (bank_name transaction_type : string) (w : World) : res World :=
  match df_chunks with
  | [] => Ok w
  | df_chunk :: rest =>
      w <- process_dataframe_chunk df_chunk bank_name transaction_type w ;;
      run_chunks rest bank_name transaction_type w
  end.

(* ================================================================= *)
(** ** The upload view: [upload_files] *)

(** An uploaded file: [file.name], [file.size] and what [file.read()]
    returns. *)
Record UploadedFile : Type := mkFile {
  upload_name : string;
  upload_size : nat;
  upload_bytes : string
}.

Inductive response : Type :=
| JsonResponse (message : string) (status : nat)
| Render (template : string).

(** The arguments of [process_uploaded_files.delay]. *)
Record task : Type := mkTask {
  task_file_contents : list (string * string);
  task_bank_name : string;
  task_transaction_type : string;
  task_file_formats : list string
}.

(** The loop of [upload_files] over the files: the two lists built so far,
    or the response of the first file that is refused. *)
Fixpoint collect_files (files : list UploadedFile)
    (file_contents : list (string * string)) (file_formats : list string)
  : response + (list (string * string) * list string) :=
  match files with
  | [] => inr (file_contents, file_formats)
  | file :: rest =>
      if upload_size file =? 0 then
        inl (JsonResponse
               (String.append "File "
                  (String.append (upload_name file) " is empty.")) 400)
      else
        let file_content := upload_bytes file in
        let file_name := upload_name file in
        if endswith file_name ".xlsx" || endswith file_name ".xls" then
          collect_files rest (file_contents ++ [(file_content, file_name)])
            (file_formats ++ ["excel"])
        else if endswith file_name ".csv" then
          collect_files rest (file_contents ++ [(file_content, file_name)])
            (file_formats ++ ["csv"])
        else
          inl (JsonResponse
                 "Unsupported file extension. Only .xlsx, .xls, and .csv files are allowed."
                 400)
  end.

(** [upload_files]: the response, and the task handed to the worker if
    any.  [form_valid] is [form.is_valid()]; the bank and the category are
    the form's cleaned data. *)
Definition upload_files (method : string) (form_valid : bool)
    (bank_name transaction_type : string) (files : list UploadedFile)
  : response * option task :=
  if String.eqb method "POST" then
    if form_valid then
      match collect_files files [] [] with
      | inl refusal => (refusal, None)
      | inr (file_contents, file_formats) =>
          match file_formats with
          | [] =>
              (JsonResponse
                 "Unable to determine file format. Please upload .xlsx or .csv files or .xls files."
                 400, None)
          | _ =>
              (JsonResponse "Files uploaded successfully. Processing started."
                 202,
               Some (mkTask file_contents bank_name transaction_type
                       file_formats))
          end
      end
    else (Render "upload.html", None)
  else (Render "upload.html", None).

(** The format [upload_files] declares for a file name it accepts. *)
Definition declared_format (file_name : string) : option string :=
  if endswith file_name ".xlsx" || endswith file_name ".xls" then Some "excel"
  else if endswith file_name ".csv" then Some "csv"
  else None.

(** A file [upload_files] accepts. *)
Definition acceptable (file : UploadedFile) : bool :=
  negb (upload_size file =? 0)
  && match declared_format (upload_name file) with
     | Some _ => true
     | None => false
     end.

(** Every column holds one cell per row of the index. *)
Definition aligned (df : DataFrame) : Prop :=
  forall l s, In (l, s) (data df) -> List.length (values s) = index_len df.

(** The fields read with [row.get] whose name no schema entry produces and
    no cleaned header can equal. *)
Definition unreachable_fields : list string :=
  ["Merchant_Name"; "BankName_Receive_Funds"; "Nodal_Account_No";
   "Aggregator_Name"; "Acquirer_Name"; "Refund_Flag"; "Payments_Type";
   "MOP_Type"; "Acq_Id"; "Approve_code"; "User_name"; "Recon_Status";
   "Mpr_Summary_Trans"; "Merchant_code"; "Rec_Fmt"; "GST_Number"].

(** No line feed in the header. *)
Definition one_line (s : list ascii) : bool :=
  forallb (fun c => negb (Ascii.eqb c LF)) s.

(** The entries [upload_files] appends for a file it accepts. *)
Definition file_entry (file : UploadedFile) : string * string :=
  (upload_bytes file, upload_name file).

Definition format_entry (file : UploadedFile) : string :=
  match declared_format (upload_name file) with
  | Some file_format => file_format
  | None => ""
  end.

(** What the file loop of the worker does for a file whose declared format
    agrees with its name. *)
Definition decode_by_extension (read_excel : excel_decoder)
    (read_csv : csv_decoder) (file_content file_name : string)
    (bank_name transaction_type : string) (w : World) : World :=
  if endswith file_name ".xlsx" then
    match read_excel file_content "openpyxl" with
    | Ok df => process_file_chunks [df] bank_name transaction_type w
    | Raise _ => w
    end
  else if endswith file_name ".xls" then
    match read_excel file_content "xlrd" with
    | Ok df => process_file_chunks [df] bank_name transaction_type w
    | Raise _ => w
    end
  else
    match read_csv file_content with
    | Ok df_chunks => process_reader df_chunks bank_name transaction_type w
    | Raise _ => w
    end.

(* ================================================================= *)
(** ** Properties of the Header Normalizer *)

Lemma split_from_join (s part : list ascii) :
  py_join (filter nonempty (split_from s part)) = part ++ remove_whitespace s.
Proof.
  revert part; induction s as [|c r IH]; intros part; simpl.
  - destruct part; simpl; [reflexivity | now rewrite app_nil_r].
  - unfold remove_whitespace; simpl. destruct (isspace c); simpl.
    + destruct part; simpl.
      * apply IH.
      * unfold py_join in *. simpl. do 2 f_equal. apply (IH []).
    + rewrite IH. now rewrite <- app_assoc.
Qed.

Lemma lstrip_no_space (s : list ascii) :
  forallb (fun c => negb (isspace c)) s = true -> lstrip s = s.
Proof.
  destruct s as [|c r]; simpl; [reflexivity|].
  intros H. apply andb_true_iff in H as [H _].
  now destruct (isspace c).
Qed.

Lemma strip_no_space (s : list ascii) :
  forallb (fun c => negb (isspace c)) s = true -> strip s = s.
Proof.
  intros H. unfold strip, rstrip. rewrite (lstrip_no_space s H).
  rewrite lstrip_no_space.
  - apply rev_involutive.
  - rewrite forallb_forall in *. intros x Hx. apply H. now apply in_rev.
Qed.

Lemma remove_punct_no_space (s : list ascii) :
  forallb (fun c => negb (isspace c)) (remove_punct (remove_whitespace s)) = true.
Proof.
  apply forallb_forall. intros x Hx.
  unfold remove_punct, remove_whitespace in Hx.
  apply filter_In in Hx as [Hx _]. now apply filter_In in Hx as [_ Hx].
Qed.

Lemma clean_chars_passes (h : list ascii) :
  clean_chars h
  = strip (remove_punct (remove_whitespace (remove_bracketed h))).
Proof.
  unfold clean_chars, py_split, column_cleaning_regex_sub, remove_bracketed.
  now rewrite split_from_join.
Qed.

Lemma filter_filter_kept (s : list ascii) :
  remove_punct (remove_whitespace s) = filter kept s.
Proof.
  unfold remove_punct, remove_whitespace, kept.
  induction s as [|c r IH]; simpl; [reflexivity|].
  destruct (isspace c); simpl; [exact IH|].
  destruct (is_punct c); simpl; [exact IH | now rewrite IH].
Qed.

Lemma clean_chars_kept (h : list ascii) :
  clean_chars h = filter kept (regex_sub h false).
Proof.
  rewrite clean_chars_passes, strip_no_space.
  - apply filter_filter_kept.
  - apply remove_punct_no_space.
Qed.
Lemma closes_app (a b : list ascii) :
  closes (a ++ b) = closes a || (plain a && closes b).
Proof.
  induction a as [|c r IH]; simpl; [reflexivity|].
  destruct (Ascii.eqb c RBRACKET); simpl; [reflexivity|].
  destruct (Ascii.eqb c LF); simpl; [reflexivity | exact IH].
Qed.

Lemma closes_insert (c : ascii) (a b : list ascii) :
  c <> RBRACKET -> c <> LF -> closes (a ++ c :: b) = closes (a ++ b).
Proof.
  intros Hr Hl. rewrite !closes_app. simpl.
  apply Ascii.eqb_neq in Hr, Hl. now rewrite Hr, Hl.
Qed.

Lemma regex_sub_insert_junk (c : ascii) :
  kept c = false -> c <> LBRACKET -> c <> RBRACKET -> c <> LF ->
  forall a b inside,
    filter kept (regex_sub (a ++ c :: b) inside)
    = filter kept (regex_sub (a ++ b) inside).
Proof.
  intros Hk Hlb Hrb Hlf a.
  pose proof (proj2 (Ascii.eqb_neq _ _) Hlb) as Elb.
  pose proof (proj2 (Ascii.eqb_neq _ _) Hrb) as Erb.
  induction a as [|x r IH]; intros b inside; simpl.
  - destruct inside.
    + now rewrite Erb.
    + rewrite Elb. simpl. now rewrite Hk.
  - destruct inside.
    + destruct (Ascii.eqb x RBRACKET); apply IH.
    + rewrite (closes_insert c r b Hrb Hlf).
      destruct (Ascii.eqb x LBRACKET && closes (r ++ b)); simpl.
      * apply IH.
      * now rewrite IH.
Qed.

Lemma pending_cons (x : ascii) (a : list ascii) :
  pending (x :: a) = false ->
  pending a = false /\ (Ascii.eqb x LBRACKET && plain a) = false.
Proof. simpl. intros H. now apply orb_false_iff in H. Qed.

Lemma regex_sub_insert_LF (a : list ascii) :
  forall b, inside_bracket a b = false ->
    filter kept (regex_sub (a ++ LF :: b) false)
    = filter kept (regex_sub (a ++ b) false)
    /\ (closes a = true ->
        filter kept (regex_sub (a ++ LF :: b) true)
        = filter kept (regex_sub (a ++ b) true)).
Proof.
  induction a as [|x r IH]; intros b Hin.
  - split; [reflexivity | discriminate].
  - assert (Hr : inside_bracket r b = false).
    { unfold inside_bracket in *. simpl in Hin.
      destruct (closes b); [|now rewrite andb_false_r].
      rewrite andb_true_r in *. now apply orb_false_iff in Hin. }
    destruct (IH b Hr) as [IHout IHin]. split.
    + simpl. rewrite !closes_app. simpl.
      destruct (Ascii.eqb x LBRACKET) eqn:Ex; simpl.
      * destruct (closes r) eqn:Ec; simpl.
        -- now apply IHin.
        -- rewrite andb_false_r. simpl.
           assert (Hp : (plain r && closes b) = false).
           { unfold inside_bracket in Hin. simpl in Hin. rewrite Ex in Hin.
             simpl in Hin. destruct (closes b); [|now rewrite andb_false_r].
             rewrite andb_true_r in *. now apply orb_false_iff in Hin. }
           rewrite Hp. simpl. now rewrite IHout.
      * now rewrite IHout.
    + simpl. intros Hc.
      destruct (Ascii.eqb x RBRACKET); [exact IHout|].
      destruct (Ascii.eqb x LF); [discriminate | now apply IHin].
Qed.

Lemma regex_sub_annotation (c : list ascii) :
  plain c = true -> regex_sub (c ++ [RBRACKET]) true = [] /\ closes (c ++ [RBRACKET]) = true.
Proof.
  induction c as [|x r IH]; simpl; intros H; [now split|].
  apply andb_true_iff in H as [Hx Hr].
  apply andb_true_iff in Hx as [H1 H2].
  apply negb_true_iff in H1, H2. rewrite H1, H2. now apply IH.
Qed.

Lemma regex_sub_suffix (c : list ascii) :
  plain c = true ->
  forall a, pending a = false ->
    regex_sub (a ++ LBRACKET :: c ++ [RBRACKET]) false = regex_sub a false
    /\ (closes a = true ->
        regex_sub (a ++ LBRACKET :: c ++ [RBRACKET]) true = regex_sub a true).
Proof.
  intros Hc. destruct (regex_sub_annotation c Hc) as [Hsub Hcl].
  induction a as [|x r IH]; intros Hp.
  - split; [|discriminate]. simpl. now rewrite Hcl.
  - apply pending_cons in Hp as [Hp Hx].
    destruct (IH Hp) as [IHout IHin]. split.
    + simpl. rewrite closes_app.
      assert (Hs : closes (LBRACKET :: c ++ [RBRACKET]) = true) by exact Hcl.
      rewrite Hs, andb_true_r.
      destruct (Ascii.eqb x LBRACKET) eqn:Ex; simpl.
      * simpl in Hx. rewrite Hx, orb_false_r.
        destruct (closes r) eqn:Ec; [now apply IHin | now rewrite IHout].
      * now rewrite IHout.
    + simpl. intros Hcx.
      destruct (Ascii.eqb x RBRACKET); [exact IHout|].
      destruct (Ascii.eqb x LF); [discriminate | now apply IHin].
Qed.

Lemma space_not_special (w : ascii) :
  isspace w = true -> w <> LBRACKET /\ w <> RBRACKET.
Proof. intros H; split; intros ->; discriminate H. Qed.

Lemma punct_not_special (p : ascii) :
  is_punct p = true -> p <> LBRACKET /\ p <> RBRACKET /\ p <> LF.
Proof.
  unfold is_punct. intros H. apply orb_true_iff in H as [H|H];
    apply Ascii.eqb_eq in H; subst p; repeat split; discriminate.
Qed.

Lemma variant_step_clean (h1 h2 : list ascii) :
  variant_step h1 h2 -> clean_chars h1 = clean_chars h2.
Proof.
  intros H. rewrite !clean_chars_kept. destruct H as [a w b Hw Hlf | a b Hin | a p b Hp | h c Hh Hc].
  - destruct (space_not_special w Hw) as [H1 H2]. symmetry.
    apply regex_sub_insert_junk; auto. unfold kept. now rewrite Hw.
  - symmetry. now apply regex_sub_insert_LF.
  - destruct (punct_not_special p Hp) as (H1 & H2 & H3). symmetry.
    apply regex_sub_insert_junk; auto. unfold kept. rewrite Hp. apply andb_false_r.
  - f_equal. symmetry. now apply regex_sub_suffix.
Qed.

Lemma header_variant_clean (h1 h2 : list ascii) :
  header_variant h1 h2 -> clean_chars h1 = clean_chars h2.
Proof.
  induction 1 as [x y H | x | x y _ IH | x y z _ IH1 _ IH2].
  - now apply variant_step_clean.
  - reflexivity.
  - now symmetry.
  - now transitivity (clean_chars y).
Qed.

(* ================================================================= *)
(** ** Dictionaries, labels and columns *)

Lemma bind_Ok {A B : Type} (c : res A) (k : A -> res B) (b : B) :
  bind c k = Ok b -> exists a, c = Ok a /\ k a = Ok b.
Proof. destruct c as [a|e]; simpl; [eauto | discriminate]. Qed.

Lemma dict_get_set_same {V : Type} (d : dict V) (k : string) (v : V) :
  dict_get (dict_set d k v) k = Some v.
Proof.
  induction d as [|[k' v'] rest IH]; simpl.
  - now rewrite String.eqb_refl.
  - destruct (String.eqb k' k) eqn:E; simpl; rewrite E; [reflexivity | exact IH].
Qed.

Lemma dict_get_set_other {V : Type} (d : dict V) (k k0 : string) (v : V) :
  k <> k0 -> dict_get (dict_set d k v) k0 = dict_get d k0.
Proof.
  intros Hne. induction d as [|[k' v'] rest IH]; simpl.
  - apply String.eqb_neq in Hne. now rewrite Hne.
  - destruct (String.eqb k' k) eqn:E; simpl.
    + apply String.eqb_eq in E; subst k'.
      apply String.eqb_neq in Hne. now rewrite Hne.
    + destruct (String.eqb k' k0); [reflexivity | exact IH].
Qed.

Lemma dict_keys_set {V : Type} (d : dict V) (k : string) (v v0 : V) :
  dict_get d k = Some v0 -> dict_keys (dict_set d k v) = dict_keys d.
Proof.
  induction d as [|[k' v'] rest IH]; simpl; [discriminate|].
  destruct (String.eqb k' k); simpl; [reflexivity|].
  intros H. f_equal. now apply IH.
Qed.

Lemma labels_map_labels (f : string -> string) (df : DataFrame) :
  labels (map_labels f df) = map f (labels df).
Proof. unfold labels, map_labels; simpl. now rewrite !map_map. Qed.

Lemma has_column_In (df : DataFrame) (col : string) :
  has_column df col = true <-> In col (labels df).
Proof.
  unfold has_column. rewrite existsb_exists. split.
  - intros (l & Hl & E). apply String.eqb_eq in E. now subst.
  - intros H. exists col. split; [exact H | apply String.eqb_refl].
Qed.

Lemma select_has_column (df : DataFrame) (col : string) :
  select df col <> [] -> has_column df col = true.
Proof.
  unfold select, has_column, labels.
  induction (data df) as [|[l s] rest IH]; simpl; [congruence|].
  rewrite (String.eqb_sym col l). destruct (String.eqb l col); simpl; auto.
Qed.

Lemma select_nil (df : DataFrame) (col : string) :
  has_column df col = false -> select df col = [].
Proof.
  intros H. destruct (select df col) eqn:E; [reflexivity|].
  rewrite select_has_column in H; [discriminate | now rewrite E].
Qed.

Lemma labels_setitem (df : DataFrame) (col : string) (s : Series) :
  labels (setitem df col s)
  = if has_column df col then labels df else labels df ++ [col].
Proof.
  unfold setitem. destruct (has_column df col); unfold labels; simpl.
  - rewrite map_map. apply map_ext. intros [l s']; simpl.
    now destruct (String.eqb l col).
  - now rewrite map_app.
Qed.

Lemma index_len_setitem (df : DataFrame) (col : string) (s : Series) :
  index_len (setitem df col s) = index_len df.
Proof. unfold setitem. now destruct (has_column df col). Qed.

Lemma select_setitem_other (df : DataFrame) (col col' : string) (s : Series) :
  col <> col' -> select (setitem df col s) col' = select df col'.
Proof.
  intros Hne. apply String.eqb_neq in Hne.
  unfold setitem, select. destruct (has_column df col); simpl.
  - induction (data df) as [|[l s'] rest IH]; simpl; [reflexivity|].
    destruct (String.eqb l col) eqn:E; simpl.
    + apply String.eqb_eq in E; subst l. rewrite Hne. exact IH.
    + destruct (String.eqb l col'); simpl; now rewrite IH.
  - rewrite filter_app, map_app. simpl. rewrite Hne. simpl. apply app_nil_r.
Qed.

Lemma select_setitem_same (df : DataFrame) (col : string) (s s0 : Series) :
  select df col = [s0] -> select (setitem df col s) col = [s].
Proof.
  intros H. unfold setitem. rewrite select_has_column by now rewrite H.
  revert H. unfold select; simpl.
  induction (data df) as [|[l s'] rest IH]; simpl; [discriminate|].
  destruct (String.eqb l col) eqn:E; simpl; rewrite E; simpl.
  - intros H. injection H as _ H. f_equal.
    clear IH. induction rest as [|[l2 s2] rest IH2]; simpl in *; [reflexivity|].
    destruct (String.eqb l2 col) eqn:E2; simpl in *; [discriminate|].
    rewrite E2. now apply IH2.
  - exact IH.
Qed.

Lemma select_setitem_new (df : DataFrame) (col : string) (s : Series) :
  has_column df col = false -> select (setitem df col s) col = [s].
Proof.
  intros H. unfold setitem. rewrite H. unfold select; simpl.
  rewrite filter_app, map_app. fold (select df col). rewrite (select_nil _ _ H).
  simpl. now rewrite String.eqb_refl.
Qed.

(* ================================================================= *)
(** ** The converters keep the labels and the index *)

Lemma convert_column_to_datetime_Ok (df df' : DataFrame) (col : string) :
  convert_column_to_datetime df col = Ok df' ->
  exists s, select df col = [s] /\ df' = setitem df col (to_datetime_series s).
Proof.
  unfold convert_column_to_datetime.
  destruct (select df col) as [|s [|s2 rest]]; try discriminate.
  intros H; injection H as <-. now exists s.
Qed.

Lemma convert_payable_to_float_Ok (df df' : DataFrame) (col : string) :
  convert_payable_to_float df col = Ok df' ->
  exists cells, select df col = [ObjectSeries cells]
    /\ df' = setitem df col (coerce_amounts cells).
Proof.
  unfold convert_payable_to_float.
  destruct (select df col) as [|[cells|xs|ts|u zs] [|s2 rest]];
    try discriminate.
  intros H; injection H as <-. now exists cells.
Qed.

Lemma icici_credit_debit_Ok (df df' : DataFrame) :
  icici_credit_debit df = Ok df' ->
  exists s, select df "Payable_Merchant" = [s]
    /\ is_numeric s = true
    /\ df' = setitem (setitem df "Payable_Merchant" (filled_amounts s))
               "CREDIT_DEBIT_AMOUNT" (ObjectSeries (amount_labels s)).
Proof.
  unfold icici_credit_debit.
  destruct (select df "Payable_Merchant") as [|[cells|xs|ts|u zs] [|s2 rest]];
    try discriminate; intros H; injection H as <-.
  - now exists (FloatSeries xs).
  - now exists (IntSeries u zs).
Qed.

Lemma setitem_present_labels (df : DataFrame) (col : string) (s s0 : Series) :
  select df col = [s0] ->
  labels (setitem df col s) = labels df
  /\ index_len (setitem df col s) = index_len df.
Proof.
  intros H. rewrite labels_setitem, index_len_setitem.
  rewrite select_has_column by now rewrite H. now split.
Qed.

Lemma convert_column_to_datetime_frame (df df' : DataFrame) (col : string) :
  convert_column_to_datetime df col = Ok df' ->
  labels df' = labels df /\ index_len df' = index_len df.
Proof.
  intros H. apply convert_column_to_datetime_Ok in H as (s & Hs & ->).
  now apply setitem_present_labels with (s0 := s).
Qed.

Lemma convert_payable_to_float_frame (df df' : DataFrame) (col : string) :
  convert_payable_to_float df col = Ok df' ->
  labels df' = labels df /\ index_len df' = index_len df.
Proof.
  intros H. apply convert_payable_to_float_Ok in H as (cells & Hs & ->).
  now apply setitem_present_labels with (s0 := ObjectSeries cells).
Qed.

Lemma icici_credit_debit_frame (df df' : DataFrame) :
  icici_credit_debit df = Ok df' ->
  index_len df' = index_len df
  /\ forall l, In l (labels df') -> In l (labels df) \/ l = "CREDIT_DEBIT_AMOUNT".
Proof.
  intros H. apply icici_credit_debit_Ok in H as (s & Hs & _ & ->).
  destruct (setitem_present_labels df "Payable_Merchant"
              (filled_amounts s) _ Hs) as [Hl Hi].
  split.
  - now rewrite index_len_setitem.
  - intros l. rewrite labels_setitem, Hl.
    destruct (has_column _ _); [auto|].
    rewrite in_app_iff. simpl. intuition.
Qed.

Lemma coerce_columns_frame (df df' : DataFrame) (bank_name : string) :
  coerce_columns df bank_name = Ok df' ->
  index_len df' = index_len df
  /\ forall l, In l (labels df') -> In l (labels df) \/ l = "CREDIT_DEBIT_AMOUNT".
Proof.
  unfold coerce_columns. intros H.
  apply bind_Ok in H as (df1 & H1 & H).
  apply bind_Ok in H as (df2 & H2 & H).
  assert (E1 : labels df1 = labels df /\ index_len df1 = index_len df).
  { destruct (has_column df "Transaction_Date").
    - now apply convert_column_to_datetime_frame in H1.
    - injection H1 as <-. now split. }
  assert (E2 : labels df2 = labels df1 /\ index_len df2 = index_len df1).
  { destruct (has_column df1 "Settlement_Date").
    - now apply convert_column_to_datetime_frame in H2.
    - injection H2 as <-. now split. }
  destruct E1 as [L1 I1], E2 as [L2 I2].
  destruct (has_column df2 "Payable_Merchant").
  - apply bind_Ok in H as (df3 & H3 & H).
    apply convert_payable_to_float_frame in H3 as [L3 I3].
    destruct (String.eqb bank_name "icici").
    + apply icici_credit_debit_frame in H as [I4 L4]. split.
      * congruence.
      * intros l Hl. apply L4 in Hl. rewrite L3, L2, L1 in Hl. exact Hl.
    + injection H as <-. split; [congruence|].
      intros l Hl. left. now rewrite L3, L2, L1 in Hl.
  - injection H as <-. split; [congruence|].
    intros l Hl. left. now rewrite L2, L1 in Hl.
Qed.

(* ================================================================= *)
(** ** Column names that reach [process_transactions] *)

Lemma chars_text (l : list ascii) : chars (text l) = l.
Proof. apply list_ascii_of_string_of_list_ascii. Qed.

Lemma clean_no_underscore (l : string) :
  has_underscore (clean_column_name l) = false.
Proof.
  unfold has_underscore, clean_column_name. rewrite chars_text, clean_chars_kept.
  apply not_true_is_false. intros H.
  apply existsb_exists in H as (c & Hc & E).
  apply Ascii.eqb_eq in E; subst c.
  apply filter_In in Hc as [_ Hc]. discriminate Hc.
Qed.

Lemma converted_has_underscore (f : string) :
  In f converted_fields -> has_underscore f = true.
Proof.
  simpl. intros H.
  repeat (destruct H as [<-|H]; [reflexivity|]). contradiction.
Qed.

Lemma converted_not_credit_debit (f : string) :
  In f converted_fields -> f <> "CREDIT_DEBIT_AMOUNT".
Proof.
  simpl. intros H.
  repeat (destruct H as [<-|H]; [discriminate|]). contradiction.
Qed.

Lemma resolve_schema_entries (bank_name transaction_type : string)
    (e : SchemaEntry) :
  resolve bank_name transaction_type = Some e -> In e schema_entries.
Proof.
  unfold resolve, BANK_MAPPINGS, schema_entries. cbn [dict_get].
  destruct (String.eqb "karur_vysya" bank_name); cbn [dict_get].
  - destruct (String.eqb "booking" transaction_type);
      [intros H; injection H as <-; simpl; auto|].
    destruct (String.eqb "refund" transaction_type);
      [intros H; injection H as <-; simpl; auto | discriminate].
  - destruct (String.eqb "icici" bank_name); cbn [dict_get]; [|discriminate].
    destruct (String.eqb "both" transaction_type);
      intros H; injection H as <-; simpl; auto.
Qed.

Lemma dict_get_In {V : Type} (d : dict V) (k : string) (v : V) :
  dict_get d k = Some v -> In (k, v) d.
Proof.
  induction d as [|[k' v'] rest IH]; simpl; [discriminate|].
  destruct (String.eqb k' k) eqn:E.
  - apply String.eqb_eq in E; subst k'. intros H; injection H as <-. now left.
  - intros H. right. now apply IH.
Qed.

Lemma mapping_targets_not_converted (e : SchemaEntry) (l t : string) :
  In e schema_entries -> dict_get (column_mapping e) l = Some t ->
  ~ In t converted_fields.
Proof.
  intros He Hg Ht. apply dict_get_In in Hg.
  assert (Hall : forallb (fun e =>
            forallb (fun p => negb (existsb (String.eqb (snd p)) converted_fields))
                    (column_mapping e)) schema_entries = true) by reflexivity.
  rewrite forallb_forall in Hall. specialize (Hall e He).
  rewrite forallb_forall in Hall. specialize (Hall (l, t) Hg). cbn [snd] in Hall.
  apply negb_true_iff in Hall.
  assert (Hex : existsb (String.eqb t) converted_fields = true).
  { apply existsb_exists. exists t. split; [exact Ht | apply String.eqb_refl]. }
  congruence.
Qed.

Lemma prepared_no_converted_columns (df df' : DataFrame)
    (bank_name transaction_type : string) (e : SchemaEntry) :
  resolve bank_name transaction_type = Some e ->
  prepared df e bank_name = Ok df' ->
  no_converted_columns df'.
Proof.
  intros Hres Hprep f Hf. apply not_true_is_false. intros Hcol.
  apply has_column_In in Hcol.
  apply coerce_columns_frame in Hprep as [_ Hl].
  destruct (Hl f Hcol) as [Hin | ->].
  - rewrite !labels_map_labels, map_map in Hin.
    apply in_map_iff in Hin as (l & Hl' & _).
    unfold rename_label in Hl'.
    destruct (dict_get (column_mapping e) (clean_column_name l)) as [t|] eqn:Hg.
    + subst t. apply resolve_schema_entries in Hres.
      exact (mapping_targets_not_converted e _ _ Hres Hg Hf).
    + apply converted_has_underscore in Hf. rewrite <- Hl' in Hf.
      now rewrite clean_no_underscore in Hf.
  - now apply converted_not_credit_debit in Hf.
Qed.

Lemma prepared_index_len (df df' : DataFrame) (bank_name : string)
    (e : SchemaEntry) :
  prepared df e bank_name = Ok df' -> index_len df' = index_len df.
Proof. intros H. now apply coerce_columns_frame in H as [H _]. Qed.

Lemma transaction_data_plain (r : row) (df : DataFrame)
    (bank_name transaction_type : string) (bank_id : Z) :
  no_converted_columns df ->
  transaction_data r df bank_name transaction_type bank_id
  = Ok (df, transaction_literal r bank_name transaction_type bank_id
              VNone VNone VNone VNone VNone VNone VNone VNone VNone).
Proof.
  intros H. unfold transaction_data, datetime_if_present, float_if_present.
  repeat (rewrite H by (simpl; auto 12); cbn [bind]). reflexivity.
Qed.

(* ================================================================= *)
(** ** The NaT pass and the row loop *)

Lemma handle_nat_fields_spec (fields : list string) :
  forall td,
    (forall f, In f fields -> dict_get td f <> None) ->
    exists td',
      handle_nat_fields fields td = Ok td'
      /\ dict_keys td' = dict_keys td
      /\ forall k,
           dict_get td' k
           = match dict_get td k with
             | Some v =>
                 Some (if existsb (String.eqb k) fields && is_NaT v
                       then VNone else v)
             | None => None
             end.
Proof.
  induction fields as [|f rest IH]; intros td Hall.
  - exists td. repeat split. intros k. now destruct (dict_get td k).
  - simpl. destruct (dict_get td f) as [v|] eqn:Hf.
    2:{ exfalso. apply (Hall f); [now left | exact Hf]. }
    set (td1 := if is_NaT v then dict_set td f VNone else td).
    assert (Hget : forall k, dict_get td1 k
                   = if String.eqb f k && is_NaT v then Some VNone
                     else dict_get td k).
    { intros k. unfold td1. destruct (is_NaT v).
      - destruct (String.eqb f k) eqn:E; simpl.
        + apply String.eqb_eq in E; subst k. apply dict_get_set_same.
        + apply String.eqb_neq in E. now apply dict_get_set_other.
      - now rewrite andb_false_r. }
    assert (Hkeys : dict_keys td1 = dict_keys td).
    { unfold td1. destruct (is_NaT v); [|reflexivity].
      now apply dict_keys_set with (v0 := v). }
    destruct (IH td1) as (td' & Hrun & Hk & Hv).
    { intros f' Hin. rewrite Hget.
      destruct (String.eqb f f' && is_NaT v); [discriminate|].
      apply Hall. now right. }
    exists td'. split; [exact Hrun|]. split; [congruence|].
    intros k. rewrite Hv, Hget. rewrite (String.eqb_sym k f).
    destruct (String.eqb f k) eqn:E; simpl.
    + apply String.eqb_eq in E; subst k. rewrite Hf.
      destruct (is_NaT v) eqn:En; simpl.
      * now rewrite andb_false_r.
      * now rewrite En, andb_false_r.
    + reflexivity.
Qed.

Lemma literal_keys (r : row) (bank_name transaction_type : string)
    (bank_id : Z) (v1 v2 v3 v4 v5 v6 v7 v8 v9 : value) :
  dict_keys (transaction_literal r bank_name transaction_type bank_id
               v1 v2 v3 v4 v5 v6 v7 v8 v9) = canonical_fields.
Proof. reflexivity. Qed.

Lemma dict_get_keys {V : Type} (d : dict V) (k : string) :
  In k (dict_keys d) -> dict_get d k <> None.
Proof.
  induction d as [|[k' v'] rest IH]; simpl; [tauto|].
  intros [->|H]; [now rewrite String.eqb_refl|].
  destruct (String.eqb k' k); [discriminate | now apply IH].
Qed.

Lemma datetime_fields_canonical (f : string) :
  In f datetime_fields -> In f canonical_fields.
Proof.
  simpl. intros H.
  repeat (destruct H as [<-|H]; [auto 50|]). contradiction.
Qed.

Lemma projected_total (r : row) (bank_name transaction_type : string)
    (bank_id : Z) :
  exists td, projected r bank_name transaction_type bank_id td.
Proof.
  unfold projected, handle_nat_in_datetime_fields.
  destruct (handle_nat_fields_spec datetime_fields
              (transaction_literal r bank_name transaction_type bank_id
                 VNone VNone VNone VNone VNone VNone VNone VNone VNone))
    as (td & Hrun & _).
  - intros f Hf. apply dict_get_keys. rewrite literal_keys.
    now apply datetime_fields_canonical.
  - now exists td.
Qed.

Lemma row_loop_unsupported (rows : list row)
    (bank_name transaction_type : string) (bank_id : Z) :
  existsb (String.eqb transaction_type) transaction_types = false ->
  forall st,
    row_loop rows bank_name transaction_type bank_id st
    = Ok (mkLoop (chunk st) (bulk_data_transactions st) (success_count st)
            (fail_count st + List.length rows)).
Proof.
  intros Hty. induction rows as [|r rest IH]; intros st; cbn [row_loop].
  - simpl. rewrite Nat.add_0_r. now destruct st.
  - rewrite Hty. cbn [negb]. rewrite IH. simpl. do 2 f_equal. lia.
Qed.

Lemma row_loop_supported (rows : list row)
    (bank_name transaction_type : string) (bank_id : Z) :
  existsb (String.eqb transaction_type) transaction_types = true ->
  forall st,
    no_converted_columns (chunk st) ->
    exists tds,
      row_loop rows bank_name transaction_type bank_id st
      = Ok (mkLoop (chunk st) (bulk_data_transactions st ++ tds)
              (success_count st + List.length rows) (fail_count st))
      /\ Forall2 (fun r td => projected r bank_name transaction_type bank_id td)
           rows tds.
Proof.
  intros Hty. induction rows as [|r rest IH]; intros st Hdf.
  - exists []. simpl. rewrite app_nil_r, Nat.add_0_r. split; [now destruct st | constructor].
  - destruct (projected_total r bank_name transaction_type bank_id) as (td & Htd).
    destruct (IH (mkLoop (chunk st) (bulk_data_transactions st ++ [td])
                    (success_count st + 1) (fail_count st)) Hdf)
      as (tds & Hrun & Hall).
    exists (td :: tds). split; [|now constructor].
    cbn [row_loop]. rewrite Hty. cbn [negb].
    rewrite transaction_data_plain by exact Hdf. cbn [bind].
    unfold projected in Htd. rewrite Htd. cbn [bind].
    rewrite Hrun. simpl. rewrite <- app_assoc. simpl. do 2 f_equal. lia.
Qed.

(* ================================================================= *)
(** ** The Chunk Processor *)

Lemma length_iterrows (df : DataFrame) :
  List.length (iterrows df) = index_len df.
Proof. unfold iterrows. now rewrite length_map, length_seq. Qed.

Lemma resolve_bank_code (bank_name transaction_type : string) (e : SchemaEntry) :
  resolve bank_name transaction_type = Some e ->
  exists bank_id, dict_get BANK_CODE_MAPPING bank_name = Some bank_id.
Proof.
  unfold resolve, BANK_MAPPINGS. cbn [dict_get].
  destruct (String.eqb "karur_vysya" bank_name) eqn:Ek.
  - apply String.eqb_eq in Ek; subst bank_name. intros _. now exists 40%Z.
  - destruct (String.eqb "icici" bank_name) eqn:Ei.
    + apply String.eqb_eq in Ei; subst bank_name. intros _. now exists 102%Z.
    + discriminate.
Qed.

Lemma process_dataframe_chunk_passed (df df' : DataFrame)
    (bank_name transaction_type : string) (e : SchemaEntry) (w : World) :
  resolve bank_name transaction_type = Some e ->
  forallb (has_column (map_labels clean_column_name df)) (expected_columns e)
  = true ->
  prepared df e bank_name = Ok df' ->
  process_dataframe_chunk df bank_name transaction_type w
  = (out <- process_transactions df' bank_name transaction_type w ;;
     Ok (snd out)).
Proof.
  intros Hres Hcols Hprep. unfold process_dataframe_chunk.
  rewrite Hres, Hcols. unfold prepared in Hprep. now rewrite Hprep.
Qed.

Lemma process_transactions_unsupported (df : DataFrame)
    (bank_name transaction_type : string) (bank_id : Z) (w : World) :
  dict_get BANK_CODE_MAPPING bank_name = Some bank_id ->
  existsb (String.eqb transaction_type) transaction_types = false ->
  process_transactions df bank_name transaction_type w
  = Ok (Some (0, index_len df), mkWorld (db w) (Some (0, index_len df))).
Proof.
  intros Hcode Hty. unfold process_transactions. rewrite Hcode.
  rewrite (row_loop_unsupported _ _ _ _ Hty). cbn [bind].
  unfold commit_and_publish. simpl. now rewrite length_iterrows.
Qed.

Lemma process_transactions_supported (df : DataFrame)
    (bank_name transaction_type : string) (bank_id : Z) (w : World) :
  dict_get BANK_CODE_MAPPING bank_name = Some bank_id ->
  existsb (String.eqb transaction_type) transaction_types = true ->
  no_converted_columns df ->
  exists tds,
    Forall2 (fun r td => projected r bank_name transaction_type bank_id td)
      (iterrows df) tds
    /\ row_loop (iterrows df) bank_name transaction_type bank_id
         (mkLoop df [] 0 0)
       = Ok (mkLoop df tds (index_len df) 0)
    /\ process_transactions df bank_name transaction_type w
       = Ok (commit_and_publish (mkLoop df tds (index_len df) 0) w).
Proof.
  intros Hcode Hty Hdf.
  destruct (row_loop_supported (iterrows df) bank_name transaction_type bank_id
              Hty (mkLoop df [] 0 0) Hdf) as (tds & Hrun & Hall).
  simpl in Hrun. rewrite length_iterrows in Hrun.
  exists tds. repeat split; [exact Hall | exact Hrun |].
  unfold process_transactions. now rewrite Hcode, Hrun.
Qed.

Lemma commit_and_publish_counts (st : loop_state) (w : World) :
  exists failed,
    commit_and_publish st w
    = (Some (success_count st, failed),
       mkWorld (db (snd (commit_and_publish st w)))
         (Some (success_count st, failed)))
    /\ (failed = fail_count st
        \/ failed = fail_count st + List.length (bulk_data_transactions st)).
Proof.
  unfold commit_and_publish.
  destruct (bulk_data_transactions st) as [|td tds].
  - exists (fail_count st). simpl. auto.
  - destruct (bulk_create_transactions (td :: tds) (db w)) as [store|].
    + exists (fail_count st). simpl. auto.
    + exists (fail_count st + List.length (td :: tds)). simpl. auto.
Qed.

(** Claim C1, as amended.  The transaction category is one argument of the
    chunk, not a value of each row.  When a chunk passes schema resolution
    and the required-header check, its conversions raise nothing and its
    category is none of booking, refund and both, every row is counted
    failed, nothing is projected or submitted, and the published result is
    (0, n) for its n rows: (0, 3) for three rows, whatever the rows hold. *)
Theorem unsupported_category_fails_every_row (df df' : DataFrame)
    (bank_name transaction_type : string) (e : SchemaEntry) (w : World) :
  resolve bank_name transaction_type = Some e ->
  forallb (has_column (map_labels clean_column_name df)) (expected_columns e)
  = true ->
  prepared df e bank_name = Ok df' ->
  existsb (String.eqb transaction_type) transaction_types = false ->
  process_dataframe_chunk df bank_name transaction_type w
  = Ok (mkWorld (db w) (Some (0, index_len df))).
Proof.
  intros Hres Hcols Hprep Hty.
  rewrite (process_dataframe_chunk_passed _ _ _ _ _ _ Hres Hcols Hprep).
  destruct (resolve_bank_code _ _ _ Hres) as (bank_id & Hcode).
  rewrite (process_transactions_unsupported _ _ _ _ _ Hcode Hty). simpl.
  now rewrite (prepared_index_len _ _ _ _ Hprep).
Qed.

(** Claim C10.  For a chunk that passes schema resolution, the
    required-header check and the bank-code lookup, with a category among
    booking, refund and both, the row loop emits one record for every row of
    the chunk, in order, repeated rows included: the batch has as many
    records as the chunk has rows, the successful count before the commit is
    that number, none is failed before the commit, and the published
    successful count is the row count. *)
Theorem every_row_is_projected (df df' : DataFrame)
    (bank_name transaction_type : string) (e : SchemaEntry) (bank_id : Z)
    (w : World) :
  resolve bank_name transaction_type = Some e ->
  forallb (has_column (map_labels clean_column_name df)) (expected_columns e)
  = true ->
  prepared df e bank_name = Ok df' ->
  dict_get BANK_CODE_MAPPING bank_name = Some bank_id ->
  existsb (String.eqb transaction_type) transaction_types = true ->
  exists batch failed w',
    row_loop (iterrows df') bank_name transaction_type bank_id
      (mkLoop df' [] 0 0)
    = Ok (mkLoop df' batch (index_len df) 0)
    /\ Forall2 (fun r td => projected r bank_name transaction_type bank_id td)
         (iterrows df') batch
    /\ List.length batch = index_len df
    /\ process_dataframe_chunk df bank_name transaction_type w = Ok w'
    /\ latest_transaction_results w' = Some (index_len df, failed).
Proof.
  intros Hres Hcols Hprep Hcode Hty.
  pose proof (prepared_no_converted_columns _ _ _ _ _ Hres Hprep) as Hdf.
  pose proof (prepared_index_len _ _ _ _ Hprep) as Hlen.
  destruct (process_transactions_supported df' _ _ _ w Hcode Hty Hdf)
    as (batch & Hall & Hrun & Hproc).
  rewrite Hlen in Hrun, Hproc.
  destruct (commit_and_publish_counts (mkLoop df' batch (index_len df) 0) w)
    as (failed & Hcommit & _).
  exists batch, failed, (snd (commit_and_publish (mkLoop df' batch (index_len df) 0) w)).
  repeat split.
  - exact Hrun.
  - exact Hall.
  - apply Forall2_length in Hall. now rewrite <- Hall, length_iterrows.
  - rewrite (process_dataframe_chunk_passed _ _ _ _ _ _ Hres Hcols Hprep).
    now rewrite Hproc.
  - rewrite Hcommit at 1. reflexivity.
Qed.

(* ================================================================= *)
(** ** The emitted records *)

Lemma row_get_select (df : DataFrame) (i : nat) (col : string) :
  row_get (row_at df i) col
  = match select df col with
    | [] => VNone
    | [s] => Cell (interleaved df (nth i (values s) (SFloat NaN)))
    | ss => SubSeries
              (map (fun s => interleaved df (nth i (values s) (SFloat NaN))) ss)
    end.
Proof.
  unfold row_get, row_at, select.
  generalize (interleaved df). intros g.
  assert (E : filter (fun p : string * scalar => String.eqb (fst p) col)
                (map (fun p : string * Series =>
                        (fst p, g (nth i (values (snd p)) (SFloat NaN))))
                   (data df))
              = map (fun p : string * Series =>
                       (fst p, g (nth i (values (snd p)) (SFloat NaN))))
                  (filter (fun p => String.eqb (fst p) col) (data df))).
  { induction (data df) as [|[l s] rest IH]; simpl; [reflexivity|].
    destruct (String.eqb l col); simpl; now rewrite IH. }
  rewrite E.
  destruct (filter (fun p => String.eqb (fst p) col) (data df))
    as [|[l1 s1] [|[l2 s2] rest]]; simpl; try reflexivity.
  do 3 f_equal. now rewrite !map_map.
Qed.

(** A frame with a datetime column has rows of dtype object. *)
Lemma float_values_datetime (df : DataFrame) (col : string)
    (ts : list (option Z)) :
  In (DatetimeSeries ts) (select df col) -> float_values df = false.
Proof.
  unfold select, float_values. intros H.
  apply in_map_iff in H as ([l s] & Hs & Hin). simpl in Hs. subst s.
  apply filter_In in Hin as [Hin _].
  apply andb_false_iff. left.
  apply not_true_is_false. intros Hall. rewrite forallb_forall in Hall.
  specialize (Hall (DatetimeSeries ts)). simpl in Hall.
  discriminate Hall. apply in_map_iff. now exists (l, DatetimeSeries ts).
Qed.

Lemma row_get_absent (df : DataFrame) (i : nat) (col : string) :
  has_column df col = false -> row_get (row_at df i) col = VNone.
Proof. intros H. now rewrite row_get_select, (select_nil _ _ H). Qed.

Lemma in_iterrows (df : DataFrame) (r : row) :
  In r (iterrows df) -> exists i, r = row_at df i.
Proof.
  unfold iterrows. intros H. apply in_map_iff in H as (i & <- & _). now exists i.
Qed.

Lemma coerce_amounts_numeric (cells : list scalar) :
  is_numeric (coerce_amounts cells) = true.
Proof.
  unfold coerce_amounts, to_numeric_series.
  destruct (integers _) as [zs|]; [|reflexivity].
  destruct (forallb in_int64 zs); [reflexivity|].
  now destruct (forallb in_uint64 zs).
Qed.

Lemma filled_amounts_numeric (s : Series) :
  is_numeric s = true -> is_numeric (filled_amounts s) = true.
Proof. now destruct s. Qed.

Lemma prepared_payable (df df' : DataFrame) (bank_name : string)
    (e : SchemaEntry) :
  prepared df e bank_name = Ok df' ->
  select df' "Payable_Merchant" = []
  \/ exists s, select df' "Payable_Merchant" = [s] /\ is_numeric s = true.
Proof.
  unfold prepared, coerce_columns. intros H.
  apply bind_Ok in H as (df1 & _ & H).
  apply bind_Ok in H as (df2 & _ & H).
  destruct (has_column df2 "Payable_Merchant") eqn:Hcol.
  - right. apply bind_Ok in H as (df3 & H3 & H).
    apply convert_payable_to_float_Ok in H3 as (cells & Hs & ->).
    pose proof (select_setitem_same df2 "Payable_Merchant"
                  (coerce_amounts cells) _ Hs) as Hs3.
    destruct (String.eqb bank_name "icici").
    + apply icici_credit_debit_Ok in H as (s & Hxs & Hnum & ->).
      exists (filled_amounts s). split.
      * rewrite select_setitem_other by discriminate.
        now apply select_setitem_same with (s0 := s).
      * now apply filled_amounts_numeric.
    + injection H as <-. exists (coerce_amounts cells).
      split; [exact Hs3 | apply coerce_amounts_numeric].
  - left. injection H as <-. now apply select_nil.
Qed.

Lemma numeric_cell (df : DataFrame) (s : Series) (i : nat) :
  is_numeric s = true ->
  nullable_decimal (Cell (interleaved df (nth i (values s) (SFloat NaN)))).
Proof.
  intros Hnum. right.
  destruct s as [cells|xs|ts|u zs]; try discriminate Hnum; simpl.
  - left. exists (nth i xs NaN). now rewrite (map_nth SFloat).
  - destruct (nth_in_or_default i (map SInt zs) (SFloat NaN)) as [Hin | ->].
    + apply in_map_iff in Hin as (z & <- & _). simpl.
      destruct (float_values df); eauto.
    + left. now exists NaN.
Qed.

Lemma projected_fields (r : row) (bank_name transaction_type : string)
    (bank_id : Z) (td : record) :
  projected r bank_name transaction_type bank_id td ->
  dict_keys td = canonical_fields
  /\ forall k,
       dict_get td k
       = match dict_get (transaction_literal r bank_name transaction_type
                           bank_id VNone VNone VNone VNone VNone VNone VNone
                           VNone VNone) k with
         | Some v =>
             Some (if existsb (String.eqb k) datetime_fields && is_NaT v
                   then VNone else v)
         | None => None
         end.
Proof.
  unfold projected, handle_nat_in_datetime_fields. intros H.
  destruct (handle_nat_fields_spec datetime_fields
              (transaction_literal r bank_name transaction_type bank_id
                 VNone VNone VNone VNone VNone VNone VNone VNone VNone))
    as (td' & Hrun & Hk & Hv).
  - intros f Hf. apply dict_get_keys. rewrite literal_keys.
    now apply datetime_fields_canonical.
  - rewrite Hrun in H. injection H as <-. split; [exact Hk | exact Hv].
Qed.

Lemma is_NaT_normalized (b : bool) (v : value) :
  is_NaT (if b && is_NaT v then VNone else v) = false \/ b = false.
Proof. destruct b; [left | now right]. simpl. now destruct (is_NaT v) eqn:E. Qed.

Lemma projected_record (df : DataFrame) (i : nat)
    (bank_name transaction_type : string) (bank_id : Z) (td : record) :
  (select df "Payable_Merchant" = []
   \/ exists s, select df "Payable_Merchant" = [s] /\ is_numeric s = true) ->
  projected (row_at df i) bank_name transaction_type bank_id td ->
  dict_keys td = canonical_fields
  /\ (forall f, In f monetary_fields ->
        exists v, dict_get td f = Some v /\ nullable_decimal v)
  /\ (forall f, In f datetime_fields ->
        exists v, dict_get td f = Some v /\ is_NaT v = false)
  /\ (forall f, In f converted_fields \/ In f udf_fields ->
        dict_get td f = Some VNone)
  /\ (forall f col, In (f, col) row_fields -> has_column df col = false ->
        dict_get td f = Some VNone).
Proof.
  intros Hpay Hproj. apply projected_fields in Hproj as [Hkeys Hget].
  split; [exact Hkeys|]. repeat split.
  - intros f Hf. rewrite Hget. simpl in Hf.
    destruct Hf as [<-|[<-|[<-|[<-|[<-|[<-|[<-|[]]]]]]]];
      cbn -[row_get];
      try (exists VNone; split; [reflexivity | now left]).
    eexists; split; [reflexivity|].
    rewrite row_get_select.
    destruct Hpay as [-> | (s & -> & Hnum)]; [now left|].
    now apply numeric_cell.
  - intros f Hf. rewrite Hget. simpl in Hf.
    destruct Hf as [<-|[<-|[<-|[<-|[<-|[]]]]]]; cbn -[row_get];
      eexists; (split; [reflexivity|]);
      try reflexivity;
      now destruct (is_NaT (row_get (row_at df i) _)) eqn:E.
  - intros f [Hf|Hf]; rewrite Hget; simpl in Hf;
      repeat (destruct Hf as [<-|Hf]; [reflexivity|]); contradiction.
  - intros f col Hf Hcol. rewrite Hget. simpl in Hf.
    repeat (destruct Hf as [Hf|Hf];
            [injection Hf as <- <-; cbn -[row_get];
             now rewrite (row_get_absent _ _ _ Hcol)|]).
    contradiction.
Qed.

Lemma Forall2_Forall_right {A B : Type} (P : A -> B -> Prop) (Q : B -> Prop)
    (xs : list A) (ys : list B) :
  Forall2 P xs ys -> (forall x y, In x xs -> P x y -> Q y) -> Forall Q ys.
Proof.
  induction 1 as [|x y xs ys Hxy _ IH]; intros HQ; constructor.
  - apply (HQ x); [now left | exact Hxy].
  - apply IH. intros x' y' Hin. apply HQ. now right.
Qed.


(* ================================================================= *)
(** ** The merchant identifier *)

Lemma transaction_data_Ok (r : row) (df df' : DataFrame)
    (bank_name transaction_type : string) (bank_id : Z) (td : record) :
  transaction_data r df bank_name transaction_type bank_id = Ok (df', td) ->
  exists v1 v2 v3 v4 v5 v6 v7 v8 v9,
    td = transaction_literal r bank_name transaction_type bank_id
           v1 v2 v3 v4 v5 v6 v7 v8 v9.
Proof.
  unfold transaction_data. intros H.
  repeat (apply bind_Ok in H as ([? ?] & _ & H)).
  injection H as _ <-. eauto 10.
Qed.

Lemma emitted_mid (r : row) (df df' : DataFrame)
    (bank_name transaction_type : string) (bank_id : Z) (td0 td : record) :
  transaction_data r df bank_name transaction_type bank_id = Ok (df', td0) ->
  handle_nat_in_datetime_fields td0 = Ok td ->
  dict_get td "MID" = Some (assigned_mid r bank_name bank_id).
Proof.
  intros Hdata Hnat.
  apply transaction_data_Ok in Hdata
    as (v1 & v2 & v3 & v4 & v5 & v6 & v7 & v8 & v9 & ->).
  unfold handle_nat_in_datetime_fields in Hnat.
  destruct (handle_nat_fields_spec datetime_fields
              (transaction_literal r bank_name transaction_type bank_id
                 v1 v2 v3 v4 v5 v6 v7 v8 v9))
    as (td' & Hrun & _ & Hv).
  - intros f Hf. apply dict_get_keys. rewrite literal_keys.
    now apply datetime_fields_canonical.
  - rewrite Hrun in Hnat. injection Hnat as <-. now rewrite Hv.
Qed.

Lemma row_loop_mid (rows : list row) (bank_name transaction_type : string)
    (bank_id : Z) :
  forall st st',
    row_loop rows bank_name transaction_type bank_id st = Ok st' ->
    exists tds,
      bulk_data_transactions st' = bulk_data_transactions st ++ tds
      /\ Forall2 (fun r td =>
                    dict_get td "MID" = Some (assigned_mid r bank_name bank_id))
           (if existsb (String.eqb transaction_type) transaction_types
            then rows else [])
           tds.
Proof.
  induction rows as [|r rest IH]; intros st st' Hrun; cbn [row_loop] in Hrun.
  - injection Hrun as <-. exists []. rewrite app_nil_r. split; [reflexivity|].
    destruct (existsb _ _); constructor.
  - destruct (existsb (String.eqb transaction_type) transaction_types) eqn:Hty;
      cbn [negb] in Hrun.
    + apply bind_Ok in Hrun as ([df1 td0] & Hdata & Hrun).
      apply bind_Ok in Hrun as (td & Hnat & Hrun).
      apply IH in Hrun as (tds & Hbulk & Hall). simpl in Hbulk.
      exists (td :: tds). split.
      * rewrite Hbulk, <- app_assoc. reflexivity.
      * constructor; [exact (emitted_mid _ _ _ _ _ _ _ _ Hdata Hnat) | exact Hall].
    + apply IH in Hrun as (tds & Hbulk & Hall). now exists tds.
Qed.

(** Claim C5.  A bank without an entry in the bank-code table stops
    [process_transactions] before any row is read: nothing is returned,
    published or submitted.  For a bank with a code, every record of the
    batch carries as MID what [row.get('MID')] gives for its row when the
    bank is in the override list (hdfc, icici, indus), and the bank's code
    otherwise; the batch has one record per row when the category is
    supported and is empty when it is not. *)
Theorem mid_assignment (df : DataFrame) (bank_name transaction_type : string)
    (w : World) :
  (dict_get BANK_CODE_MAPPING bank_name = None ->
   process_transactions df bank_name transaction_type w = Ok (None, w))
  /\ (forall bank_id st,
        dict_get BANK_CODE_MAPPING bank_name = Some bank_id ->
        row_loop (iterrows df) bank_name transaction_type bank_id
          (mkLoop df [] 0 0) = Ok st ->
        Forall2 (fun r td =>
                   dict_get td "MID"
                   = Some (if existsb (String.eqb bank_name)
                                banks_with_mid_override
                           then row_get r "MID" else Cell (SInt bank_id)))
          (if existsb (String.eqb transaction_type) transaction_types
           then iterrows df else [])
          (bulk_data_transactions st)).
Proof.
  split.
  - intros Hcode. unfold process_transactions. now rewrite Hcode.
  - intros bank_id st _ Hrun.
    apply row_loop_mid in Hrun as (tds & Hbulk & Hall).
    simpl in Hbulk. rewrite Hbulk. exact Hall.
Qed.

(* ================================================================= *)
(** ** The signed amount of icici *)

Lemma float_gt0_positive (x : pyfloat) : float_gt0 x = true <-> positive x.
Proof.
  destruct x as [q| | |]; simpl.
  - unfold Qlt. simpl. rewrite Z.ltb_lt. lia.
  - tauto.
  - split; [discriminate | tauto].
  - split; [discriminate | tauto].
Qed.

Lemma float_lt0_negative (x : pyfloat) : float_lt0 x = true <-> negative x.
Proof.
  destruct x as [q| | |]; simpl.
  - unfold Qlt. simpl. rewrite Z.ltb_lt. lia.
  - split; [discriminate | tauto].
  - tauto.
  - split; [discriminate | tauto].
Qed.

Lemma credit_debit_sign (x : pyfloat) :
  (positive x -> credit_debit x = SStr "CREDIT")
  /\ (negative x -> credit_debit x = SStr "DEBIT")
  /\ (is_zero x -> credit_debit x = SNone).
Proof.
  unfold credit_debit. repeat split.
  - intros H. apply float_gt0_positive in H. now rewrite H.
  - intros H. destruct (float_gt0 x) eqn:Hg.
    + apply float_gt0_positive in Hg. destruct x; simpl in *; try tauto.
      exfalso. apply (Qlt_irrefl 0). now apply Qlt_trans with q.
    + apply float_lt0_negative in H. now rewrite H.
  - intros H. destruct x as [q| | |]; simpl in H; try tauto.
    simpl. unfold Qeq in H. simpl in H.
    assert (Hq : Qnum q = 0%Z) by lia. now rewrite Hq.
Qed.

Lemma has_column_select (df : DataFrame) (col : string) :
  has_column df col = true -> select df col <> [].
Proof.
  unfold select, has_column, labels.
  induction (data df) as [|[l s] rest IH]; simpl; [discriminate|].
  rewrite (String.eqb_sym col l). destruct (String.eqb l col); simpl;
    [discriminate | exact IH].
Qed.

Lemma select_setitem_label (df : DataFrame) (col : string) (s : Series) :
  select (setitem df col s) col
  = match select df col with
    | [] => [s]
    | ss => map (fun _ => s) ss
    end.
Proof.
  destruct (has_column df col) eqn:Hcol.
  - unfold setitem. rewrite Hcol. unfold select; simpl.
    assert (E : forall d,
      map snd (filter (fun p : string * Series => String.eqb (fst p) col)
                 (map (fun p : string * Series =>
                         if String.eqb (fst p) col then (fst p, s) else p) d))
      = map (fun _ => s)
          (map snd (filter (fun p : string * Series => String.eqb (fst p) col) d))).
    { induction d as [|[l s'] rest IH]; simpl; [reflexivity|].
      destruct (String.eqb l col) eqn:E; simpl; rewrite E; simpl;
        now rewrite IH. }
    rewrite E. fold (select df col).
    destruct (select df col) eqn:Hs; [|reflexivity].
    now apply has_column_select in Hcol.
  - rewrite (select_setitem_new _ _ _ Hcol). now rewrite (select_nil _ _ Hcol).
Qed.

Lemma datetime_step_keeps_payable (df df1 : DataFrame) (col : string)
    (ss : list Series) :
  col <> "Payable_Merchant" ->
  (if has_column df col then convert_column_to_datetime df col else Ok df)
  = Ok df1 ->
  select df "Payable_Merchant" = ss -> select df1 "Payable_Merchant" = ss.
Proof.
  intros Hne H Hs. destruct (has_column df col).
  - apply convert_column_to_datetime_Ok in H as (s & _ & ->).
    now rewrite select_setitem_other.
  - now injection H as <-.
Qed.

Lemma credit_debit_int_sign (z : Z) :
  ((0 < z)%Z -> credit_debit_int z = SStr "CREDIT")
  /\ ((z < 0)%Z -> credit_debit_int z = SStr "DEBIT")
  /\ (z = 0%Z -> credit_debit_int z = SNone).
Proof.
  unfold credit_debit_int. repeat split; intros H.
  - apply Z.ltb_lt in H. now rewrite H.
  - destruct (0 <? z)%Z eqn:Hp; [apply Z.ltb_lt in Hp; lia|].
    apply Z.ltb_lt in H. now rewrite H.
  - now subst z.
Qed.

(** The coerced column is the float64 column of the coerced cells, or the
    column of the integers read in the cells. *)
Lemma coerce_amounts_cases (cells : list scalar) :
  coerce_amounts cells = FloatSeries (map coerce_amount cells)
  \/ exists unsigned zs,
       integers (map str_replace_comma cells) = Some zs
       /\ coerce_amounts cells = IntSeries unsigned zs.
Proof.
  unfold coerce_amounts, to_numeric_series.
  assert (E : map to_numeric (map str_replace_comma cells)
              = map coerce_amount cells) by now rewrite map_map.
  rewrite E.
  destruct (integers (map str_replace_comma cells)) as [zs|]; [|now left].
  destruct (forallb in_int64 zs); [right; eauto|].
  destruct (forallb in_uint64 zs); [right; eauto | now left].
Qed.

(** Claim C6.  For icici, when the renamed chunk has one amount column, the
    amount column becomes the coerced amounts with NaN replaced by zero, and
    the column CREDIT_DEBIT_AMOUNT holds, row by row, the label of that
    amount: "CREDIT" when it is strictly positive, "DEBIT" when strictly
    negative, [None] when it is zero; a cell the parser cannot read (NaN)
    counts as zero and gets [None].  The amounts are floats, or, when every
    cell reads as an integer, the integers read, labelled by the same
    rule. *)
Theorem icici_credit_debit_labels (df df' : DataFrame) (cells : list scalar) :
  select df "Payable_Merchant" = [ObjectSeries cells] ->
  coerce_columns df "icici" = Ok df' ->
  select df' "CREDIT_DEBIT_AMOUNT" <> []
  /\ ((coerce_amounts cells = FloatSeries (map coerce_amount cells)
       /\ select df' "Payable_Merchant"
          = [FloatSeries (map signed_amount cells)]
       /\ forall s, In s (select df' "CREDIT_DEBIT_AMOUNT") ->
            s = ObjectSeries (map credit_debit_of cells))
      \/ (exists unsigned zs,
            integers (map str_replace_comma cells) = Some zs
            /\ coerce_amounts cells = IntSeries unsigned zs
            /\ select df' "Payable_Merchant" = [IntSeries unsigned zs]
            /\ forall s, In s (select df' "CREDIT_DEBIT_AMOUNT") ->
                 s = ObjectSeries (map credit_debit_int zs)))
  /\ (forall c,
       (positive (signed_amount c) -> credit_debit_of c = SStr "CREDIT")
       /\ (negative (signed_amount c) -> credit_debit_of c = SStr "DEBIT")
       /\ (is_zero (signed_amount c) -> credit_debit_of c = SNone)
       /\ (coerce_amount c = NaN ->
           signed_amount c = Finite 0%Q /\ credit_debit_of c = SNone))
  /\ forall z,
       ((0 < z)%Z -> credit_debit_int z = SStr "CREDIT")
       /\ ((z < 0)%Z -> credit_debit_int z = SStr "DEBIT")
       /\ (z = 0%Z -> credit_debit_int z = SNone).
Proof.
  intros Hsel H. unfold coerce_columns in H.
  apply bind_Ok in H as (df1 & H1 & H).
  apply bind_Ok in H as (df2 & H2 & H).
  assert (Hsel1 : select df1 "Payable_Merchant" = [ObjectSeries cells]).
  { apply (datetime_step_keeps_payable df df1 "Transaction_Date");
      [discriminate | exact H1 | exact Hsel]. }
  assert (Hsel2 : select df2 "Payable_Merchant" = [ObjectSeries cells]).
  { apply (datetime_step_keeps_payable df1 df2 "Settlement_Date");
      [discriminate | exact H2 | exact Hsel1]. }
  rewrite select_has_column in H by now rewrite Hsel2.
  apply bind_Ok in H as (df3 & H3 & H).
  apply convert_payable_to_float_Ok in H3 as (cells' & Hc & ->).
  rewrite Hsel2 in Hc. injection Hc as <-.
  rewrite String.eqb_refl in H.
  apply icici_credit_debit_Ok in H as (amounts & Hxs & _ & ->).
  rewrite (select_setitem_same _ _ _ _ Hsel2) in Hxs. injection Hxs as Eam.
  set (df3 := setitem df2 "Payable_Merchant" (coerce_amounts cells)).
  assert (Hsel3 : select df3 "Payable_Merchant" = [coerce_amounts cells])
    by exact (select_setitem_same _ _ _ _ Hsel2).
  set (df4 := setitem df3 "Payable_Merchant" (filled_amounts amounts)).
  assert (Hpm : select (setitem df4 "CREDIT_DEBIT_AMOUNT"
                          (ObjectSeries (amount_labels amounts)))
                  "Payable_Merchant"
                = [filled_amounts amounts]).
  { rewrite select_setitem_other by discriminate.
    unfold df4. exact (select_setitem_same _ _ _ _ Hsel3). }
  assert (Hlab : forall s,
             In s (select (setitem df4 "CREDIT_DEBIT_AMOUNT"
                             (ObjectSeries (amount_labels amounts)))
                     "CREDIT_DEBIT_AMOUNT") ->
             s = ObjectSeries (amount_labels amounts)).
  { intros s Hs. rewrite select_setitem_label in Hs.
    destruct (select df4 "CREDIT_DEBIT_AMOUNT") as [|s1 rest].
    - destruct Hs as [<-|[]]. reflexivity.
    - apply in_map_iff in Hs as (_ & <- & _). reflexivity. }
  split; [|split; [|split]].
  - rewrite select_setitem_label. destruct (select df4 _); discriminate.
  - clearbody df4.
    destruct (coerce_amounts_cases cells) as [E | (u & zs & Hint & E)];
      rewrite E in Eam; subst amounts; simpl in Hpm, Hlab.
    + left. split; [exact E|].
      simpl. rewrite ?map_map in *. split; [exact Hpm | exact Hlab].
    + right. exists u, zs. repeat split; assumption.
  - intros c. destruct (credit_debit_sign (signed_amount c)) as (Hp & Hn & Hz).
    repeat split; auto.
    + unfold signed_amount. now rewrite H.
    + unfold credit_debit_of, signed_amount. now rewrite H.
  - exact credit_debit_int_sign.
Qed.

(* ================================================================= *)
(** ** Rejections, coercion examples and storage failures *)

Lemma process_dataframe_chunk_not_found (df : DataFrame)
    (bank_name transaction_type : string) (w : World) :
  resolve bank_name transaction_type = None ->
  process_dataframe_chunk df bank_name transaction_type w = Ok w.
Proof. intros H. unfold process_dataframe_chunk. now rewrite H. Qed.

(** Claim C8.  Reading the registry as one table keyed by (bank, category):
    an entry under the exact pair is the one resolved; without it, the entry
    under (bank, both) is resolved if there is one; otherwise nothing is
    resolved, and then the chunk leaves the database and the published
    result as they were, raises nothing, and the chunks after it in the file
    are processed as if it were not there. *)
Theorem schema_resolution_order (bank_name transaction_type : string) :
  (forall e, registry_entry bank_name transaction_type = Some e ->
     resolve bank_name transaction_type = Some e)
  /\ (registry_entry bank_name transaction_type = None ->
      resolve bank_name transaction_type = registry_entry bank_name "both")
  /\ (resolve bank_name transaction_type = None ->
      forall df rest w,
        process_dataframe_chunk df bank_name transaction_type w = Ok w
        /\ process_file_chunks (df :: rest) bank_name transaction_type w
           = process_file_chunks rest bank_name transaction_type w).
Proof.
  split; [|split].
  - intros e. unfold registry_entry, resolve.
    change registry with
      [("karur_vysya", "booking", karur_vysya_booking);
       ("karur_vysya", "refund", karur_vysya_refund);
       ("icici", "both", icici_both)].
    unfold BANK_MAPPINGS. cbn [registry_entry_in dict_get].
    destruct (String.eqb "karur_vysya" bank_name) eqn:Ek.
    + apply String.eqb_eq in Ek; subst bank_name. cbn [andb dict_get].
      destruct (String.eqb "booking" transaction_type); [trivial|].
      destruct (String.eqb "refund" transaction_type); [trivial|].
      discriminate.
    + cbn [andb]. destruct (String.eqb "icici" bank_name); cbn [andb dict_get].
      * destruct (String.eqb "both" transaction_type); [trivial | discriminate].
      * discriminate.
  - unfold registry_entry, resolve.
    change registry with
      [("karur_vysya", "booking", karur_vysya_booking);
       ("karur_vysya", "refund", karur_vysya_refund);
       ("icici", "both", icici_both)].
    unfold BANK_MAPPINGS. cbn [registry_entry_in dict_get].
    destruct (String.eqb "karur_vysya" bank_name) eqn:Ek.
    + apply String.eqb_eq in Ek; subst bank_name. cbn [andb dict_get].
      destruct (String.eqb "booking" transaction_type); [discriminate|].
      destruct (String.eqb "refund" transaction_type); [discriminate|].
      reflexivity.
    + cbn [andb]. destruct (String.eqb "icici" bank_name); cbn [andb dict_get].
      * destruct (String.eqb "both" transaction_type); [discriminate|].
        reflexivity.
      * reflexivity.
  - intros Hres df rest w.
    pose proof (process_dataframe_chunk_not_found df _ _ w Hres) as Hrun.
    split; [exact Hrun|]. cbn [process_file_chunks]. now rewrite Hrun.
Qed.

(** Claim C3, as amended.  When the resolved entry lists a required header
    that no cleaned header of the chunk equals, [process_dataframe_chunk]
    returns without calling the database and without writing the cache: the
    table and the published slot are what they were.  No BatchResult is
    produced for the chunk; the result view shows after it what it showed
    before, which is (0, 0) exactly when the slot was empty or already held
    (0, 0). *)
Theorem missing_header_rejects_chunk (df : DataFrame)
    (bank_name transaction_type : string) (e : SchemaEntry) (w : World) :
  resolve bank_name transaction_type = Some e ->
  (exists h, In h (expected_columns e)
     /\ has_column (map_labels clean_column_name df) h = false) ->
  process_dataframe_chunk df bank_name transaction_type w = Ok w
  /\ published (process_dataframe_chunk df bank_name transaction_type w)
     = latest_transaction_results w
  /\ (transaction_results_view
        (published (process_dataframe_chunk df bank_name transaction_type w))
      = (0, 0)
      <-> latest_transaction_results w = None
          \/ latest_transaction_results w = Some (0, 0)).
Proof.
  intros Hres (h & Hin & Hmiss).
  assert (Hrun : process_dataframe_chunk df bank_name transaction_type w
                 = Ok w).
  { unfold process_dataframe_chunk. rewrite Hres.
    assert (Hall : forallb (has_column (map_labels clean_column_name df))
                     (expected_columns e) = false).
    { apply not_true_is_false. intros Hall.
      rewrite forallb_forall in Hall. specialize (Hall h Hin). congruence. }
    now rewrite Hall. }
  rewrite Hrun. cbn [published].
  split; [reflexivity|]. split; [reflexivity|].
  destruct (latest_transaction_results w) as [results|]; simpl.
  - split.
    + intros ->. now right.
    + intros [H|H]; [discriminate H | now injection H].
  - split; [now left | reflexivity].
Qed.

Lemma integers_none (cells : list scalar) (c : scalar) :
  In c cells -> to_integer c = None -> integers cells = None.
Proof.
  induction cells as [|c' rest IH]; simpl; [contradiction|].
  intros [->|Hin] Hc.
  - now rewrite Hc.
  - rewrite (IH Hin Hc). now destruct (to_integer c').
Qed.

(** One cell that is no integer makes the coerced column float64. *)
Lemma coerce_amounts_float (cells : list scalar) (c : scalar) :
  In c cells -> to_integer (str_replace_comma c) = None ->
  coerce_amounts cells = FloatSeries (map coerce_amount cells).
Proof.
  intros Hin Hc. unfold coerce_amounts, to_numeric_series.
  rewrite (integers_none (map str_replace_comma cells) (str_replace_comma c));
    [now rewrite map_map | now apply in_map | exact Hc].
Qed.

(** Claim C9.  With a numeric parser that reads "1234.50" as 1234.5 and
    reads neither "" nor "abc", the amount coercion turns the cell
    "1,234.50" into 1234.5 (2469/2) and the cells "", "abc", NaN and [None]
    into NaN, the null of a numeric column; on an object column the
    conversion returns the converted chunk and raises nothing, whatever the
    cells hold; and, "1234.50" being no integer literal, a column that
    holds one of these five cells comes out as the float64 column of the
    coerced cells. *)
Theorem coerce_amount_examples :
  to_numeric_str "1234.50" = Finite (2469 # 2)%Q ->
  to_numeric_str "" = NaN ->
  to_numeric_str "abc" = NaN ->
  coerce_amount (SStr "1,234.50") = Finite (2469 # 2)%Q
  /\ coerce_amount (SStr "") = NaN
  /\ coerce_amount (SStr "abc") = NaN
  /\ coerce_amount (SFloat NaN) = NaN
  /\ coerce_amount SNone = NaN
  /\ (forall df column_name cells,
       select df column_name = [ObjectSeries cells] ->
       convert_payable_to_float df column_name
       = Ok (setitem df column_name (coerce_amounts cells)))
  /\ (to_integer_str "1234.50" = None ->
      forall cells c,
        In c cells ->
        In c [SStr "1,234.50"; SStr ""; SStr "abc"; SFloat NaN; SNone] ->
        coerce_amounts cells = FloatSeries (map coerce_amount cells)).
Proof.
  intros H1 H2 H3. unfold coerce_amount. simpl.
  repeat split; try assumption.
  - intros df column_name cells Hsel. unfold convert_payable_to_float.
    now rewrite Hsel.
  - intros Hint cells c Hin Hc. apply (coerce_amounts_float cells c Hin).
    simpl in Hc.
    destruct Hc as [<-|[<-|[<-|[<-|[<-|[]]]]]]; simpl;
      rewrite ?H1, ?H2, ?H3; auto.
Qed.

Lemma storage_failure_counts (st : loop_state) (w : World) :
  bulk_data_transactions st <> [] ->
  bulk_create_transactions (bulk_data_transactions st) (db w) = None ->
  commit_and_publish st w
  = (Some (success_count st,
           fail_count st + List.length (bulk_data_transactions st)),
     mkWorld (db w)
       (Some (success_count st,
              fail_count st + List.length (bulk_data_transactions st)))).
Proof.
  intros Hne Hfail. unfold commit_and_publish.
  destruct (bulk_data_transactions st) as [|td tds]; [congruence|].
  now rewrite Hfail.
Qed.

(** What the code publishes when the bulk insert of a chunk raises: the rows
    stay in the successful count and are added to the failed count. *)
Lemma storage_failure_published (df df' : DataFrame)
    (bank_name transaction_type : string) (e : SchemaEntry) (w : World) :
  resolve bank_name transaction_type = Some e ->
  forallb (has_column (map_labels clean_column_name df)) (expected_columns e)
  = true ->
  prepared df e bank_name = Ok df' ->
  existsb (String.eqb transaction_type) transaction_types = true ->
  0 < index_len df ->
  (forall batch, bulk_create_transactions batch (db w) = None) ->
  process_dataframe_chunk df bank_name transaction_type w
  = Ok (mkWorld (db w) (Some (index_len df, index_len df))).
Proof.
  intros Hres Hcols Hprep Hty Hpos Hdown.
  destruct (resolve_bank_code _ _ _ Hres) as (bank_id & Hcode).
  pose proof (prepared_no_converted_columns _ _ _ _ _ Hres Hprep) as Hdf.
  pose proof (prepared_index_len _ _ _ _ Hprep) as Hlen.
  destruct (process_transactions_supported df' _ _ _ w Hcode Hty Hdf)
    as (batch & Hall & _ & Hproc).
  apply Forall2_length in Hall. rewrite length_iterrows in Hall.
  rewrite (process_dataframe_chunk_passed _ _ _ _ _ _ Hres Hcols Hprep).
  rewrite Hproc. cbn [bind snd].
  rewrite storage_failure_counts; simpl.
  - now rewrite <- Hall, Hlen.
  - intros ->. simpl in Hall. lia.
  - apply Hdown.
Qed.

(** Claim C7, as amended.  [clean_column_name] is a function: it removes the
    bracketed substrings, then all whitespace, then every ['.'] and ['_'],
    then trims.  Two headers have the same cleaned name when one is obtained
    from the other by adding or removing whitespace other than a line feed
    anywhere, line feeds anywhere outside a bracketed annotation, ['.'] and
    ['_'] anywhere, and a bracketed suffix without [']'] or line feed in it
    at the end of a header that has no unclosed ['[']. *)
Theorem clean_column_name_variants :
  (forall h, clean_chars h
             = strip (remove_punct (remove_whitespace (remove_bracketed h))))
  /\ (forall h1 h2 : string,
        header_variant (chars h1) (chars h2) ->
        clean_column_name h1 = clean_column_name h2).
Proof.
  split.
  - exact clean_chars_passes.
  - intros h1 h2 H. unfold clean_column_name. f_equal.
    now apply header_variant_clean.
Qed.

(* ================================================================= *)
(** ** More on the Header Normalizer *)

(** X1.  A cleaned column name holds no whitespace, no ['.'] and no ['_'],
    whatever the raw header is. *)
Theorem cleaned_name_characters (h : string) :
  forallb (fun c => negb (isspace c) && negb (Ascii.eqb c DOT)
                    && negb (Ascii.eqb c UNDERSCORE))
    (chars (clean_column_name h)) = true.
Proof.
  unfold clean_column_name. rewrite chars_text, clean_chars_kept.
  apply forallb_forall. intros c Hc. apply filter_In in Hc as [_ Hc].
  unfold kept, is_punct in Hc.
  apply andb_true_iff in Hc as [Hs Hp]. rewrite Hs. simpl.
  now apply negb_true_iff, orb_false_iff in Hp as [-> ->].
Qed.

(** A match can only close on a [']']. *)
Lemma closes_has_bracket (t : list ascii) :
  closes t = true -> In RBRACKET t.
Proof.
  induction t as [|c r IH]; simpl; [discriminate|].
  destruct (Ascii.eqb c RBRACKET) eqn:E.
  - apply Ascii.eqb_eq in E. now left.
  - destruct (Ascii.eqb c LF); [discriminate | auto].
Qed.

Lemma one_line_closes (t : list ascii) :
  one_line t = true -> In RBRACKET t -> closes t = true.
Proof.
  induction t as [|c r IH]; simpl; [tauto|].
  intros H Hin. apply andb_true_iff in H as [Hc Hr].
  destruct (Ascii.eqb c RBRACKET) eqn:E; [reflexivity|].
  apply negb_true_iff in Hc. rewrite Hc.
  destruct Hin as [->|Hin]; [now rewrite Ascii.eqb_refl in E | now apply IH].
Qed.

Lemma regex_sub_subset (s : list ascii) (inside : bool) (c : ascii) :
  In c (regex_sub s inside) -> In c s.
Proof.
  revert inside. induction s as [|x r IH]; intros inside; simpl; [tauto|].
  destruct inside.
  - destruct (Ascii.eqb x RBRACKET); intros H; right; eapply IH; exact H.
  - destruct (Ascii.eqb x LBRACKET && closes r).
    + intros H; right; eapply IH; exact H.
    + intros [->|H]; [now left | right; eapply IH; exact H].
Qed.

Lemma cleaned_never_closes (r : list ascii) (inside : bool) :
  one_line r = true -> closes r = false ->
  closes (filter kept (regex_sub r inside)) = false.
Proof.
  intros Hline Hclose. apply not_true_is_false. intros H.
  apply closes_has_bracket in H. apply filter_In in H as [H _].
  apply regex_sub_subset in H.
  rewrite (one_line_closes r Hline H) in Hclose. discriminate.
Qed.

Lemma regex_sub_cleaned (s : list ascii) :
  one_line s = true ->
  forall inside,
    regex_sub (filter kept (regex_sub s inside)) false
    = filter kept (regex_sub s inside).
Proof.
  induction s as [|c r IH]; intros Hline inside; [reflexivity|].
  simpl in Hline. apply andb_true_iff in Hline as [_ Hr].
  specialize (IH Hr). simpl. destruct inside.
  - destruct (Ascii.eqb c RBRACKET); apply IH.
  - destruct (Ascii.eqb c LBRACKET && closes r) eqn:E; [apply IH|].
    simpl. destruct (kept c); [|apply IH].
    simpl. rewrite IH.
    destruct (Ascii.eqb c LBRACKET); [|reflexivity].
    simpl in E. now rewrite (cleaned_never_closes r false Hr E).
Qed.

Lemma filter_kept_idempotent (s : list ascii) :
  filter kept (filter kept s) = filter kept s.
Proof.
  induction s as [|c r IH]; simpl; [reflexivity|].
  destruct (kept c) eqn:E; simpl; [rewrite E; now f_equal | exact IH].
Qed.

(** X2.  Cleaning is idempotent on a header without a line feed: a cleaned
    name is its own cleaned name, so the keys of a column mapping can be
    compared with cleaned headers as they are. *)
Theorem clean_column_name_idempotent (h : string) :
  one_line (chars h) = true ->
  clean_column_name (clean_column_name h) = clean_column_name h.
Proof.
  intros Hline. unfold clean_column_name. rewrite chars_text. f_equal.
  rewrite !clean_chars_kept. rewrite (regex_sub_cleaned _ Hline false).
  apply filter_kept_idempotent.
Qed.

(* ================================================================= *)
(** ** More on the Schema Registry and the Chunk Processor *)

(** X3.  The pairs that resolve: icici with any category, through its
    (icici, both) entry, and karur_vysya with booking or refund.  Every
    other bank, hdfc and indus of the override list included, resolves to
    nothing. *)
Theorem resolvable_pairs (bank_name transaction_type : string) :
  (exists e, resolve bank_name transaction_type = Some e)
  <-> (bank_name = "icici"
       \/ (bank_name = "karur_vysya"
           /\ (transaction_type = "booking" \/ transaction_type = "refund"))).
Proof.
  unfold resolve, BANK_MAPPINGS. cbn [dict_get].
  destruct (String.eqb "karur_vysya" bank_name) eqn:Ek.
  - apply String.eqb_eq in Ek; subst bank_name. cbn [dict_get].
    destruct (String.eqb "booking" transaction_type) eqn:Eb.
    + apply String.eqb_eq in Eb; subst. split; [auto | eauto].
    + destruct (String.eqb "refund" transaction_type) eqn:Er.
      * apply String.eqb_eq in Er; subst. split; [auto | eauto].
      * apply String.eqb_neq in Eb, Er. cbn. split.
        -- intros (e & H). discriminate.
        -- intros [H | (_ & [H | H])]; [discriminate | congruence | congruence].
  - destruct (String.eqb "icici" bank_name) eqn:Ei.
    + apply String.eqb_eq in Ei; subst bank_name. cbn [dict_get].
      split; [auto|]. intros _.
      destruct (String.eqb "both" transaction_type); cbn; eauto.
    + apply String.eqb_neq in Ek, Ei. cbn. split.
      * intros (e & H). discriminate.
      * intros [H | (H & _)]; congruence.
Qed.

Lemma prepared_label_origin (df df' : DataFrame) (bank_name : string)
    (e : SchemaEntry) (l : string) :
  prepared df e bank_name = Ok df' ->
  In l (labels df') ->
  l = "CREDIT_DEBIT_AMOUNT"
  \/ (exists k, dict_get (column_mapping e) k = Some l)
  \/ has_underscore l = false.
Proof.
  intros Hprep Hin.
  apply coerce_columns_frame in Hprep as [_ Hl].
  destruct (Hl l Hin) as [Hin' | ->]; [|now left]. right.
  rewrite !labels_map_labels, map_map in Hin'.
  apply in_map_iff in Hin' as (raw & Hraw & _).
  unfold rename_label in Hraw.
  destruct (dict_get (column_mapping e) (clean_column_name raw)) as [t|] eqn:Hg.
  - left. subst t. eauto.
  - right. rewrite <- Hraw. apply clean_no_underscore.
Qed.

Lemma unreachable_not_produced (e : SchemaEntry) (k f : string) :
  In e schema_entries -> In f unreachable_fields ->
  dict_get (column_mapping e) k = Some f -> False.
Proof.
  intros He Hf Hg. apply dict_get_In in Hg.
  assert (Hall : forallb (fun e =>
            forallb (fun p => negb (existsb (String.eqb (snd p)) unreachable_fields))
                    (column_mapping e)) schema_entries = true) by reflexivity.
  rewrite forallb_forall in Hall. specialize (Hall e He).
  rewrite forallb_forall in Hall. specialize (Hall (k, f) Hg). cbn [snd] in Hall.
  apply negb_true_iff in Hall.
  assert (Hex : existsb (String.eqb f) unreachable_fields = true).
  { apply existsb_exists. exists f. split; [exact Hf | apply String.eqb_refl]. }
  congruence.
Qed.

Lemma unreachable_field_facts (f : string) :
  In f unreachable_fields ->
  has_underscore f = true /\ f <> "CREDIT_DEBIT_AMOUNT" /\ In (f, f) row_fields.
Proof.
  simpl. intros H.
  repeat (destruct H as [<-|H];
          [split; [reflexivity | split; [discriminate | simpl; auto 40]]|]).
  contradiction.
Qed.

(** X4.  Sixteen fields of the record are [None] in every record the
    pipeline emits, whatever the file holds: their names contain ['_'],
    which cleaning removes from every header, and no schema entry maps a
    header to them. *)
Theorem unmapped_fields_are_none (df df' : DataFrame)
    (bank_name transaction_type : string) (e : SchemaEntry) (bank_id : Z)
    (st : loop_state) :
  resolve bank_name transaction_type = Some e ->
  prepared df e bank_name = Ok df' ->
  row_loop (iterrows df') bank_name transaction_type bank_id
    (mkLoop df' [] 0 0) = Ok st ->
  Forall (fun td =>
            forall f, In f unreachable_fields -> dict_get td f = Some VNone)
    (bulk_data_transactions st).
Proof.
  intros Hres Hprep Hrun.
  assert (Habsent : forall f, In f unreachable_fields -> has_column df' f = false).
  { intros f Hf. apply not_true_is_false. intros Hcol.
    apply has_column_In in Hcol.
    destruct (unreachable_field_facts f Hf) as (Hu & Hne & _).
    destruct (prepared_label_origin _ _ _ _ _ Hprep Hcol)
      as [H | [(k & H) | H]].
    - contradiction.
    - apply resolve_schema_entries in Hres.
      exact (unreachable_not_produced e k f Hres Hf H).
    - congruence. }
  destruct (existsb (String.eqb transaction_type) transaction_types) eqn:Hty.
  - pose proof (prepared_no_converted_columns _ _ _ _ _ Hres Hprep) as Hdf.
    destruct (row_loop_supported (iterrows df') bank_name transaction_type
                bank_id Hty (mkLoop df' [] 0 0) Hdf) as (batch & Hrun' & Hall).
    rewrite Hrun' in Hrun. injection Hrun as <-. simpl.
    pose proof (prepared_payable _ _ _ _ Hprep) as Hpay.
    apply (Forall2_Forall_right _ _ _ _ Hall).
    intros r td Hin Hproj. apply in_iterrows in Hin as (i & ->).
    destruct (projected_record df' i _ _ _ td Hpay Hproj) as (_ & _ & _ & _ & Hrow).
    intros f Hf. apply (Hrow f f).
    + now apply unreachable_field_facts.
    + now apply Habsent.
  - rewrite (row_loop_unsupported _ _ _ _ Hty) in Hrun.
    injection Hrun as <-. constructor.
Qed.

Lemma process_dataframe_chunk_outcome (df df' : DataFrame)
    (bank_name transaction_type : string) (e : SchemaEntry) (w : World) :
  resolve bank_name transaction_type = Some e ->
  forallb (has_column (map_labels clean_column_name df)) (expected_columns e)
  = true ->
  prepared df e bank_name = Ok df' ->
  exists bank_id batch,
    dict_get BANK_CODE_MAPPING bank_name = Some bank_id
    /\ (if existsb (String.eqb transaction_type) transaction_types
        then Forall2 (fun r td =>
                        projected r bank_name transaction_type bank_id td)
               (iterrows df') batch
        else batch = [])
    /\ process_dataframe_chunk df bank_name transaction_type w
       = Ok (snd (commit_and_publish
                    (if existsb (String.eqb transaction_type) transaction_types
                     then mkLoop df' batch (index_len df) 0
                     else mkLoop df' batch 0 (index_len df)) w)).
Proof.
  intros Hres Hcols Hprep.
  destruct (resolve_bank_code _ _ _ Hres) as (bank_id & Hcode).
  pose proof (prepared_index_len _ _ _ _ Hprep) as Hlen.
  rewrite (process_dataframe_chunk_passed _ _ _ _ _ _ Hres Hcols Hprep).
  exists bank_id.
  destruct (existsb (String.eqb transaction_type) transaction_types) eqn:Hty.
  - pose proof (prepared_no_converted_columns _ _ _ _ _ Hres Hprep) as Hdf.
    destruct (process_transactions_supported df' _ _ _ w Hcode Hty Hdf)
      as (batch & Hall & _ & Hproc).
    exists batch. rewrite Hproc, Hlen.
    split; [exact Hcode | split; [exact Hall | reflexivity]].
  - exists []. split; [exact Hcode | split; [reflexivity|]].
    unfold process_transactions. rewrite Hcode.
    rewrite (row_loop_unsupported _ _ _ _ Hty). cbn [bind].
    simpl. now rewrite length_iterrows, Hlen.
Qed.

(** X5.  A chunk without rows that passes the checks, and whose conversions
    raise nothing, publishes (0, 0) and the bulk insert is not called: the
    database is the one before. *)
Theorem empty_chunk_publishes_zero (df df' : DataFrame)
    (bank_name transaction_type : string) (e : SchemaEntry) (w : World) :
  resolve bank_name transaction_type = Some e ->
  forallb (has_column (map_labels clean_column_name df)) (expected_columns e)
  = true ->
  prepared df e bank_name = Ok df' ->
  index_len df = 0 ->
  process_dataframe_chunk df bank_name transaction_type w
  = Ok (mkWorld (db w) (Some (0, 0))).
Proof.
  intros Hres Hcols Hprep Hzero.
  destruct (process_dataframe_chunk_outcome _ _ _ transaction_type _ w
              Hres Hcols Hprep) as (bank_id & batch & _ & Hbatch & Hrun).
  rewrite Hrun, Hzero.
  assert (Hnil : batch = []).
  { destruct (existsb _ _); [|exact Hbatch].
    apply Forall2_length in Hbatch.
    rewrite length_iterrows, (prepared_index_len _ _ _ _ Hprep), Hzero in Hbatch.
    now destruct batch. }
  subst batch. now destruct (existsb _ _).
Qed.

(** X6.  A chunk with rows, a supported category and a database that
    accepts the batch: the database becomes what the bulk insert returns for
    the batch of all projected rows, and the published result is (n, 0). *)
Theorem accepted_chunk_commits (df df' : DataFrame)
    (bank_name transaction_type : string) (e : SchemaEntry) (w : World) :
  resolve bank_name transaction_type = Some e ->
  forallb (has_column (map_labels clean_column_name df)) (expected_columns e)
  = true ->
  prepared df e bank_name = Ok df' ->
  existsb (String.eqb transaction_type) transaction_types = true ->
  0 < index_len df ->
  (forall batch, bulk_create_transactions batch (db w) <> None) ->
  exists bank_id batch store,
    dict_get BANK_CODE_MAPPING bank_name = Some bank_id
    /\ Forall2 (fun r td => projected r bank_name transaction_type bank_id td)
         (iterrows df') batch
    /\ bulk_create_transactions batch (db w) = Some store
    /\ process_dataframe_chunk df bank_name transaction_type w
       = Ok (mkWorld store (Some (index_len df, 0))).
Proof.
  intros Hres Hcols Hprep Hty Hpos Hup.
  destruct (process_dataframe_chunk_outcome _ _ _ transaction_type _ w
              Hres Hcols Hprep) as (bank_id & batch & Hcode & Hbatch & Hrun).
  rewrite Hty in Hbatch, Hrun.
  destruct (bulk_create_transactions batch (db w)) as [store|] eqn:Hstore;
    [|now apply Hup in Hstore].
  exists bank_id, batch, store. repeat split; try assumption.
  rewrite Hrun. unfold commit_and_publish. simpl.
  destruct batch as [|td tds].
  - apply Forall2_length in Hbatch.
    rewrite length_iterrows, (prepared_index_len _ _ _ _ Hprep) in Hbatch.
    simpl in Hbatch. lia.
  - now rewrite Hstore.
Qed.

(** X7.  A chunk that passes the checks never raises, and what it publishes
    for its n rows is one of (n, 0), (n, n) and (0, n). *)
Theorem passing_chunk_outcomes (df df' : DataFrame)
    (bank_name transaction_type : string) (e : SchemaEntry) (w : World) :
  resolve bank_name transaction_type = Some e ->
  forallb (has_column (map_labels clean_column_name df)) (expected_columns e)
  = true ->
  prepared df e bank_name = Ok df' ->
  exists w',
    process_dataframe_chunk df bank_name transaction_type w = Ok w'
    /\ (latest_transaction_results w' = Some (index_len df, 0)
        \/ latest_transaction_results w' = Some (index_len df, index_len df)
        \/ latest_transaction_results w' = Some (0, index_len df)).
Proof.
  intros Hres Hcols Hprep.
  destruct (process_dataframe_chunk_outcome _ _ _ transaction_type _ w
              Hres Hcols Hprep) as (bank_id & batch & _ & Hbatch & Hrun).
  eexists. split; [exact Hrun|].
  destruct (existsb (String.eqb transaction_type) transaction_types).
  - apply Forall2_length in Hbatch.
    rewrite length_iterrows, (prepared_index_len _ _ _ _ Hprep) in Hbatch.
    unfold commit_and_publish. simpl. destruct batch as [|td tds]; [auto|].
    destruct (bulk_create_transactions (td :: tds) (db w)); simpl; [auto|].
    right. left. simpl in Hbatch. now rewrite <- Hbatch.
  - subst batch. unfold commit_and_publish. simpl. auto.
Qed.

(** X8.  What a passing chunk publishes does not depend on what the slot
    held: the counts of earlier chunks are overwritten, not added to. *)
Theorem published_result_overwrites (df df' : DataFrame)
    (bank_name transaction_type : string) (e : SchemaEntry) (store : Store)
    (slot1 slot2 : option (nat * nat)) :
  resolve bank_name transaction_type = Some e ->
  forallb (has_column (map_labels clean_column_name df)) (expected_columns e)
  = true ->
  prepared df e bank_name = Ok df' ->
  process_dataframe_chunk df bank_name transaction_type (mkWorld store slot1)
  = process_dataframe_chunk df bank_name transaction_type (mkWorld store slot2).
Proof.
  intros Hres Hcols Hprep.
  rewrite !(process_dataframe_chunk_passed _ _ _ _ _ _ Hres Hcols Hprep).
  destruct (resolve_bank_code _ _ _ Hres) as (bank_id & Hcode).
  unfold process_transactions. rewrite Hcode.
  destruct (row_loop _ _ _ _ _) as [st|ex]; reflexivity.
Qed.

(* ================================================================= *)
(** ** More on the NaT pass and the published result *)

Lemma handle_nat_fields_missing (fields : list string) :
  forall td f,
    In f fields -> dict_get td f = None ->
    handle_nat_fields fields td = Raise KeyError.
Proof.
  induction fields as [|g rest IH]; intros td f Hin Hf; [contradiction|].
  simpl. destruct (dict_get td g) as [v|] eqn:Hg; [|reflexivity].
  destruct Hin as [->|Hin]; [congruence|].
  apply (IH _ f Hin).
  destruct (is_NaT v); [|exact Hf].
  rewrite dict_get_set_other; [exact Hf|]. intros ->. congruence.
Qed.

(** X9.  [handle_nat_in_datetime_fields] raises KeyError exactly when one of
    the five date keys is missing from the dictionary; otherwise it returns
    a dictionary with the same keys in the same order. *)
Theorem handle_nat_key_error (td : record) :
  (handle_nat_in_datetime_fields td = Raise KeyError
   <-> exists f, In f datetime_fields /\ dict_get td f = None)
  /\ ((forall f, In f datetime_fields -> dict_get td f <> None) ->
      exists td', handle_nat_in_datetime_fields td = Ok td'
                  /\ dict_keys td' = dict_keys td).
Proof.
  unfold handle_nat_in_datetime_fields.
  assert (Hok : (forall f, In f datetime_fields -> dict_get td f <> None) ->
                exists td', handle_nat_fields datetime_fields td = Ok td'
                            /\ dict_keys td' = dict_keys td).
  { intros Hall.
    destruct (handle_nat_fields_spec datetime_fields td Hall)
      as (td' & Hrun & Hk & _).
    now exists td'. }
  split; [|exact Hok]. split.
  - intros Hraise.
    destruct (existsb (fun f => match dict_get td f with
                                | None => true | Some _ => false end)
                datetime_fields) eqn:Hex.
    + apply existsb_exists in Hex as (f & Hf & Hnone). exists f. split; [exact Hf|].
      now destruct (dict_get td f).
    + exfalso. destruct Hok as (td' & Hrun & _); [|congruence].
      intros f Hf Hnone.
      assert (Htrue : existsb (fun f => match dict_get td f with
                                | None => true | Some _ => false end)
                datetime_fields = true).
      { apply existsb_exists. exists f. split; [exact Hf | now rewrite Hnone]. }
      congruence.
  - intros (f & Hf & Hnone). exact (handle_nat_fields_missing _ _ f Hf Hnone).
Qed.

Lemma is_NaT_after (k : string) (v : value) :
  is_NaT (if existsb (String.eqb k) datetime_fields && is_NaT v
          then VNone else v)
  = negb (existsb (String.eqb k) datetime_fields) && is_NaT v.
Proof.
  destruct (existsb (String.eqb k) datetime_fields); simpl;
    now destruct (is_NaT v) eqn:E.
Qed.

Lemma dict_ext (d1 d2 : record) :
  dict_keys d1 = dict_keys d2 ->
  (forall k, dict_get d1 k = dict_get d2 k) ->
  NoDup (dict_keys d1) ->
  d1 = d2.
Proof.
  unfold dict_keys.
  revert d2. induction d1 as [|[k v] r IH]; intros [|[k2 v2] r2] Hk Hg Hnd;
    simpl in Hk, Hnd; try discriminate; [reflexivity|].
  injection Hk as <- Hk.
  pose proof (Hg k) as Hgk. simpl in Hgk. rewrite String.eqb_refl in Hgk.
  injection Hgk as <-. f_equal.
  apply NoDup_cons_iff in Hnd as [Hnotin Hnd].
  apply IH; [exact Hk| |exact Hnd].
  intros k'. specialize (Hg k'). simpl in Hg.
  destruct (String.eqb k k') eqn:E; [|exact Hg].
  apply String.eqb_eq in E; subst k'.
  assert (H1 : dict_get r k = None).
  { destruct (dict_get r k) eqn:Hr; [|reflexivity].
    exfalso. apply Hnotin. apply dict_get_In in Hr.
    apply (in_map fst) in Hr. exact Hr. }
  assert (H2 : dict_get r2 k = None).
  { destruct (dict_get r2 k) eqn:Hr; [|reflexivity].
    exfalso. apply Hnotin. rewrite Hk. apply dict_get_In in Hr.
    apply (in_map fst) in Hr. exact Hr. }
  congruence.
Qed.

(** X10.  On a dictionary with distinct keys the NaT pass is idempotent:
    run on its own result it changes nothing.  Its result differs from its
    argument only in the date fields that held NaT, which hold [None]. *)
Theorem handle_nat_idempotent (td td' : record) :
  NoDup (dict_keys td) ->
  handle_nat_in_datetime_fields td = Ok td' ->
  handle_nat_in_datetime_fields td' = Ok td'
  /\ forall k v, dict_get td k = Some v ->
       dict_get td' k
       = Some (if existsb (String.eqb k) datetime_fields && is_NaT v
               then VNone else v).
Proof.
  unfold handle_nat_in_datetime_fields. intros Hnd Hrun.
  assert (Hall : forall f, In f datetime_fields -> dict_get td f <> None).
  { intros f Hf Hnone.
    rewrite (handle_nat_fields_missing _ _ f Hf Hnone) in Hrun. discriminate. }
  destruct (handle_nat_fields_spec datetime_fields td Hall)
    as (td1 & Hrun1 & Hk1 & Hv1).
  rewrite Hrun1 in Hrun. injection Hrun as <-.
  split.
  - assert (Hall1 : forall f, In f datetime_fields -> dict_get td1 f <> None).
    { intros f Hf. rewrite Hv1. specialize (Hall f Hf).
      destruct (dict_get td f); [discriminate | contradiction]. }
    destruct (handle_nat_fields_spec datetime_fields td1 Hall1)
      as (td2 & Hrun2 & Hk2 & Hv2).
    rewrite Hrun2. f_equal. apply dict_ext.
    + exact Hk2.
    + intros k. rewrite Hv2, Hv1. destruct (dict_get td k) as [v|]; [|reflexivity].
      f_equal.
      destruct (existsb (String.eqb k) datetime_fields); simpl; [|reflexivity].
      now destruct (is_NaT v) eqn:E; simpl; [|rewrite E].
    + now rewrite Hk2, Hk1.
  - intros k v Hg. now rewrite Hv1, Hg.
Qed.

(** X11.  What [process_transactions] returns is what it leaves in the
    cache slot and what the result view then shows; when it returns nothing
    (bank without a code) the world is untouched. *)
Theorem returned_result_is_published (df : DataFrame)
    (bank_name transaction_type : string) (w w' : World)
    (returned : option (nat * nat)) :
  process_transactions df bank_name transaction_type w = Ok (returned, w') ->
  match returned with
  | Some results =>
      latest_transaction_results w' = Some results
      /\ transaction_results_view (latest_transaction_results w') = results
  | None => w' = w
  end.
Proof.
  unfold process_transactions.
  destruct (dict_get BANK_CODE_MAPPING bank_name) as [bank_id|].
  - intros H. apply bind_Ok in H as (st & _ & H).
    unfold commit_and_publish in H.
    destruct (match bulk_data_transactions st with
              | [] => (db w, fail_count st)
              | _ :: _ =>
                  match bulk_create_transactions (bulk_data_transactions st) (db w) with
                  | Some store => (store, fail_count st)
                  | None => (db w, fail_count st + List.length (bulk_data_transactions st))
                  end
              end) as [store failed].
    injection H as <- <-. simpl. auto.
  - intros H. injection H as <- <-. reflexivity.
Qed.

(* ================================================================= *)
(** ** The Batch Coordinator *)

Lemma run_chunks_Ok (df_chunks rest : list DataFrame)
    (bank_name transaction_type : string) (w w1 : World) :
  run_chunks df_chunks bank_name transaction_type w = Ok w1 ->
  process_file_chunks (df_chunks ++ rest) bank_name transaction_type w
  = process_file_chunks rest bank_name transaction_type w1.
Proof.
  revert w. induction df_chunks as [|c more IH]; intros w H; simpl in *.
  - now injection H as <-.
  - apply bind_Ok in H as (w2 & Hc & H). rewrite Hc. now apply IH.
Qed.

(** X12.  Within one file the chunks are committed one at a time: when the
    first chunks are processed without an exception and the next one
    raises, the file ends in the world those first chunks left, their
    inserts and published result included, and the chunks after the raising
    one are not processed. *)
Theorem raising_chunk_ends_file (before after : list DataFrame)
    (df_chunk : DataFrame) (bank_name transaction_type : string)
    (w w1 : World) (e : exn) :
  run_chunks before bank_name transaction_type w = Ok w1 ->
  process_dataframe_chunk df_chunk bank_name transaction_type w1 = Raise e ->
  process_file_chunks (before ++ df_chunk :: after) bank_name
    transaction_type w = w1.
Proof.
  intros Hrun Hraise. rewrite (run_chunks_Ok _ _ _ _ _ _ Hrun).
  simpl. now rewrite Hraise.
Qed.

(** X13.  A CSV reader that yields some chunks and then ends, or then
    raises, leaves the world the list of those chunks leaves: a read error
    in the middle of a file keeps what the earlier chunks committed. *)
Theorem reader_error_keeps_earlier_chunks (df_chunks : list DataFrame)
    (bank_name transaction_type : string) (w : World) (e : exn) :
  process_reader (chunks_then df_chunks ReaderEnd) bank_name transaction_type w
  = process_file_chunks df_chunks bank_name transaction_type w
  /\ process_reader (chunks_then df_chunks (ReaderError e)) bank_name
       transaction_type w
     = process_file_chunks df_chunks bank_name transaction_type w.
Proof.
  revert w. induction df_chunks as [|c more IH]; intros w; simpl; [auto|].
  destruct (process_dataframe_chunk c bank_name transaction_type w) as [w1|ex];
    [apply IH | auto].
Qed.

(** X14.  A file is skipped, the world left as it is and the next file
    taken up, when its index has no entry in [file_formats], when the entry
    is neither excel nor csv, when an excel entry goes with a name that ends
    in neither .xlsx nor .xls, and when the decoder raises. *)
Theorem skipped_file_changes_nothing (read_excel : excel_decoder)
    (read_csv : csv_decoder) (file_index : nat)
    (file_content file_name bank_name transaction_type : string)
    (file_formats : list string) (rest : list (string * string)) (w : World) :
  nth_error file_formats file_index = None
  \/ (exists f, nth_error file_formats file_index = Some f
                /\ f <> "excel" /\ f <> "csv")
  \/ (nth_error file_formats file_index = Some "excel"
      /\ endswith file_name ".xlsx" = false
      /\ endswith file_name ".xls" = false)
  \/ (nth_error file_formats file_index = Some "excel"
      /\ endswith file_name ".xlsx" = true
      /\ exists e, read_excel file_content "openpyxl" = Raise e)
  \/ (nth_error file_formats file_index = Some "excel"
      /\ endswith file_name ".xlsx" = false
      /\ endswith file_name ".xls" = true
      /\ exists e, read_excel file_content "xlrd" = Raise e)
  \/ (nth_error file_formats file_index = Some "csv"
      /\ exists e, read_csv file_content = Raise e) ->
  process_file read_excel read_csv file_index file_content file_name
    bank_name transaction_type file_formats w = w
  /\ process_files_from read_excel read_csv file_index
       ((file_content, file_name) :: rest) bank_name transaction_type
       file_formats w
     = process_files_from read_excel read_csv (S file_index) rest bank_name
         transaction_type file_formats w.
Proof.
  intros H.
  assert (Hfile : process_file read_excel read_csv file_index file_content
                    file_name bank_name transaction_type file_formats w = w).
  { unfold process_file.
    destruct H as [-> | [(f & -> & Hx & Hc) | [(-> & Hx & Hs)
                 | [(-> & Hx & ex & Hr) | [(-> & Hx & Hs & ex & Hr)
                 | (-> & ex & Hr)]]]]].
    - reflexivity.
    - apply String.eqb_neq in Hx, Hc. now rewrite Hx, Hc.
    - rewrite String.eqb_refl, Hx, Hs. reflexivity.
    - rewrite String.eqb_refl, Hx, Hr. reflexivity.
    - rewrite String.eqb_refl, Hx, Hs, Hr. reflexivity.
    - change (String.eqb "csv" "excel") with false.
      rewrite String.eqb_refl, Hr. reflexivity. }
  split; [exact Hfile|]. cbn [process_files_from]. now rewrite Hfile.
Qed.

(** X15.  The files of a submission are processed in their order, each from
    the world the previous one left; the files after the first k are read
    with the formats from position k on. *)
Theorem files_are_processed_in_order (read_excel : excel_decoder)
    (read_csv : csv_decoder) (first_files more_files : list (string * string))
    (bank_name transaction_type : string) (file_formats : list string)
    (w : World) :
  process_uploaded_files read_excel read_csv (first_files ++ more_files)
    bank_name transaction_type file_formats w
  = process_files_from read_excel read_csv (List.length first_files)
      more_files bank_name transaction_type file_formats
      (process_uploaded_files read_excel read_csv first_files bank_name
         transaction_type file_formats w).
Proof.
  unfold process_uploaded_files.
  change (List.length first_files) with (0 + List.length first_files).
  generalize 0 as i. revert w.
  induction first_files as [|[content name] rest IH]; intros w i; simpl.
  - now rewrite Nat.add_0_r.
  - rewrite IH. f_equal. lia.
Qed.

Lemma datetime_step_keeps_selection (df df1 : DataFrame) (col other : string) :
  col <> other ->
  (if has_column df col then convert_column_to_datetime df col else Ok df)
  = Ok df1 ->
  select df1 other = select df other.
Proof.
  intros Hne H. destruct (has_column df col).
  - apply convert_column_to_datetime_Ok in H as (s & _ & ->).
    now rewrite select_setitem_other.
  - now injection H as <-.
Qed.

(** X16.  When two headers of a chunk end up as the amount column (they
    clean to the same mapped name), the conversion raises before any row is
    read: nothing is inserted or published for the chunk, and inside the
    file loop the rest of the file is dropped with the world unchanged. *)
Theorem duplicate_amount_header_raises (df : DataFrame)
    (bank_name transaction_type : string) (e : SchemaEntry)
    (rest : list DataFrame) (w : World) :
  resolve bank_name transaction_type = Some e ->
  forallb (has_column (map_labels clean_column_name df)) (expected_columns e)
  = true ->
  2 <= List.length
         (select (map_labels (rename_label (column_mapping e))
                    (map_labels clean_column_name df)) "Payable_Merchant") ->
  (exists ex, process_dataframe_chunk df bank_name transaction_type w = Raise ex)
  /\ process_file_chunks (df :: rest) bank_name transaction_type w = w.
Proof.
  intros Hres Hcols Hdup.
  assert (Hraise : exists ex,
            process_dataframe_chunk df bank_name transaction_type w = Raise ex).
  { unfold process_dataframe_chunk. rewrite Hres, Hcols.
    set (df0 := map_labels (rename_label (column_mapping e))
                  (map_labels clean_column_name df)) in *.
    unfold coerce_columns.
    destruct (if has_column df0 "Transaction_Date"
              then convert_column_to_datetime df0 "Transaction_Date"
              else Ok df0) as [df1|ex1] eqn:H1; [|now exists ex1].
    cbn [bind].
    destruct (if has_column df1 "Settlement_Date"
              then convert_column_to_datetime df1 "Settlement_Date"
              else Ok df1) as [df2|ex2] eqn:H2; [|now exists ex2].
    cbn [bind].
    assert (Hsel : select df2 "Payable_Merchant" = select df0 "Payable_Merchant").
    { rewrite (datetime_step_keeps_selection df1 df2 "Settlement_Date"
                 "Payable_Merchant" ltac:(discriminate) H2).
      exact (datetime_step_keeps_selection df0 df1 "Transaction_Date"
               "Payable_Merchant" ltac:(discriminate) H1). }
    rewrite select_has_column.
    2:{ rewrite Hsel. intros Hnil. rewrite Hnil in Hdup. simpl in Hdup. lia. }
    unfold convert_payable_to_float. rewrite Hsel.
    destruct (select df0 "Payable_Merchant") as [|s1 [|s2 more]];
      simpl in Hdup; try lia.
    exists AttributeError. now destruct s1. }
  split; [exact Hraise|].
  destruct Hraise as (ex & Hraise). simpl. now rewrite Hraise.
Qed.

(* ================================================================= *)
(** ** The upload view *)

Lemma collect_files_accepted (files : list UploadedFile) :
  forallb acceptable files = true ->
  forall file_contents file_formats,
    collect_files files file_contents file_formats
    = inr (file_contents ++ map file_entry files,
           file_formats ++ map format_entry files).
Proof.
  induction files as [|x rest IH]; intros Hall cs fs; simpl.
  - now rewrite !app_nil_r.
  - simpl in Hall. apply andb_true_iff in Hall as [Hx Hrest].
    unfold acceptable in Hx. apply andb_true_iff in Hx as [Hsize Hfmt].
    apply negb_true_iff in Hsize. rewrite Hsize.
    unfold format_entry, file_entry. unfold declared_format in *.
    destruct (endswith (upload_name x) ".xlsx" || endswith (upload_name x) ".xls").
    + rewrite (IH Hrest). now rewrite <- !app_assoc.
    + destruct (endswith (upload_name x) ".csv"); [|discriminate].
      rewrite (IH Hrest). now rewrite <- !app_assoc.
Qed.

Lemma collect_files_refused (accepted rest : list UploadedFile)
    (file : UploadedFile) :
  forallb acceptable accepted = true ->
  acceptable file = false ->
  forall file_contents file_formats,
    collect_files (accepted ++ file :: rest) file_contents file_formats
    = inl (if upload_size file =? 0
           then JsonResponse
                  (String.append "File "
                     (String.append (upload_name file) " is empty.")) 400
           else JsonResponse
                  "Unsupported file extension. Only .xlsx, .xls, and .csv files are allowed."
                  400).
Proof.
  induction accepted as [|x more IH]; intros Hall Hbad cs fs.
  - simpl. unfold acceptable, declared_format in Hbad.
    destruct (upload_size file =? 0); [reflexivity|]. simpl in Hbad.
    destruct (endswith (upload_name file) ".xlsx"
              || endswith (upload_name file) ".xls"); [discriminate|].
    destruct (endswith (upload_name file) ".csv"); [discriminate | reflexivity].
  - simpl in Hall. apply andb_true_iff in Hall as [Hx Hrest].
    cbn [app collect_files].
    unfold acceptable in Hx. apply andb_true_iff in Hx as [Hsize Hfmt].
    apply negb_true_iff in Hsize. rewrite Hsize.
    unfold declared_format in Hfmt.
    destruct (endswith (upload_name x) ".xlsx" || endswith (upload_name x) ".xls").
    + now apply IH.
    + destruct (endswith (upload_name x) ".csv"); [now apply IH | discriminate].
Qed.

Lemma first_refused (files : list UploadedFile) :
  forallb acceptable files = false ->
  exists accepted file rest,
    files = accepted ++ file :: rest
    /\ forallb acceptable accepted = true /\ acceptable file = false.
Proof.
  induction files as [|x more IH]; simpl; [discriminate|].
  destruct (acceptable x) eqn:Hx; simpl.
  - intros H. destruct (IH H) as (a & f & r & -> & Ha & Hf).
    exists (x :: a), f, r. simpl. now rewrite Hx.
  - intros _. now exists [], x, more.
Qed.

Lemma upload_files_task (method : string) (form_valid : bool)
    (bank_name transaction_type : string) (files : list UploadedFile)
    (t : task) :
  snd (upload_files method form_valid bank_name transaction_type files)
  = Some t ->
  forallb acceptable files = true
  /\ t = mkTask (map file_entry files) bank_name transaction_type
           (map format_entry files).
Proof.
  unfold upload_files.
  destruct (String.eqb method "POST"); [|discriminate].
  destruct form_valid; [|discriminate].
  destruct (forallb acceptable files) eqn:Hall.
  - rewrite (collect_files_accepted files Hall). simpl.
    destruct files as [|x rest]; [discriminate|].
    simpl. intros H. injection H as <-. now split.
  - destruct (first_refused files Hall) as (a & f & r & -> & Ha & Hf).
    rewrite (collect_files_refused a r f Ha Hf). discriminate.
Qed.

(** X17.  [upload_files] hands a task to the worker exactly when the
    request is a POST with a valid form and at least one file, every file
    being non-empty with a name ending in .xlsx, .xls or .csv.  The task
    then holds the content and name of every file in upload order, the
    form's bank and category, and one format per file, excel or csv by the
    name; the answer is 202. *)
Theorem upload_dispatch (method : string) (form_valid : bool)
    (bank_name transaction_type : string) (files : list UploadedFile) :
  upload_files method form_valid bank_name transaction_type files
  = (if String.eqb method "POST" && form_valid && forallb acceptable files
        && negb (Nat.eqb (List.length files) 0)
     then (JsonResponse "Files uploaded successfully. Processing started." 202,
           Some (mkTask (map file_entry files) bank_name transaction_type
                   (map format_entry files)))
     else (fst (upload_files method form_valid bank_name transaction_type files),
           None)).
Proof.
  unfold upload_files.
  destruct (String.eqb method "POST"); [|reflexivity].
  destruct form_valid; [|reflexivity]. cbn [andb].
  destruct (forallb acceptable files) eqn:Hall.
  - rewrite (collect_files_accepted files Hall). simpl.
    destruct files as [|x rest]; reflexivity.
  - destruct (first_refused files Hall) as (a & f & r & -> & Ha & Hf).
    now rewrite (collect_files_refused a r f Ha Hf).
Qed.

(** X18.  The first file that is empty, or whose name ends in none of
    .xlsx, .xls and .csv, decides the answer: status 400 with the message
    of that file, emptiness being tested first, and nothing is handed to
    the worker, even when all the other files are fine. *)
Theorem upload_refusal (bank_name transaction_type : string)
    (accepted rest : list UploadedFile) (file : UploadedFile) :
  forallb acceptable accepted = true ->
  acceptable file = false ->
  upload_files "POST" true bank_name transaction_type
    (accepted ++ file :: rest)
  = (if upload_size file =? 0
     then JsonResponse
            (String.append "File "
               (String.append (upload_name file) " is empty.")) 400
     else JsonResponse
            "Unsupported file extension. Only .xlsx, .xls, and .csv files are allowed."
            400,
     None).
Proof.
  intros Ha Hf. unfold upload_files. cbn [String.eqb Ascii.eqb Bool.eqb].
  change (String.eqb "POST" "POST") with true. cbn iota.
  rewrite (collect_files_refused accepted rest file Ha Hf).
  now destruct (upload_size file =? 0).
Qed.

(** X19.  For a task that [upload_files] dispatched, the worker decodes
    every file by its name: openpyxl for .xlsx, xlrd for .xls, the CSV
    reader otherwise.  The branches for a missing format, an unsupported
    format and an excel format without an Excel extension are never
    taken. *)
Theorem dispatched_files_are_decoded (read_excel : excel_decoder)
    (read_csv : csv_decoder) (method : string) (form_valid : bool)
    (bank_name transaction_type : string) (files : list UploadedFile)
    (t : task) (i : nat) (file_content file_name : string) (w : World) :
  snd (upload_files method form_valid bank_name transaction_type files)
  = Some t ->
  nth_error (task_file_contents t) i = Some (file_content, file_name) ->
  process_file read_excel read_csv i file_content file_name
    (task_bank_name t) (task_transaction_type t) (task_file_formats t) w
  = decode_by_extension read_excel read_csv file_content file_name
      bank_name transaction_type w.
Proof.
  intros Ht Hnth. apply upload_files_task in Ht as [Hall ->].
  cbn [task_file_contents task_bank_name task_transaction_type
       task_file_formats] in *.
  rewrite nth_error_map in Hnth.
  destruct (nth_error files i) as [x|] eqn:Hx; [|discriminate].
  simpl in Hnth. unfold file_entry in Hnth. injection Hnth as <- <-.
  unfold process_file, decode_by_extension.
  rewrite nth_error_map, Hx. cbn [option_map].
  assert (Hacc : acceptable x = true).
  { rewrite forallb_forall in Hall. apply Hall. eapply nth_error_In; eauto. }
  unfold acceptable in Hacc. apply andb_true_iff in Hacc as [_ Hfmt].
  unfold format_entry. unfold declared_format in *.
  destruct (endswith (upload_name x) ".xlsx") eqn:E1; cbn [orb] in *.
  - reflexivity.
  - destruct (endswith (upload_name x) ".xls") eqn:E2.
    + reflexivity.
    + destruct (endswith (upload_name x) ".csv"); [|discriminate].
      reflexivity.
Qed.

(* ================================================================= *)
(** ** The sign label in the records of icici *)

Lemma in_iterrows_bound (df : DataFrame) (r : row) :
  In r (iterrows df) -> exists i, i < index_len df /\ r = row_at df i.
Proof.
  unfold iterrows. intros H. apply in_map_iff in H as (i & <- & Hi).
  apply in_seq in Hi. exists i. split; [lia | reflexivity].
Qed.

Lemma select_In (df : DataFrame) (col : string) (s : Series) :
  In s (select df col) -> In (col, s) (data df).
Proof.
  unfold select. intros H. apply in_map_iff in H as ([l s'] & <- & Hin).
  apply filter_In in Hin as [Hin E]. simpl in E.
  apply String.eqb_eq in E. now subst.
Qed.

Lemma has_column_map_labels (f : string -> string) (df : DataFrame)
    (l : string) :
  has_column df l = true -> has_column (map_labels f df) (f l) = true.
Proof.
  rewrite !has_column_In, labels_map_labels. apply in_map.
Qed.

Lemma aligned_map_labels (f : string -> string) (df : DataFrame) :
  aligned df -> aligned (map_labels f df).
Proof.
  intros H l s Hin. unfold map_labels in Hin. simpl in *.
  apply in_map_iff in Hin as ([l' s'] & E & Hin). injection E as _ <-.
  exact (H l' s' Hin).
Qed.

Lemma float_cell_at (xs : list pyfloat) (i : nat) :
  i < List.length xs ->
  nth i (map SFloat xs) (SFloat NaN) = SFloat (nth i xs NaN).
Proof. intros _. apply (map_nth SFloat). Qed.

Lemma label_cell_at (xs : list pyfloat) (i : nat) :
  i < List.length xs ->
  nth i (map credit_debit xs) (SFloat NaN) = credit_debit (nth i xs NaN).
Proof.
  intros Hi. rewrite (nth_indep _ (SFloat NaN) (credit_debit NaN))
    by now rewrite length_map.
  apply (map_nth credit_debit).
Qed.

Lemma filled_at (ys : list pyfloat) (i : nat) :
  i < List.length ys -> nth i (map fillna0 ys) NaN <> NaN.
Proof.
  intros Hi. rewrite (nth_indep _ NaN (fillna0 NaN)) by now rewrite length_map.
  rewrite (map_nth fillna0). now destruct (nth i ys NaN).
Qed.

Lemma int_cell_at (zs : list Z) (i : nat) :
  i < List.length zs ->
  nth i (map SInt zs) (SFloat NaN) = SInt (nth i zs 0%Z).
Proof.
  intros Hi. rewrite (nth_indep _ (SFloat NaN) (SInt 0%Z))
    by now rewrite length_map.
  apply (map_nth SInt).
Qed.

Lemma int_label_cell_at (zs : list Z) (i : nat) :
  i < List.length zs ->
  nth i (map credit_debit_int zs) (SFloat NaN)
  = credit_debit_int (nth i zs 0%Z).
Proof.
  intros Hi. rewrite (nth_indep _ (SFloat NaN) (credit_debit_int 0%Z))
    by now rewrite length_map.
  apply (map_nth credit_debit_int).
Qed.

Lemma interleaved_credit_debit (df : DataFrame) (x : pyfloat) :
  interleaved df (credit_debit x) = credit_debit x.
Proof.
  unfold credit_debit. destruct (float_gt0 x); [reflexivity|].
  now destruct (float_lt0 x).
Qed.

Lemma interleaved_credit_debit_int (df : DataFrame) (z : Z) :
  interleaved df (credit_debit_int z) = credit_debit_int z.
Proof.
  unfold credit_debit_int. destruct (0 <? z)%Z; [reflexivity|].
  now destruct (z <? 0)%Z.
Qed.

Lemma integers_length (cells : list scalar) (zs : list Z) :
  integers cells = Some zs -> List.length zs = List.length cells.
Proof.
  revert zs. induction cells as [|c rest IH]; simpl; intros zs H.
  - now injection H as <-.
  - destruct (to_integer c); [|discriminate].
    destruct (integers rest) as [zs'|]; [|discriminate].
    injection H as <-. simpl. now rewrite (IH zs').
Qed.

(** The settlement date column of a chunk is datetime64 after the
    conversions. *)
Lemma coerce_columns_datetime (df df' : DataFrame) (bank_name : string) :
  has_column df "Settlement_Date" = true ->
  coerce_columns df bank_name = Ok df' ->
  exists ts, select df' "Settlement_Date" = [DatetimeSeries ts].
Proof.
  intros Hsd H. unfold coerce_columns in H.
  apply bind_Ok in H as (df1 & H1 & H).
  apply bind_Ok in H as (df2 & H2 & H).
  assert (L1 : labels df1 = labels df).
  { destruct (has_column df "Transaction_Date").
    - now apply convert_column_to_datetime_frame in H1.
    - now injection H1 as <-. }
  assert (Hsd1 : has_column df1 "Settlement_Date" = true)
    by (unfold has_column in *; now rewrite L1).
  rewrite Hsd1 in H2.
  apply convert_column_to_datetime_Ok in H2 as (s & Hs & ->).
  pose proof (select_setitem_same df1 "Settlement_Date"
                (to_datetime_series s) _ Hs) as Hs2.
  unfold to_datetime_series in Hs2 at 1.
  destruct (has_column _ "Payable_Merchant").
  - apply bind_Ok in H as (df3 & H3 & H).
    apply convert_payable_to_float_Ok in H3 as (cells & _ & ->).
    destruct (String.eqb bank_name "icici").
    + apply icici_credit_debit_Ok in H as (amounts & _ & _ & ->).
      eexists. rewrite !select_setitem_other by discriminate. exact Hs2.
    + injection H as <-. eexists.
      rewrite select_setitem_other by discriminate. exact Hs2.
  - injection H as <-. eexists. exact Hs2.
Qed.

Lemma icici_prepared_columns (df df' : DataFrame) :
  aligned df ->
  forallb (has_column (map_labels clean_column_name df))
    (expected_columns icici_both) = true ->
  prepared df icici_both "icici" = Ok df' ->
  float_values df' = false
  /\ ((exists filled,
         List.length filled = index_len df'
         /\ (forall i, i < List.length filled -> nth i filled NaN <> NaN)
         /\ select df' "Payable_Merchant" = [FloatSeries filled]
         /\ select df' "CREDIT_DEBIT_AMOUNT"
            = [ObjectSeries (map credit_debit filled)])
      \/ (exists unsigned zs,
            List.length zs = index_len df'
            /\ select df' "Payable_Merchant" = [IntSeries unsigned zs]
            /\ select df' "CREDIT_DEBIT_AMOUNT"
               = [ObjectSeries (map credit_debit_int zs)])).
Proof.
  intros Hal Hcols Hprep. unfold prepared in Hprep.
  set (df0 := map_labels (rename_label (column_mapping icici_both))
                (map_labels clean_column_name df)) in *.
  assert (Hal0 : aligned df0) by (unfold df0; now do 2 apply aligned_map_labels).
  assert (Hpm : has_column df0 "Payable_Merchant" = true).
  { rewrite forallb_forall in Hcols.
    apply (has_column_map_labels (rename_label (column_mapping icici_both))
             _ "NETAMT").
    apply Hcols. vm_compute. auto 10. }
  assert (Hsd : has_column df0 "Settlement_Date" = true).
  { rewrite forallb_forall in Hcols.
    apply (has_column_map_labels (rename_label (column_mapping icici_both))
             _ "POSTDATE").
    apply Hcols. vm_compute. auto 10. }
  assert (Hcda : has_column df0 "CREDIT_DEBIT_AMOUNT" = false).
  { apply not_true_is_false. intros H. apply has_column_In in H.
    unfold df0 in H. rewrite !labels_map_labels, map_map in H.
    apply in_map_iff in H as (raw & Hraw & _).
    unfold rename_label in Hraw.
    destruct (dict_get (column_mapping icici_both) (clean_column_name raw))
      as [t|] eqn:Hg.
    - subst t. apply dict_get_In in Hg. simpl in Hg.
      repeat (destruct Hg as [Hg|Hg]; [discriminate Hg|]). contradiction.
    - pose proof (clean_no_underscore raw) as Hu. rewrite Hraw in Hu.
      discriminate Hu. }
  split.
  { destruct (coerce_columns_datetime _ _ _ Hsd Hprep) as (ts & Hts).
    apply (float_values_datetime df' "Settlement_Date" ts).
    rewrite Hts. now left. }
  unfold coerce_columns in Hprep.
  apply bind_Ok in Hprep as (df1 & H1 & Hprep).
  apply bind_Ok in Hprep as (df2 & H2 & Hprep).
  assert (Hf1 : labels df1 = labels df0 /\ index_len df1 = index_len df0).
  { destruct (has_column df0 "Transaction_Date").
    - now apply convert_column_to_datetime_frame in H1.
    - injection H1 as <-. now split. }
  assert (Hf2 : labels df2 = labels df1 /\ index_len df2 = index_len df1).
  { destruct (has_column df1 "Settlement_Date").
    - now apply convert_column_to_datetime_frame in H2.
    - injection H2 as <-. now split. }
  destruct Hf1 as [L1 I1], Hf2 as [L2 I2].
  assert (Hsel : select df2 "Payable_Merchant" = select df0 "Payable_Merchant").
  { rewrite (datetime_step_keeps_selection df1 df2 "Settlement_Date"
               "Payable_Merchant" ltac:(discriminate) H2).
    exact (datetime_step_keeps_selection df0 df1 "Transaction_Date"
             "Payable_Merchant" ltac:(discriminate) H1). }
  assert (Hpm2 : has_column df2 "Payable_Merchant" = true).
  { unfold has_column in *. now rewrite L2, L1. }
  rewrite Hpm2 in Hprep.
  apply bind_Ok in Hprep as (df3 & H3 & Hprep).
  apply convert_payable_to_float_Ok in H3 as (cells & Hc & ->).
  change (String.eqb "icici" "icici") with true in Hprep. cbn iota in Hprep.
  apply icici_credit_debit_Ok in Hprep as (amounts & Hxs & _ & ->).
  rewrite (select_setitem_same _ _ _ _ Hc) in Hxs. injection Hxs as Eam.
  set (df3 := setitem df2 "Payable_Merchant" (coerce_amounts cells)) in *.
  assert (Hsel3 : select df3 "Payable_Merchant" = [coerce_amounts cells])
    by exact (select_setitem_same _ _ _ _ Hc).
  set (df4 := setitem df3 "Payable_Merchant" (filled_amounts amounts)).
  assert (Hlen : List.length cells = index_len df0).
  { apply (Hal0 "Payable_Merchant" (ObjectSeries cells)).
    apply select_In. rewrite <- Hsel, Hc. now left. }
  destruct (setitem_present_labels df2 "Payable_Merchant"
              (coerce_amounts cells) _ Hc) as [L3 I3].
  fold df3 in L3, I3.
  destruct (setitem_present_labels df3 "Payable_Merchant"
              (filled_amounts amounts) _ Hsel3) as [L4 I4].
  fold df4 in L4, I4.
  assert (Hcda4 : has_column df4 "CREDIT_DEBIT_AMOUNT" = false).
  { unfold has_column in *. now rewrite L4, L3, L2, L1. }
  assert (Hsel4 : select df4 "Payable_Merchant" = [filled_amounts amounts])
    by exact (select_setitem_same _ _ _ _ Hsel3).
  assert (Hidx : index_len (setitem df4 "CREDIT_DEBIT_AMOUNT"
                              (ObjectSeries (amount_labels amounts)))
                 = List.length cells).
  { now rewrite index_len_setitem, I4, I3, I2, I1, <- Hlen. }
  rewrite Hidx.
  clearbody df4.
  destruct (coerce_amounts_cases cells) as [E | (u & zs & Hint & E)];
    rewrite E in Eam; subst amounts; simpl in *.
  - left. exists (map fillna0 (map coerce_amount cells)).
    split; [|split; [|split]].
    + now rewrite !length_map.
    + intros i Hi. apply filled_at. now rewrite length_map in Hi.
    + rewrite select_setitem_other by discriminate. exact Hsel4.
    + now apply select_setitem_new.
  - right. exists u, zs. split; [|split].
    + rewrite (integers_length _ _ Hint). now rewrite length_map.
    + rewrite select_setitem_other by discriminate. exact Hsel4.
    + now apply select_setitem_new.
Qed.

(** X20.  For icici, in every record of a chunk whose columns all have one
    cell per row, Payable_Merchant is a number that is not NaN and
    Credit_Debit_Amount is the sign label of that number: "CREDIT", "DEBIT"
    or [None].  The amounts of one chunk are all floats, or all integers
    when every amount of the chunk read as an integer. *)
Theorem icici_records_carry_sign_label (df df' : DataFrame)
    (transaction_type : string) (st : loop_state) :
  aligned df ->
  forallb (has_column (map_labels clean_column_name df))
    (expected_columns icici_both) = true ->
  prepared df icici_both "icici" = Ok df' ->
  row_loop (iterrows df') "icici" transaction_type 102%Z (mkLoop df' [] 0 0)
  = Ok st ->
  Forall (fun td =>
            exists x,
              x <> NaN
              /\ dict_get td "Payable_Merchant" = Some (Cell (SFloat x))
              /\ dict_get td "Credit_Debit_Amount"
                 = Some (Cell (credit_debit x)))
    (bulk_data_transactions st)
  \/ Forall (fun td =>
               exists z,
                 dict_get td "Payable_Merchant" = Some (Cell (SInt z))
                 /\ dict_get td "Credit_Debit_Amount"
                    = Some (Cell (credit_debit_int z)))
       (bulk_data_transactions st).
Proof.
  intros Hal Hcols Hprep Hrun.
  destruct (icici_prepared_columns _ _ Hal Hcols Hprep) as (Hfv & Hcase).
  destruct (existsb (String.eqb transaction_type) transaction_types) eqn:Hty.
  - assert (Hres : resolve "icici" "both" = Some icici_both) by reflexivity.
    pose proof (prepared_no_converted_columns _ _ _ _ _ Hres Hprep) as Hdf.
    destruct (row_loop_supported (iterrows df') "icici" transaction_type
                102%Z Hty (mkLoop df' [] 0 0) Hdf) as (batch & Hrun' & Hall).
    rewrite Hrun' in Hrun. injection Hrun as <-. simpl.
    destruct Hcase as [(filled & Hlen & Hfilled & Hpm & Hcda)
                      | (u & zs & Hlen & Hpm & Hcda)]; [left | right];
      apply (Forall2_Forall_right _ _ _ _ Hall);
      intros r td Hin Hproj; apply in_iterrows_bound in Hin as (i & Hi & ->);
      apply projected_fields in Hproj as [_ Hget];
      rewrite <- Hlen in Hi.
    + exists (nth i filled NaN). split; [now apply Hfilled|]. split.
      * rewrite Hget. cbn -[row_get]. rewrite row_get_select, Hpm.
        simpl. now rewrite float_cell_at.
      * rewrite Hget. cbn -[row_get]. rewrite row_get_select, Hcda.
        simpl. rewrite label_cell_at by exact Hi.
        now rewrite interleaved_credit_debit.
    + exists (nth i zs 0%Z). split.
      * rewrite Hget. cbn -[row_get]. rewrite row_get_select, Hpm.
        simpl. rewrite int_cell_at by exact Hi. simpl. now rewrite Hfv.
      * rewrite Hget. cbn -[row_get]. rewrite row_get_select, Hcda.
        simpl. rewrite int_label_cell_at by exact Hi.
        now rewrite interleaved_credit_debit_int.
  - rewrite (row_loop_unsupported _ _ _ _ Hty) in Hrun.
    injection Hrun as <-. left. constructor.
Qed.

(* ================================================================= *)
(** ** More on the emitted records *)

Lemma row_loop_literal_field (k : string) (expected : row -> value)
    (bank_name transaction_type : string) (bank_id : Z) :
  existsb (String.eqb k) datetime_fields = false ->
  (forall r v1 v2 v3 v4 v5 v6 v7 v8 v9,
      dict_get (transaction_literal r bank_name transaction_type bank_id
                  v1 v2 v3 v4 v5 v6 v7 v8 v9) k = Some (expected r)) ->
  forall rows st st',
    row_loop rows bank_name transaction_type bank_id st = Ok st' ->
    exists tds,
      bulk_data_transactions st' = bulk_data_transactions st ++ tds
      /\ Forall2 (fun r td => dict_get td k = Some (expected r))
           (if existsb (String.eqb transaction_type) transaction_types
            then rows else [])
           tds.
Proof.
  intros Hk Hlit. induction rows as [|r rest IH]; intros st st' Hrun;
    cbn [row_loop] in Hrun.
  - injection Hrun as <-. exists []. rewrite app_nil_r. split; [reflexivity|].
    destruct (existsb (String.eqb transaction_type) transaction_types);
      constructor.
  - destruct (existsb (String.eqb transaction_type) transaction_types) eqn:Hty;
      cbn [negb] in Hrun.
    + apply bind_Ok in Hrun as ([df1 td0] & Hdata & Hrun).
      apply bind_Ok in Hrun as (td & Hnat & Hrun).
      apply IH in Hrun as (tds & Hbulk & Hall). simpl in Hbulk.
      exists (td :: tds). split.
      * rewrite Hbulk, <- app_assoc. reflexivity.
      * constructor; [|exact Hall].
        apply transaction_data_Ok in Hdata
          as (v1 & v2 & v3 & v4 & v5 & v6 & v7 & v8 & v9 & ->).
        unfold handle_nat_in_datetime_fields in Hnat.
        destruct (handle_nat_fields_spec datetime_fields
                    (transaction_literal r bank_name transaction_type bank_id
                       v1 v2 v3 v4 v5 v6 v7 v8 v9))
          as (td' & Hrun' & _ & Hv).
        { intros f Hf. apply dict_get_keys. rewrite literal_keys.
          now apply datetime_fields_canonical. }
        rewrite Hrun' in Hnat. injection Hnat as <-.
        now rewrite Hv, Hlit, Hk.
    + apply IH in Hrun as (tds & Hbulk & Hall). now exists tds.
Qed.

(** X21.  Every record of a batch carries the category and the bank the
    chunk was submitted with, whatever its row holds: Transaction_type is
    the chunk's category and Bank_Name the chunk's bank. *)
Theorem records_carry_category_and_bank (df : DataFrame)
    (bank_name transaction_type : string) (bank_id : Z) (st : loop_state) :
  row_loop (iterrows df) bank_name transaction_type bank_id
    (mkLoop df [] 0 0) = Ok st ->
  Forall (fun td =>
            dict_get td "Transaction_type" = Some (Cell (SStr transaction_type))
            /\ dict_get td "Bank_Name" = Some (Cell (SStr bank_name)))
    (bulk_data_transactions st).
Proof.
  intros Hrun.
  destruct (row_loop_literal_field "Transaction_type"
              (fun _ => Cell (SStr transaction_type)) bank_name
              transaction_type bank_id eq_refl
              ltac:(intros; reflexivity) _ _ _ Hrun) as (t1 & Hb1 & H1).
  destruct (row_loop_literal_field "Bank_Name"
              (fun _ => Cell (SStr bank_name)) bank_name
              transaction_type bank_id eq_refl
              ltac:(intros; reflexivity) _ _ _ Hrun) as (t2 & Hb2 & H2).
  simpl in Hb1, Hb2. rewrite Hb1 in *. subst t2.
  clear Hrun Hb1.
  revert H1 H2.
  generalize (if existsb (String.eqb transaction_type) transaction_types
              then iterrows df else []) as rows.
  induction t1 as [|td tds IH]; intros rows H1 H2; constructor.
  - inversion H1; subst. inversion H2; subst. now split.
  - inversion H1; subst. inversion H2; subst. eapply IH; eauto.
Qed.

Lemma prepared_labels_other_bank (df df' : DataFrame) (bank_name : string)
    (e : SchemaEntry) :
  bank_name <> "icici" ->
  prepared df e bank_name = Ok df' ->
  labels df'
  = labels (map_labels (rename_label (column_mapping e))
              (map_labels clean_column_name df)).
Proof.
  intros Hbank H. unfold prepared, coerce_columns in H.
  set (df0 := map_labels (rename_label (column_mapping e))
                (map_labels clean_column_name df)) in *.
  apply bind_Ok in H as (df1 & H1 & H).
  apply bind_Ok in H as (df2 & H2 & H).
  assert (L1 : labels df1 = labels df0).
  { destruct (has_column df0 "Transaction_Date").
    - now apply convert_column_to_datetime_frame in H1.
    - now injection H1 as <-. }
  assert (L2 : labels df2 = labels df1).
  { destruct (has_column df1 "Settlement_Date").
    - now apply convert_column_to_datetime_frame in H2.
    - now injection H2 as <-. }
  destruct (has_column df2 "Payable_Merchant").
  - apply bind_Ok in H as (df3 & H3 & H).
    apply convert_payable_to_float_frame in H3 as [L3 _].
    apply String.eqb_neq in Hbank. rewrite Hbank in H.
    injection H as <-. congruence.
  - injection H as <-. congruence.
Qed.

(** X22.  The sign label exists for icici only: for every other bank the
    chunk gets no CREDIT_DEBIT_AMOUNT column and every record's
    Credit_Debit_Amount is [None]. *)
Theorem credit_debit_only_for_icici (df df' : DataFrame)
    (bank_name transaction_type : string) (e : SchemaEntry) (bank_id : Z)
    (st : loop_state) :
  resolve bank_name transaction_type = Some e ->
  bank_name <> "icici" ->
  prepared df e bank_name = Ok df' ->
  row_loop (iterrows df') bank_name transaction_type bank_id
    (mkLoop df' [] 0 0) = Ok st ->
  has_column df' "CREDIT_DEBIT_AMOUNT" = false
  /\ Forall (fun td => dict_get td "Credit_Debit_Amount" = Some VNone)
       (bulk_data_transactions st).
Proof.
  intros Hres Hbank Hprep Hrun.
  assert (Hcol : has_column df' "CREDIT_DEBIT_AMOUNT" = false).
  { apply not_true_is_false. intros H. apply has_column_In in H.
    rewrite (prepared_labels_other_bank _ _ _ _ Hbank Hprep) in H.
    rewrite !labels_map_labels, map_map in H.
    apply in_map_iff in H as (raw & Hraw & _).
    unfold rename_label in Hraw.
    destruct (dict_get (column_mapping e) (clean_column_name raw))
      as [t|] eqn:Hg.
    - subst t. apply resolve_schema_entries in Hres.
      apply dict_get_In in Hg.
      assert (Hall : forallb (fun e =>
                forallb (fun p => negb (String.eqb (snd p) "CREDIT_DEBIT_AMOUNT"))
                        (column_mapping e)) schema_entries = true)
        by reflexivity.
      rewrite forallb_forall in Hall. specialize (Hall e Hres).
      rewrite forallb_forall in Hall. specialize (Hall _ Hg). cbn [snd] in Hall.
      now rewrite String.eqb_refl in Hall.
    - pose proof (clean_no_underscore raw) as Hu. rewrite Hraw in Hu.
      discriminate Hu. }
  split; [exact Hcol|].
  destruct (existsb (String.eqb transaction_type) transaction_types) eqn:Hty.
  - pose proof (prepared_no_converted_columns _ _ _ _ _ Hres Hprep) as Hdf.
    destruct (row_loop_supported (iterrows df') bank_name transaction_type
                bank_id Hty (mkLoop df' [] 0 0) Hdf) as (batch & Hrun' & Hall).
    rewrite Hrun' in Hrun. injection Hrun as <-. simpl.
    pose proof (prepared_payable _ _ _ _ Hprep) as Hpay.
    apply (Forall2_Forall_right _ _ _ _ Hall).
    intros r td Hin Hproj. apply in_iterrows in Hin as (i & ->).
    destruct (projected_record df' i _ _ _ td Hpay Hproj) as (_ & _ & _ & _ & Hrow).
    apply (Hrow "Credit_Debit_Amount" "CREDIT_DEBIT_AMOUNT"); [|exact Hcol].
    unfold row_fields. apply in_or_app. right. now left.
  - rewrite (row_loop_unsupported _ _ _ _ Hty) in Hrun.
    injection Hrun as <-. constructor.
Qed.

Lemma amount_step_keeps_selection (df2 df' : DataFrame) (bank_name other : string) :
  other <> "Payable_Merchant" -> other <> "CREDIT_DEBIT_AMOUNT" ->
  (if has_column df2 "Payable_Merchant"
   then df3 <- convert_payable_to_float df2 "Payable_Merchant" ;;
        if String.eqb bank_name "icici" then icici_credit_debit df3 else Ok df3
   else Ok df2) = Ok df' ->
  select df' other = select df2 other /\ index_len df' = index_len df2.
Proof.
  intros Hpm Hcda H. destruct (has_column df2 "Payable_Merchant").
  - apply bind_Ok in H as (df3 & H3 & H).
    apply convert_payable_to_float_Ok in H3 as (cells & _ & ->).
    destruct (String.eqb bank_name "icici").
    + apply icici_credit_debit_Ok in H as (xs & _ & _ & ->).
      rewrite !select_setitem_other by congruence.
      now rewrite !index_len_setitem.
    + injection H as <-. rewrite select_setitem_other by congruence.
      now rewrite index_len_setitem.
  - injection H as <-. now split.
Qed.

Lemma datetime_step_result (df df1 : DataFrame) (col : string) :
  aligned df ->
  (if has_column df col then convert_column_to_datetime df col else Ok df)
  = Ok df1 ->
  index_len df1 = index_len df
  /\ (select df1 col = []
      \/ exists ts, List.length ts = index_len df
                    /\ select df1 col = [DatetimeSeries ts]).
Proof.
  intros Hal H. destruct (has_column df col) eqn:Hcol.
  - apply convert_column_to_datetime_Ok in H as (s & Hs & ->).
    split; [apply index_len_setitem|]. right.
    unfold to_datetime_series.
    eexists. split; [|exact (select_setitem_same _ _ _ _ Hs)].
    rewrite length_map, length_seq.
    apply (Hal col s). apply select_In. rewrite Hs. now left.
  - injection H as <-. split; [reflexivity|]. left. now apply select_nil.
Qed.

Lemma prepared_date_columns (df df' : DataFrame) (bank_name : string)
    (e : SchemaEntry) (f : string) :
  aligned df ->
  prepared df e bank_name = Ok df' ->
  f = "Transaction_Date" \/ f = "Settlement_Date" ->
  select df' f = []
  \/ exists ts, List.length ts = index_len df'
                /\ select df' f = [DatetimeSeries ts].
Proof.
  intros Hal Hprep Hf. unfold prepared, coerce_columns in Hprep.
  set (df0 := map_labels (rename_label (column_mapping e))
                (map_labels clean_column_name df)) in *.
  assert (Hal0 : aligned df0) by (unfold df0; now do 2 apply aligned_map_labels).
  apply bind_Ok in Hprep as (df1 & H1 & Hprep).
  apply bind_Ok in Hprep as (df2 & H2 & Hprep).
  destruct (datetime_step_result df0 df1 "Transaction_Date" Hal0 H1)
    as [I1 R1].
  assert (Hal1 : aligned df1).
  { intros l s Hin. rewrite I1.
    destruct (has_column df0 "Transaction_Date") eqn:Hc.
    - apply convert_column_to_datetime_Ok in H1 as (s0 & Hs0 & ->).
      unfold setitem in Hin. rewrite Hc in Hin. simpl in Hin.
      apply in_map_iff in Hin as ([l' s'] & E & Hin). simpl in E.
      destruct (String.eqb l' "Transaction_Date").
      + injection E as _ <-. unfold to_datetime_series. simpl.
        rewrite !length_map, length_seq.
        apply (Hal0 "Transaction_Date" s0). apply select_In.
        rewrite Hs0. now left.
      + injection E as <- <-. exact (Hal0 _ _ Hin).
    - injection H1 as <-. exact (Hal0 _ _ Hin). }
  destruct (datetime_step_result df1 df2 "Settlement_Date" Hal1 H2)
    as [I2 R2].
  destruct Hf as [-> | ->].
  - destruct (amount_step_keeps_selection df2 df' bank_name "Transaction_Date"
                ltac:(discriminate) ltac:(discriminate) Hprep) as [S3 I3].
    rewrite S3, I3, I2, I1.
    rewrite (datetime_step_keeps_selection df1 df2 "Settlement_Date"
               "Transaction_Date" ltac:(discriminate) H2).
    exact R1.
  - destruct (amount_step_keeps_selection df2 df' bank_name "Settlement_Date"
                ltac:(discriminate) ltac:(discriminate) Hprep) as [S3 I3].
    rewrite S3, I3, I2. exact R2.
Qed.

(** X23.  In every record of a chunk whose columns all have one cell per
    row, Transaction_Date and Settlement_Date hold a timestamp or [None]:
    a date that does not parse gives [None], never NaT and never the raw
    string. *)
Theorem date_fields_are_timestamps (df df' : DataFrame)
    (bank_name transaction_type : string) (e : SchemaEntry) (bank_id : Z)
    (st : loop_state) :
  aligned df ->
  resolve bank_name transaction_type = Some e ->
  prepared df e bank_name = Ok df' ->
  row_loop (iterrows df') bank_name transaction_type bank_id
    (mkLoop df' [] 0 0) = Ok st ->
  Forall (fun td =>
            forall f, f = "Transaction_Date" \/ f = "Settlement_Date" ->
              dict_get td f = Some VNone
              \/ exists t, dict_get td f = Some (Cell (STimestamp t)))
    (bulk_data_transactions st).
Proof.
  intros Hal Hres Hprep Hrun.
  destruct (existsb (String.eqb transaction_type) transaction_types) eqn:Hty.
  - pose proof (prepared_no_converted_columns _ _ _ _ _ Hres Hprep) as Hdf.
    destruct (row_loop_supported (iterrows df') bank_name transaction_type
                bank_id Hty (mkLoop df' [] 0 0) Hdf) as (batch & Hrun' & Hall).
    rewrite Hrun' in Hrun. injection Hrun as <-. simpl.
    apply (Forall2_Forall_right _ _ _ _ Hall).
    intros r td Hin Hproj f Hf.
    apply in_iterrows_bound in Hin as (i & Hi & ->).
    apply projected_fields in Hproj as [_ Hget].
    assert (Hv : dict_get td f
                 = Some (if is_NaT (row_get (row_at df' i) f)
                         then VNone else row_get (row_at df' i) f)).
    { rewrite Hget. destruct Hf as [-> | ->]; reflexivity. }
    rewrite Hv, row_get_select.
    destruct (prepared_date_columns _ _ _ _ f Hal Hprep Hf)
      as [-> | (ts & Hlen & ->)]; [now left|].
    simpl.
    rewrite (nth_indep _ (SFloat NaN) (timestamp_cell None))
      by (rewrite length_map; lia).
    rewrite (map_nth timestamp_cell).
    destruct (nth i ts None) as [t|]; simpl; [right; now exists t | now left].
  - rewrite (row_loop_unsupported _ _ _ _ Hty) in Hrun.
    injection Hrun as <-. constructor.
Qed.

End Pipeline.

Arguments mkWorld {Store} db latest_transaction_results.
Arguments db {Store} w.
Arguments latest_transaction_results {Store} w.
Arguments process_transactions to_numeric_str to_integer_str to_datetime {Store}
  bulk_create_transactions df_chunk bank_name transaction_type w.
Arguments process_dataframe_chunk to_numeric_str to_integer_str to_datetime
  {Store} bulk_create_transactions df_chunk bank_name transaction_type w.
Arguments process_file_chunks to_numeric_str to_integer_str to_datetime {Store}
  bulk_create_transactions df_chunks bank_name transaction_type w.
Arguments published {Store} run.

(* ================================================================= *)
(** ** The properties on the sample chunks *)

(** Closed goals are settled by evaluation. *)
Ltac evaluate := vm_compute; reflexivity.

Lemma unsupported_category_fails_every_row_witness :
  process_dataframe_chunk decimal_literal integer_literal
      digits_datetime table_insert
    icici_chunk "icici" "chargeback" (mkWorld [] None)
  = Ok (mkWorld [] (Some (0, 3))).
Proof.
  let r := eval vm_compute in
    (prepared decimal_literal integer_literal
        digits_datetime icici_chunk icici_both "icici") in
  match r with
  | Ok ?df' =>
      apply (unsupported_category_fails_every_row
              decimal_literal integer_literal
               digits_datetime (list record) table_insert icici_chunk df'
               "icici" "chargeback" icici_both (mkWorld [] None))
  end; evaluate.
Defined.

(** Claim C1 as stated fails.  On the three-row icici chunk, which passes
    schema resolution through the (icici, both) entry and has every
    required header, an unsupported category gives (0, 3), not (2, 1); and
    a category written in a column of the third row is not read at all: with
    the chunk category booking the result is (3, 0). *)
Lemma one_bad_category_counterexample :
  resolve "icici" "chargeback" = Some icici_both
  /\ forallb (has_column (map_labels clean_column_name icici_chunk))
       (expected_columns icici_both) = true
  /\ index_len icici_chunk = 3
  /\ published (process_dataframe_chunk decimal_literal integer_literal
      digits_datetime
                  table_insert icici_chunk "icici" "chargeback"
                  (mkWorld [] None)) = Some (0, 3)
  /\ published (process_dataframe_chunk decimal_literal integer_literal
      digits_datetime
                  table_insert icici_chunk "icici" "booking"
                  (mkWorld [] None)) = Some (3, 0)
  /\ Some (0, 3) <> Some (2, 1) /\ Some (3, 0) <> Some (2, 1).
Proof. repeat split; try evaluate; discriminate. Qed.

(** Claim C2 on a failing input.  The three-row karur_vysya booking chunk
    with a database that rejects the batch: the exception is caught, the
    table is unchanged, and the published result is (3, 3): the three rows
    are counted failed and are still counted successful. *)
Theorem storage_failure_keeps_success_count :
  process_dataframe_chunk decimal_literal integer_literal
      digits_datetime table_down
    karur_booking_chunk "karur_vysya" "booking" (mkWorld [] None)
  = Ok (mkWorld [] (Some (3, 3)))
  /\ published (process_dataframe_chunk decimal_literal integer_literal
      digits_datetime
                  table_down karur_booking_chunk "karur_vysya" "booking"
                  (mkWorld [] None)) <> Some (0, 3).
Proof. split; [evaluate | vm_compute; discriminate]. Qed.

Lemma missing_header_rejects_chunk_witness :
  process_dataframe_chunk decimal_literal integer_literal digits_datetime
    table_insert karur_missing_amount_chunk "karur_vysya" "booking"
    (mkWorld [] None)
  = Ok (mkWorld [] None)
  /\ transaction_results_view
       (published
          (process_dataframe_chunk decimal_literal integer_literal
             digits_datetime table_insert karur_missing_amount_chunk
             "karur_vysya" "booking" (mkWorld [] None)))
     = (0, 0)
  /\ transaction_results_view
       (published
          (process_dataframe_chunk decimal_literal integer_literal
             digits_datetime table_insert karur_missing_amount_chunk
             "karur_vysya" "booking" (mkWorld [] (Some (0, 0)))))
     = (0, 0)
  /\ transaction_results_view
       (published
          (process_dataframe_chunk decimal_literal integer_literal
             digits_datetime table_insert karur_missing_amount_chunk
             "karur_vysya" "booking" (mkWorld [] (Some (3, 0)))))
     <> (0, 0).
Proof.
  assert (Hres : resolve "karur_vysya" "booking" = Some karur_vysya_booking)
    by evaluate.
  assert (Hmiss : exists h, In h (expected_columns karur_vysya_booking)
            /\ has_column (map_labels clean_column_name
                             karur_missing_amount_chunk) h = false).
  { exists "BOOKINGAMOUNT". split; [vm_compute; auto | evaluate]. }
  pose proof (missing_header_rejects_chunk decimal_literal integer_literal
                digits_datetime (list record) table_insert
                karur_missing_amount_chunk "karur_vysya" "booking"
                karur_vysya_booking) as Hchunk.
  split; [exact (proj1 (Hchunk (mkWorld [] None) Hres Hmiss))|].
  split; [|split].
  - apply (proj2 (proj2 (Hchunk (mkWorld [] None) Hres Hmiss))).
    now left.
  - apply (proj2 (proj2 (Hchunk (mkWorld [] (Some (0, 0))) Hres Hmiss))).
    now right.
  - intros Hview.
    apply (proj2 (proj2 (Hchunk (mkWorld [] (Some (3, 0))) Hres Hmiss)))
      in Hview.
    destruct Hview as [H|H]; discriminate H.
Defined.

(** Claim C3 as stated fails.  The chunk lacks the required amount header;
    the slot held (3, 0) from an earlier chunk.  Processing returns without
    a result and leaves the slot alone, so what is published for this
    chunk, and what the view shows, is still (3, 0) and not (0, 0). *)
Lemma missing_header_counterexample :
  resolve "karur_vysya" "booking" = Some karur_vysya_booking
  /\ In "BOOKINGAMOUNT" (expected_columns karur_vysya_booking)
  /\ has_column (map_labels clean_column_name karur_missing_amount_chunk)
       "BOOKINGAMOUNT" = false
  /\ process_dataframe_chunk decimal_literal integer_literal
      digits_datetime table_insert
       karur_missing_amount_chunk "karur_vysya" "booking"
       (mkWorld [] (Some (3, 0)))
     = Ok (mkWorld [] (Some (3, 0)))
  /\ transaction_results_view
       (published (process_dataframe_chunk decimal_literal integer_literal
           digits_datetime
                     table_insert karur_missing_amount_chunk "karur_vysya"
                     "booking" (mkWorld [] (Some (3, 0)))))
     <> (0, 0).
Proof.
  repeat split; try evaluate.
  - vm_compute; auto.
  - vm_compute; discriminate.
Qed.

Lemma every_row_is_projected_witness :
  exists df' batch failed w',
    prepared decimal_literal integer_literal digits_datetime karur_booking_chunk
      karur_vysya_booking "karur_vysya" = Ok df'
    /\ row_loop decimal_literal integer_literal digits_datetime (iterrows df')
         "karur_vysya" "booking" 40%Z (mkLoop df' [] 0 0)
       = Ok (mkLoop df' batch 3 0)
    /\ Forall2 (fun r td => projected r "karur_vysya" "booking" 40%Z td)
         (iterrows df') batch
    /\ List.length batch = 3
    /\ process_dataframe_chunk decimal_literal integer_literal
        digits_datetime table_insert
         karur_booking_chunk "karur_vysya" "booking" (mkWorld [] None) = Ok w'
    /\ latest_transaction_results w' = Some (3, failed).
Proof.
  let r := eval vm_compute in
    (prepared decimal_literal integer_literal
        digits_datetime karur_booking_chunk
       karur_vysya_booking "karur_vysya") in
  match r with
  | Ok ?df' =>
      assert (Hprep : prepared decimal_literal integer_literal digits_datetime
                        karur_booking_chunk karur_vysya_booking "karur_vysya"
                      = Ok df') by evaluate;
      exists df'
  end.
  assert (Hres : resolve "karur_vysya" "booking" = Some karur_vysya_booking)
    by evaluate.
  assert (Hcols : forallb (has_column (map_labels clean_column_name
                                         karur_booking_chunk))
                    (expected_columns karur_vysya_booking) = true)
    by evaluate.
  assert (Hcode : dict_get BANK_CODE_MAPPING "karur_vysya" = Some 40%Z)
    by evaluate.
  assert (Hty : existsb (String.eqb "booking") transaction_types = true)
    by evaluate.
  destruct (every_row_is_projected decimal_literal integer_literal
      digits_datetime
              (list record) table_insert karur_booking_chunk _
              "karur_vysya" "booking" karur_vysya_booking 40%Z
              (mkWorld [] None) Hres Hcols Hprep Hcode Hty)
    as (batch & failed & w' & H).
  exists batch, failed, w'. split; [exact Hprep | exact H].
Defined.


Lemma mid_assignment_witness :
  process_transactions decimal_literal integer_literal
      digits_datetime table_insert
    karur_booking_chunk "indus" "booking" (mkWorld [] None)
  = Ok (None, mkWorld [] None)
  /\ (exists st,
        row_loop decimal_literal integer_literal digits_datetime
          (iterrows karur_booking_chunk) "karur_vysya" "booking" 40%Z
          (mkLoop karur_booking_chunk [] 0 0) = Ok st
        /\ Forall2 (fun r td => dict_get td "MID" = Some (Cell (SInt 40%Z)))
             (iterrows karur_booking_chunk) (bulk_data_transactions st))
  /\ (exists st,
        row_loop decimal_literal integer_literal digits_datetime
          (iterrows icici_chunk) "icici" "both" 102%Z
          (mkLoop icici_chunk [] 0 0) = Ok st
        /\ Forall2 (fun r td => dict_get td "MID" = Some (row_get r "MID"))
             (iterrows icici_chunk) (bulk_data_transactions st)).
Proof.
  split; [|split].
  - apply (proj1 (mid_assignment decimal_literal integer_literal digits_datetime
                    (list record) table_insert karur_booking_chunk "indus"
                    "booking" (mkWorld [] None))).
    evaluate.
  - let l := eval vm_compute in
      (row_loop decimal_literal integer_literal digits_datetime
         (iterrows karur_booking_chunk) "karur_vysya" "booking" 40%Z
         (mkLoop karur_booking_chunk [] 0 0)) in
    match l with
    | Ok ?st =>
        assert (Hrun : row_loop decimal_literal integer_literal digits_datetime
                         (iterrows karur_booking_chunk) "karur_vysya"
                         "booking" 40%Z (mkLoop karur_booking_chunk [] 0 0)
                       = Ok st) by evaluate;
        exists st
    end.
    split; [exact Hrun|].
    assert (Hcode : dict_get BANK_CODE_MAPPING "karur_vysya" = Some 40%Z)
      by evaluate.
    exact (proj2 (mid_assignment decimal_literal integer_literal digits_datetime
                    (list record) table_insert karur_booking_chunk
                    "karur_vysya" "booking" (mkWorld [] None))
             40%Z _ Hcode Hrun).
  - let l := eval vm_compute in
      (row_loop decimal_literal integer_literal digits_datetime
         (iterrows icici_chunk) "icici" "both" 102%Z
         (mkLoop icici_chunk [] 0 0)) in
    match l with
    | Ok ?st =>
        assert (Hrun : row_loop decimal_literal integer_literal digits_datetime
                         (iterrows icici_chunk) "icici" "both" 102%Z
                         (mkLoop icici_chunk [] 0 0) = Ok st) by evaluate;
        exists st
    end.
    split; [exact Hrun|].
    assert (Hcode : dict_get BANK_CODE_MAPPING "icici" = Some 102%Z)
      by evaluate.
    exact (proj2 (mid_assignment decimal_literal integer_literal digits_datetime
                    (list record) table_insert icici_chunk
                    "icici" "both" (mkWorld [] None))
             102%Z _ Hcode Hrun).
Defined.

Lemma icici_credit_debit_labels_witness :
  (exists df',
     coerce_columns decimal_literal integer_literal digits_datetime
       (mkDataFrame 4
          [("Payable_Merchant",
            ObjectSeries [SStr "50"; SStr "-50"; SStr "0"; SStr "abc"])])
       "icici" = Ok df'
     /\ select df' "Payable_Merchant"
        = [FloatSeries [Finite 50%Q; Finite (-50)%Q; Finite 0%Q; Finite 0%Q]]
     /\ select df' "CREDIT_DEBIT_AMOUNT"
        = [ObjectSeries [SStr "CREDIT"; SStr "DEBIT"; SNone; SNone]])
  /\ (exists df',
        coerce_columns decimal_literal integer_literal digits_datetime
          (mkDataFrame 3
             [("Payable_Merchant",
               ObjectSeries [SStr "50"; SStr "-50"; SStr "0"])])
          "icici" = Ok df'
        /\ select df' "Payable_Merchant" = [IntSeries false [50; -50; 0]%Z]
        /\ select df' "CREDIT_DEBIT_AMOUNT"
           = [ObjectSeries [SStr "CREDIT"; SStr "DEBIT"; SNone]])
  /\ credit_debit_of decimal_literal (SStr "50") = SStr "CREDIT"
  /\ credit_debit_of decimal_literal (SStr "-50") = SStr "DEBIT"
  /\ credit_debit_of decimal_literal (SStr "0") = SNone
  /\ credit_debit_of decimal_literal (SStr "abc") = SNone.
Proof.
  set (floats := [SStr "50"; SStr "-50"; SStr "0"; SStr "abc"]).
  set (ints := [SStr "50"; SStr "-50"; SStr "0"]).
  split; [|split].
  - let r := eval vm_compute in
      (coerce_columns decimal_literal integer_literal digits_datetime
         (mkDataFrame 4 [("Payable_Merchant", ObjectSeries floats)])
         "icici") in
    match r with
    | Ok ?df' =>
        assert (Hrun : coerce_columns decimal_literal integer_literal
                         digits_datetime
                         (mkDataFrame 4
                            [("Payable_Merchant", ObjectSeries floats)])
                         "icici" = Ok df') by evaluate;
        exists df'
    end.
    split; [exact Hrun|].
    destruct (icici_credit_debit_labels decimal_literal integer_literal
                digits_datetime
                (mkDataFrame 4 [("Payable_Merchant", ObjectSeries floats)])
                _ floats eq_refl Hrun)
      as (_ & [(_ & Hpay & _) | (u & zs & _ & E & _)] & _).
    + split; [exact Hpay | evaluate].
    + vm_compute in E. discriminate E.
  - let r := eval vm_compute in
      (coerce_columns decimal_literal integer_literal digits_datetime
         (mkDataFrame 3 [("Payable_Merchant", ObjectSeries ints)])
         "icici") in
    match r with
    | Ok ?df' =>
        assert (Hrun : coerce_columns decimal_literal integer_literal
                         digits_datetime
                         (mkDataFrame 3
                            [("Payable_Merchant", ObjectSeries ints)])
                         "icici" = Ok df') by evaluate;
        exists df'
    end.
    split; [exact Hrun|].
    destruct (icici_credit_debit_labels decimal_literal integer_literal
                digits_datetime
                (mkDataFrame 3 [("Payable_Merchant", ObjectSeries ints)])
                _ ints eq_refl Hrun)
      as (_ & [(E & _) | (u & zs & _ & E & Hpay & _)] & _).
    + vm_compute in E. discriminate E.
    + vm_compute in E. injection E as <- <-. split; [exact Hpay | evaluate].
  - destruct (icici_credit_debit_labels decimal_literal integer_literal
                digits_datetime
                (mkDataFrame 3 [("Payable_Merchant", ObjectSeries ints)])
                (mkDataFrame 3
                   [("Payable_Merchant", IntSeries false [50; -50; 0]%Z);
                    ("CREDIT_DEBIT_AMOUNT",
                     ObjectSeries [SStr "CREDIT"; SStr "DEBIT"; SNone])])
                ints eq_refl ltac:(evaluate))
      as (_ & _ & Hsign & _).
    split; [apply (proj1 (Hsign (SStr "50"))); evaluate|].
    split; [apply (proj1 (proj2 (Hsign (SStr "-50")))); evaluate|].
    split; [apply (proj1 (proj2 (proj2 (Hsign (SStr "0"))))); evaluate|].
    apply (proj2 (proj2 (proj2 (Hsign (SStr "abc"))))); evaluate.
Defined.

Lemma schema_resolution_order_witness :
  resolve "karur_vysya" "refund" = Some karur_vysya_refund
  /\ resolve "icici" "booking" = Some icici_both
  /\ process_dataframe_chunk decimal_literal integer_literal
      digits_datetime table_insert
       karur_booking_chunk "hdfc" "booking" (mkWorld [] (Some (3, 0)))
     = Ok (mkWorld [] (Some (3, 0)))
  /\ process_file_chunks decimal_literal integer_literal
      digits_datetime table_insert
       [karur_booking_chunk; karur_booking_chunk] "hdfc" "booking"
       (mkWorld [] None)
     = process_file_chunks decimal_literal integer_literal
         digits_datetime table_insert
         [karur_booking_chunk] "hdfc" "booking" (mkWorld [] None).
Proof.
  assert (Hnone : resolve "hdfc" "booking" = None) by evaluate.
  split; [|split; [|split]].
  - apply (proj1 (schema_resolution_order decimal_literal integer_literal
      digits_datetime
                    (list record) table_insert "karur_vysya" "refund")).
    evaluate.
  - assert (H : resolve "icici" "booking" = registry_entry "icici" "both").
    { apply (proj1 (proj2 (schema_resolution_order
            decimal_literal integer_literal
                             digits_datetime (list record) table_insert
                             "icici" "booking"))).
      evaluate. }
    rewrite H. evaluate.
  - exact (proj1 (proj2 (proj2 (schema_resolution_order
          decimal_literal integer_literal
                                  digits_datetime (list record) table_insert
                                  "hdfc" "booking")) Hnone
                    karur_booking_chunk [] (mkWorld [] (Some (3, 0))))).
  - exact (proj2 (proj2 (proj2 (schema_resolution_order
          decimal_literal integer_literal
                                  digits_datetime (list record) table_insert
                                  "hdfc" "booking")) Hnone
                    karur_booking_chunk [karur_booking_chunk]
                    (mkWorld [] None))).
Defined.

Lemma coerce_amount_examples_witness :
  coerce_amount decimal_literal (SStr "1,234.50") = Finite (2469 # 2)%Q
  /\ coerce_amount decimal_literal (SStr "") = NaN
  /\ coerce_amount decimal_literal (SStr "abc") = NaN
  /\ coerce_amount decimal_literal (SFloat NaN) = NaN
  /\ coerce_amount decimal_literal SNone = NaN
  /\ convert_payable_to_float decimal_literal integer_literal
       (mkDataFrame 4
          [("Payable_Merchant",
            ObjectSeries [SStr "1,234.50"; SStr "80"; SStr "abc"; SNone])])
       "Payable_Merchant"
     = Ok (mkDataFrame 4
             [("Payable_Merchant",
               FloatSeries [Finite (2469 # 2)%Q; Finite 80%Q; NaN; NaN])]).
Proof.
  assert (H1 : decimal_literal "1234.50" = Finite (2469 # 2)%Q) by evaluate.
  assert (H2 : decimal_literal "" = NaN) by evaluate.
  assert (H3 : decimal_literal "abc" = NaN) by evaluate.
  assert (Hint : integer_literal "1234.50" = None) by evaluate.
  destruct (coerce_amount_examples decimal_literal integer_literal H1 H2 H3)
    as (E1 & E2 & E3 & E4 & E5 & E6 & E7).
  do 5 (split; [assumption|]).
  rewrite (E6 (mkDataFrame 4
                 [("Payable_Merchant",
                   ObjectSeries
                     [SStr "1,234.50"; SStr "80"; SStr "abc"; SNone])])
             "Payable_Merchant"
             [SStr "1,234.50"; SStr "80"; SStr "abc"; SNone] eq_refl).
  rewrite (E7 Hint [SStr "1,234.50"; SStr "80"; SStr "abc"; SNone]
             (SStr "1,234.50") ltac:(now left) ltac:(now left)).
  evaluate.
Defined.

Lemma clean_column_name_variants_witness :
  header_variant (chars "TXNDATE") (chars "TXN_DATE [IST]")
  /\ clean_column_name "TXNDATE" = clean_column_name "TXN_DATE [IST]".
Proof.
  assert (H : header_variant (chars "TXNDATE") (chars "TXN_DATE [IST]")).
  { unfold header_variant.
    apply rst_trans with (chars "TXN_DATE").
    - apply rst_step.
      exact (variant_punct (chars "TXN") "_"%char (chars "DATE") eq_refl).
    - apply rst_trans with (chars "TXN_DATE ").
      + apply rst_step.
        refine (variant_blank (chars "TXN_DATE") " "%char [] eq_refl _).
        discriminate.
      + apply rst_step.
        exact (variant_suffix (chars "TXN_DATE ") (chars "IST") eq_refl eq_refl). }
  split; [exact H|].
  exact (proj2 clean_column_name_variants "TXNDATE" "TXN_DATE [IST]" H).
Defined.

(** Claim C7 as stated fails.  A line feed inside the bracketed annotation
    keeps the pattern from matching, so the annotation stays in the cleaned
    name; and a bracketed suffix after an unclosed ['['] is removed together
    with that ['[']. *)
Lemma bracket_pass_counterexample :
  differs_only_in_formatting (chars amount_header)
    (chars amount_header_two_lines)
  /\ clean_column_name amount_header = "AMT"
  /\ clean_column_name amount_header_two_lines = "AMT[INR]"
  /\ clean_column_name amount_header <> clean_column_name amount_header_two_lines
  /\ differs_only_in_formatting (chars "AMT[") (chars "AMT[[INR]")
  /\ clean_column_name "AMT[" <> clean_column_name "AMT[[INR]".
Proof.
  split; [|split; [|split; [|split; [|split]]]].
  - apply rst_step.
    exact (differs_space (chars "AMT[") LF (chars "INR]") eq_refl).
  - evaluate.
  - evaluate.
  - vm_compute. discriminate.
  - apply rst_step. exact (differs_suffix (chars "AMT[") (chars "INR")).
  - vm_compute. discriminate.
Qed.


(* ================================================================= *)
(** ** The further properties on the sample chunks *)

Lemma clean_column_name_idempotent_witness :
  clean_column_name (clean_column_name "SESSION ID [ASPD]")
  = clean_column_name "SESSION ID [ASPD]".
Proof. apply clean_column_name_idempotent. evaluate. Defined.

Lemma unmapped_fields_are_none_witness :
  exists df' st,
    prepared decimal_literal integer_literal
        digits_datetime icici_chunk icici_both "icici"
    = Ok df'
    /\ row_loop decimal_literal integer_literal
        digits_datetime (iterrows df') "icici"
         "booking" 102%Z (mkLoop df' [] 0 0) = Ok st
    /\ List.length (bulk_data_transactions st) = 3
    /\ Forall (fun td =>
                 forall f, In f unreachable_fields ->
                           dict_get td f = Some VNone)
         (bulk_data_transactions st).
Proof.
  let r := eval vm_compute in
    (prepared decimal_literal integer_literal
        digits_datetime icici_chunk icici_both "icici") in
  match r with
  | Ok ?df' =>
      assert (Hprep : prepared decimal_literal integer_literal
          digits_datetime icici_chunk
                        icici_both "icici" = Ok df') by evaluate;
      exists df';
      let l := eval vm_compute in
        (row_loop decimal_literal integer_literal
            digits_datetime (iterrows df') "icici"
           "booking" 102%Z (mkLoop df' [] 0 0)) in
      match l with
      | Ok ?st =>
          assert (Hrun : row_loop decimal_literal integer_literal
              digits_datetime
                           (iterrows df') "icici" "booking" 102%Z
                           (mkLoop df' [] 0 0) = Ok st) by evaluate;
          exists st
      end
  end.
  split; [exact Hprep|]. split; [exact Hrun|]. split; [evaluate|].
  assert (Hres : resolve "icici" "booking" = Some icici_both) by evaluate.
  exact (unmapped_fields_are_none decimal_literal integer_literal
      digits_datetime icici_chunk
           _ "icici" "booking" icici_both 102%Z _ Hres Hprep Hrun).
Defined.

Lemma empty_chunk_publishes_zero_witness :
  process_dataframe_chunk decimal_literal integer_literal
      digits_datetime table_down
    karur_empty_chunk "karur_vysya" "booking" (mkWorld [] (Some (3, 0)))
  = Ok (mkWorld [] (Some (0, 0))).
Proof.
  let r := eval vm_compute in
    (prepared decimal_literal integer_literal digits_datetime karur_empty_chunk
       karur_vysya_booking "karur_vysya") in
  match r with
  | Ok ?df' =>
      apply (empty_chunk_publishes_zero decimal_literal integer_literal
          digits_datetime
               (list record) table_down karur_empty_chunk df' "karur_vysya"
               "booking" karur_vysya_booking (mkWorld [] (Some (3, 0))))
  end; evaluate.
Defined.

Lemma accepted_chunk_commits_witness :
  exists bank_id batch store,
    dict_get BANK_CODE_MAPPING "karur_vysya" = Some bank_id
    /\ List.length batch = 3
    /\ table_insert batch [] = Some store
    /\ process_dataframe_chunk decimal_literal integer_literal
        digits_datetime table_insert
         karur_booking_chunk "karur_vysya" "booking" (mkWorld [] None)
       = Ok (mkWorld store (Some (3, 0))).
Proof.
  let r := eval vm_compute in
    (prepared decimal_literal integer_literal
        digits_datetime karur_booking_chunk
       karur_vysya_booking "karur_vysya") in
  match r with
  | Ok ?df' =>
      assert (Hprep : prepared decimal_literal integer_literal digits_datetime
                        karur_booking_chunk karur_vysya_booking "karur_vysya"
                      = Ok df') by evaluate
  end.
  assert (Hres : resolve "karur_vysya" "booking" = Some karur_vysya_booking)
    by evaluate.
  assert (Hcols : forallb (has_column (map_labels clean_column_name
                                         karur_booking_chunk))
                    (expected_columns karur_vysya_booking) = true)
    by evaluate.
  assert (Hty : existsb (String.eqb "booking") transaction_types = true)
    by evaluate.
  assert (Hpos : 0 < index_len karur_booking_chunk) by (vm_compute; lia).
  assert (Hup : forall batch : list record,
            table_insert batch (db (mkWorld [] None)) <> None)
    by (intros batch; discriminate).
  destruct (accepted_chunk_commits decimal_literal integer_literal
      digits_datetime
              (list record) table_insert karur_booking_chunk _ "karur_vysya"
              "booking" karur_vysya_booking (mkWorld [] None)
              Hres Hcols Hprep Hty Hpos Hup)
    as (bank_id & batch & store & Hcode & Hall & Hstore & Hrun).
  exists bank_id, batch, store.
  split; [exact Hcode|]. split; [|split; [exact Hstore | exact Hrun]].
  apply Forall2_length in Hall. rewrite <- Hall. evaluate.
Defined.

Lemma passing_chunk_outcomes_witness :
  exists w',
    process_dataframe_chunk decimal_literal integer_literal
        digits_datetime table_down
      karur_booking_chunk "karur_vysya" "booking" (mkWorld [] None) = Ok w'
    /\ (latest_transaction_results w' = Some (3, 0)
        \/ latest_transaction_results w' = Some (3, 3)
        \/ latest_transaction_results w' = Some (0, 3)).
Proof.
  let r := eval vm_compute in
    (prepared decimal_literal integer_literal
        digits_datetime karur_booking_chunk
       karur_vysya_booking "karur_vysya") in
  match r with
  | Ok ?df' =>
      apply (passing_chunk_outcomes decimal_literal integer_literal
          digits_datetime
               (list record) table_down karur_booking_chunk df' "karur_vysya"
               "booking" karur_vysya_booking (mkWorld [] None))
  end; evaluate.
Defined.

Lemma published_result_overwrites_witness :
  process_dataframe_chunk decimal_literal integer_literal
      digits_datetime table_insert
    karur_booking_chunk "karur_vysya" "booking" (mkWorld [] None)
  = process_dataframe_chunk decimal_literal integer_literal
      digits_datetime table_insert
      karur_booking_chunk "karur_vysya" "booking" (mkWorld [] (Some (7, 7))).
Proof.
  let r := eval vm_compute in
    (prepared decimal_literal integer_literal
        digits_datetime karur_booking_chunk
       karur_vysya_booking "karur_vysya") in
  match r with
  | Ok ?df' =>
      apply (published_result_overwrites decimal_literal integer_literal
          digits_datetime
               (list record) table_insert karur_booking_chunk df'
               "karur_vysya" "booking" karur_vysya_booking [] None
               (Some (7, 7)))
  end; evaluate.
Defined.

Lemma handle_nat_idempotent_witness :
  handle_nat_in_datetime_fields
    [("Transaction_Date", VNone); ("Settlement_Date", Cell (STimestamp 5%Z));
     ("Refund_Request_Date", VNone); ("Credit_Debit_Date", VNone);
     ("File_upload_Date", VNone); ("Order_Id", Cell (SStr "1001"))]
  = Ok [("Transaction_Date", VNone); ("Settlement_Date", Cell (STimestamp 5%Z));
        ("Refund_Request_Date", VNone); ("Credit_Debit_Date", VNone);
        ("File_upload_Date", VNone); ("Order_Id", Cell (SStr "1001"))]
  /\ dict_get
       [("Transaction_Date", VNone); ("Settlement_Date", Cell (STimestamp 5%Z));
        ("Refund_Request_Date", VNone); ("Credit_Debit_Date", VNone);
        ("File_upload_Date", VNone); ("Order_Id", Cell (SStr "1001"))]
       "Transaction_Date" = Some VNone.
Proof.
  assert (Hnd : NoDup (dict_keys
            [("Transaction_Date", Cell SNaT);
             ("Settlement_Date", Cell (STimestamp 5%Z));
             ("Refund_Request_Date", VNone); ("Credit_Debit_Date", VNone);
             ("File_upload_Date", VNone); ("Order_Id", Cell (SStr "1001"))])).
  { simpl. repeat (apply NoDup_cons;
                   [simpl; intros H;
                    repeat (destruct H as [H|H]; [discriminate H|]);
                    exact H|]).
    apply NoDup_nil. }
  assert (Hrun : handle_nat_in_datetime_fields
            [("Transaction_Date", Cell SNaT);
             ("Settlement_Date", Cell (STimestamp 5%Z));
             ("Refund_Request_Date", VNone); ("Credit_Debit_Date", VNone);
             ("File_upload_Date", VNone); ("Order_Id", Cell (SStr "1001"))]
          = Ok [("Transaction_Date", VNone);
                ("Settlement_Date", Cell (STimestamp 5%Z));
                ("Refund_Request_Date", VNone); ("Credit_Debit_Date", VNone);
                ("File_upload_Date", VNone); ("Order_Id", Cell (SStr "1001"))])
    by evaluate.
  destruct (handle_nat_idempotent _ _ Hnd Hrun) as [Hagain Hget].
  split; [exact Hagain|].
  exact (Hget "Transaction_Date" (Cell SNaT) eq_refl).
Defined.

Lemma returned_result_is_published_witness :
  exists w',
    process_transactions decimal_literal integer_literal
        digits_datetime table_insert
      karur_booking_chunk "karur_vysya" "booking" (mkWorld [] None)
    = Ok (Some (3, 0), w')
    /\ latest_transaction_results w' = Some (3, 0)
    /\ transaction_results_view (latest_transaction_results w') = (3, 0).
Proof.
  let r := eval vm_compute in
    (process_transactions decimal_literal integer_literal
        digits_datetime table_insert
       karur_booking_chunk "karur_vysya" "booking" (mkWorld [] None)) in
  match r with
  | Ok (_, ?w') =>
      assert (Hrun : process_transactions decimal_literal integer_literal
          digits_datetime
                       table_insert karur_booking_chunk "karur_vysya"
                       "booking" (mkWorld [] None) = Ok (Some (3, 0), w'))
        by evaluate;
      exists w'
  end.
  split; [exact Hrun|].
  exact (returned_result_is_published decimal_literal integer_literal
      digits_datetime
           (list record) table_insert karur_booking_chunk "karur_vysya"
           "booking" (mkWorld [] None) _ (Some (3, 0)) Hrun).
Defined.


Lemma raising_chunk_ends_file_witness :
  exists w1,
    run_chunks decimal_literal integer_literal
        digits_datetime (list record) table_insert
      [karur_booking_chunk] "karur_vysya" "booking" (mkWorld [] None) = Ok w1
    /\ latest_transaction_results w1 = Some (3, 0)
    /\ List.length (db w1) = 3
    /\ process_file_chunks decimal_literal integer_literal
        digits_datetime table_insert
         [karur_booking_chunk; karur_two_amounts_chunk; karur_booking_chunk]
         "karur_vysya" "booking" (mkWorld [] None) = w1.
Proof.
  let r := eval vm_compute in
    (run_chunks decimal_literal integer_literal
        digits_datetime (list record) table_insert
       [karur_booking_chunk] "karur_vysya" "booking" (mkWorld [] None)) in
  match r with
  | Ok ?w1 =>
      assert (Hrun : run_chunks decimal_literal integer_literal
          digits_datetime (list record) table_insert
                       [karur_booking_chunk] "karur_vysya" "booking"
                       (mkWorld [] None) = Ok w1) by evaluate;
      exists w1;
      assert (Hraise : process_dataframe_chunk decimal_literal integer_literal
          digits_datetime
                         table_insert karur_two_amounts_chunk "karur_vysya"
                         "booking" w1 = Raise AttributeError) by evaluate
  end.
  split; [exact Hrun|]. split; [evaluate|]. split; [evaluate|].
  exact (raising_chunk_ends_file decimal_literal integer_literal
      digits_datetime (list record)
           table_insert [karur_booking_chunk] [karur_booking_chunk]
           karur_two_amounts_chunk "karur_vysya" "booking" (mkWorld [] None)
           _ AttributeError Hrun Hraise).
Defined.

Lemma skipped_file_changes_nothing_witness :
  process_file decimal_literal integer_literal
      digits_datetime (list record) table_insert
    (fun _ _ => Ok karur_booking_chunk)
    (fun _ => Ok (ReaderChunk karur_booking_chunk ReaderEnd))
    0 "bytes" "report.pdf" "karur_vysya" "booking" ["pdf"; "csv"]
    (mkWorld [] None)
  = mkWorld [] None
  /\ process_files_from decimal_literal integer_literal
      digits_datetime (list record)
       table_insert (fun _ _ => Ok karur_booking_chunk)
       (fun _ => Ok (ReaderChunk karur_booking_chunk ReaderEnd))
       0 [("bytes", "report.pdf"); ("more", "rows.csv")]
       "karur_vysya" "booking" ["pdf"; "csv"] (mkWorld [] None)
     = process_files_from decimal_literal integer_literal
         digits_datetime (list record)
         table_insert (fun _ _ => Ok karur_booking_chunk)
         (fun _ => Ok (ReaderChunk karur_booking_chunk ReaderEnd))
         1 [("more", "rows.csv")]
         "karur_vysya" "booking" ["pdf"; "csv"] (mkWorld [] None).
Proof.
  apply (skipped_file_changes_nothing decimal_literal integer_literal
      digits_datetime
           (list record) table_insert (fun _ _ => Ok karur_booking_chunk)
           (fun _ => Ok (ReaderChunk karur_booking_chunk ReaderEnd))
           0 "bytes" "report.pdf" "karur_vysya" "booking" ["pdf"; "csv"]
           [("more", "rows.csv")] (mkWorld [] None)).
  right. left. exists "pdf".
  split; [reflexivity | split; discriminate].
Defined.

Lemma duplicate_amount_header_raises_witness :
  (exists ex,
     process_dataframe_chunk decimal_literal integer_literal
         digits_datetime table_insert
       karur_two_amounts_chunk "karur_vysya" "booking" (mkWorld [] None)
     = Raise ex)
  /\ process_file_chunks decimal_literal integer_literal
      digits_datetime table_insert
       [karur_two_amounts_chunk; karur_booking_chunk] "karur_vysya" "booking"
       (mkWorld [] None)
     = mkWorld [] None.
Proof.
  apply (duplicate_amount_header_raises decimal_literal integer_literal
      digits_datetime
           (list record) table_insert karur_two_amounts_chunk "karur_vysya"
           "booking" karur_vysya_booking [karur_booking_chunk]
           (mkWorld [] None)).
  - evaluate.
  - evaluate.
  - vm_compute. apply le_n.
Defined.

Lemma upload_refusal_witness :
  upload_files "POST" true "icici" "booking"
    [mkFile "a.csv" 10 "x"; mkFile "b.pdf" 5 "y"; mkFile "c.xlsx" 9 "z"]
  = (JsonResponse
       "Unsupported file extension. Only .xlsx, .xls, and .csv files are allowed."
       400, None)
  /\ upload_files "POST" true "icici" "booking"
       [mkFile "a.csv" 10 "x"; mkFile "b.csv" 0 ""; mkFile "c.pdf" 9 "z"]
     = (JsonResponse "File b.csv is empty." 400, None).
Proof.
  split.
  - apply (upload_refusal "icici" "booking" [mkFile "a.csv" 10 "x"]
             [mkFile "c.xlsx" 9 "z"] (mkFile "b.pdf" 5 "y")); evaluate.
  - apply (upload_refusal "icici" "booking" [mkFile "a.csv" 10 "x"]
             [mkFile "c.pdf" 9 "z"] (mkFile "b.csv" 0 "")); evaluate.
Defined.

Lemma dispatched_files_are_decoded_witness :
  snd (upload_files "POST" true "karur_vysya" "booking"
         [mkFile "a.csv" 10 "x"; mkFile "b.xlsx" 5 "y"])
  = Some (mkTask [("x", "a.csv"); ("y", "b.xlsx")] "karur_vysya" "booking"
            ["csv"; "excel"])
  /\ process_file decimal_literal integer_literal
      digits_datetime (list record) table_insert
       (fun _ _ => Ok karur_booking_chunk)
       (fun _ => Ok (ReaderChunk karur_booking_chunk ReaderEnd))
       1 "y" "b.xlsx" "karur_vysya" "booking" ["csv"; "excel"]
       (mkWorld [] None)
     = decode_by_extension decimal_literal integer_literal
         digits_datetime (list record)
         table_insert (fun _ _ => Ok karur_booking_chunk)
         (fun _ => Ok (ReaderChunk karur_booking_chunk ReaderEnd))
         "y" "b.xlsx" "karur_vysya" "booking" (mkWorld [] None).
Proof.
  assert (Htask : snd (upload_files "POST" true "karur_vysya" "booking"
                         [mkFile "a.csv" 10 "x"; mkFile "b.xlsx" 5 "y"])
                  = Some (mkTask [("x", "a.csv"); ("y", "b.xlsx")]
                            "karur_vysya" "booking" ["csv"; "excel"]))
    by evaluate.
  split; [exact Htask|].
  exact (dispatched_files_are_decoded decimal_literal integer_literal
      digits_datetime
           (list record) table_insert (fun _ _ => Ok karur_booking_chunk)
           (fun _ => Ok (ReaderChunk karur_booking_chunk ReaderEnd))
           "POST" true "karur_vysya" "booking"
           [mkFile "a.csv" 10 "x"; mkFile "b.xlsx" 5 "y"]
           _ 1 "y" "b.xlsx" (mkWorld [] None) Htask eq_refl).
Defined.

Lemma icici_records_carry_sign_label_witness :
  (exists df' st,
     prepared decimal_literal integer_literal digits_datetime icici_chunk
       icici_both "icici" = Ok df'
     /\ row_loop decimal_literal integer_literal digits_datetime
          (iterrows df') "icici" "both" 102%Z (mkLoop df' [] 0 0) = Ok st
     /\ map (fun td => (dict_get td "Payable_Merchant",
                        dict_get td "Credit_Debit_Amount"))
          (bulk_data_transactions st)
        = [(Some (Cell (SFloat (Finite 50%Q))), Some (Cell (SStr "CREDIT")));
           (Some (Cell (SFloat (Finite (-50)%Q))), Some (Cell (SStr "DEBIT")));
           (Some (Cell (SFloat (Finite 0%Q))), Some (Cell SNone))]
     /\ Forall (fun td =>
                  exists x,
                    x <> NaN
                    /\ dict_get td "Payable_Merchant" = Some (Cell (SFloat x))
                    /\ dict_get td "Credit_Debit_Amount"
                       = Some (Cell (credit_debit x)))
          (bulk_data_transactions st))
  /\ (exists df' st,
        prepared decimal_literal integer_literal digits_datetime
          icici_integer_chunk icici_both "icici" = Ok df'
        /\ row_loop decimal_literal integer_literal digits_datetime
             (iterrows df') "icici" "both" 102%Z (mkLoop df' [] 0 0) = Ok st
        /\ map (fun td => (dict_get td "Payable_Merchant",
                           dict_get td "Credit_Debit_Amount"))
             (bulk_data_transactions st)
           = [(Some (Cell (SInt 50%Z)), Some (Cell (SStr "CREDIT")));
              (Some (Cell (SInt (-50)%Z)), Some (Cell (SStr "DEBIT")));
              (Some (Cell (SInt 0%Z)), Some (Cell SNone))]
        /\ Forall (fun td =>
                     exists z,
                       dict_get td "Payable_Merchant" = Some (Cell (SInt z))
                       /\ dict_get td "Credit_Debit_Amount"
                          = Some (Cell (credit_debit_int z)))
             (bulk_data_transactions st)).
Proof.
  split.
  - let r := eval vm_compute in
      (prepared decimal_literal integer_literal digits_datetime icici_chunk
         icici_both "icici") in
    match r with
    | Ok ?df' =>
        assert (Hprep : prepared decimal_literal integer_literal
                          digits_datetime icici_chunk icici_both "icici"
                        = Ok df') by evaluate;
        exists df';
        let l := eval vm_compute in
          (row_loop decimal_literal integer_literal digits_datetime
             (iterrows df') "icici" "both" 102%Z (mkLoop df' [] 0 0)) in
        match l with
        | Ok ?st =>
            assert (Hrun : row_loop decimal_literal integer_literal
                             digits_datetime (iterrows df') "icici" "both"
                             102%Z (mkLoop df' [] 0 0) = Ok st) by evaluate;
            exists st
        end
    end.
    split; [exact Hprep|]. split; [exact Hrun|]. split; [evaluate|].
    assert (Hal : aligned icici_chunk).
    { intros l s Hin. simpl in Hin.
      repeat (destruct Hin as [Hin|Hin];
              [injection Hin as <- <-; reflexivity|]).
      contradiction. }
    assert (Hcols : forallb (has_column (map_labels clean_column_name
                                           icici_chunk))
                      (expected_columns icici_both) = true) by evaluate.
    destruct (icici_records_carry_sign_label decimal_literal integer_literal
                digits_datetime icici_chunk _ "both" _ Hal Hcols Hprep Hrun)
      as [Hfloat | Hint]; [exact Hfloat|].
    apply Forall_inv in Hint. destruct Hint as (z & Hz & _).
    vm_compute in Hz. discriminate Hz.
  - let r := eval vm_compute in
      (prepared decimal_literal integer_literal digits_datetime
         icici_integer_chunk icici_both "icici") in
    match r with
    | Ok ?df' =>
        assert (Hprep : prepared decimal_literal integer_literal
                          digits_datetime icici_integer_chunk icici_both
                          "icici" = Ok df') by evaluate;
        exists df';
        let l := eval vm_compute in
          (row_loop decimal_literal integer_literal digits_datetime
             (iterrows df') "icici" "both" 102%Z (mkLoop df' [] 0 0)) in
        match l with
        | Ok ?st =>
            assert (Hrun : row_loop decimal_literal integer_literal
                             digits_datetime (iterrows df') "icici" "both"
                             102%Z (mkLoop df' [] 0 0) = Ok st) by evaluate;
            exists st
        end
    end.
    split; [exact Hprep|]. split; [exact Hrun|]. split; [evaluate|].
    assert (Hal : aligned icici_integer_chunk).
    { intros l s Hin. simpl in Hin.
      repeat (destruct Hin as [Hin|Hin];
              [injection Hin as <- <-; reflexivity|]).
      contradiction. }
    assert (Hcols : forallb (has_column (map_labels clean_column_name
                                           icici_integer_chunk))
                      (expected_columns icici_both) = true) by evaluate.
    destruct (icici_records_carry_sign_label decimal_literal integer_literal
                digits_datetime icici_integer_chunk _ "both" _ Hal Hcols
                Hprep Hrun)
      as [Hfloat | Hint]; [|exact Hint].
    apply Forall_inv in Hfloat. destruct Hfloat as (x & _ & Hx & _).
    vm_compute in Hx. discriminate Hx.
Defined.

Lemma records_carry_category_and_bank_witness :
  exists st,
    row_loop decimal_literal integer_literal
        digits_datetime (iterrows icici_chunk) "icici"
      "refund" 102%Z (mkLoop icici_chunk [] 0 0) = Ok st
    /\ List.length (bulk_data_transactions st) = 3
    /\ Forall (fun td =>
                 dict_get td "Transaction_type" = Some (Cell (SStr "refund"))
                 /\ dict_get td "Bank_Name" = Some (Cell (SStr "icici")))
         (bulk_data_transactions st).
Proof.
  let l := eval vm_compute in
    (row_loop decimal_literal integer_literal
        digits_datetime (iterrows icici_chunk) "icici"
       "refund" 102%Z (mkLoop icici_chunk [] 0 0)) in
  match l with
  | Ok ?st =>
      assert (Hrun : row_loop decimal_literal integer_literal digits_datetime
                       (iterrows icici_chunk) "icici" "refund" 102%Z
                       (mkLoop icici_chunk [] 0 0) = Ok st) by evaluate;
      exists st
  end.
  split; [exact Hrun|]. split; [evaluate|].
  exact (records_carry_category_and_bank decimal_literal integer_literal
      digits_datetime
           icici_chunk "icici" "refund" 102%Z _ Hrun).
Defined.

Lemma credit_debit_only_for_icici_witness :
  exists df' st,
    prepared decimal_literal integer_literal digits_datetime karur_booking_chunk
      karur_vysya_booking "karur_vysya" = Ok df'
    /\ row_loop decimal_literal integer_literal
        digits_datetime (iterrows df') "karur_vysya"
         "booking" 40%Z (mkLoop df' [] 0 0) = Ok st
    /\ List.length (bulk_data_transactions st) = 3
    /\ has_column df' "CREDIT_DEBIT_AMOUNT" = false
    /\ Forall (fun td => dict_get td "Credit_Debit_Amount" = Some VNone)
         (bulk_data_transactions st).
Proof.
  let r := eval vm_compute in
    (prepared decimal_literal integer_literal
        digits_datetime karur_booking_chunk
       karur_vysya_booking "karur_vysya") in
  match r with
  | Ok ?df' =>
      assert (Hprep : prepared decimal_literal integer_literal digits_datetime
                        karur_booking_chunk karur_vysya_booking "karur_vysya"
                      = Ok df') by evaluate;
      exists df';
      let l := eval vm_compute in
        (row_loop decimal_literal integer_literal digits_datetime (iterrows df')
           "karur_vysya" "booking" 40%Z (mkLoop df' [] 0 0)) in
      match l with
      | Ok ?st =>
          assert (Hrun : row_loop decimal_literal integer_literal
              digits_datetime
                           (iterrows df') "karur_vysya" "booking" 40%Z
                           (mkLoop df' [] 0 0) = Ok st) by evaluate;
          exists st
      end
  end.
  split; [exact Hprep|]. split; [exact Hrun|]. split; [evaluate|].
  assert (Hres : resolve "karur_vysya" "booking" = Some karur_vysya_booking)
    by evaluate.
  assert (Hbank : "karur_vysya" <> "icici") by discriminate.
  exact (credit_debit_only_for_icici decimal_literal integer_literal
      digits_datetime
           karur_booking_chunk _ "karur_vysya" "booking" karur_vysya_booking
           40%Z _ Hres Hbank Hprep Hrun).
Defined.

Lemma date_fields_are_timestamps_witness :
  exists df' st,
    prepared decimal_literal integer_literal digits_datetime karur_booking_chunk
      karur_vysya_booking "karur_vysya" = Ok df'
    /\ row_loop decimal_literal integer_literal
        digits_datetime (iterrows df') "karur_vysya"
         "booking" 40%Z (mkLoop df' [] 0 0) = Ok st
    /\ List.length (bulk_data_transactions st) = 3
    /\ Forall (fun td =>
                 forall f, f = "Transaction_Date" \/ f = "Settlement_Date" ->
                   dict_get td f = Some VNone
                   \/ exists t, dict_get td f = Some (Cell (STimestamp t)))
         (bulk_data_transactions st).
Proof.
  let r := eval vm_compute in
    (prepared decimal_literal integer_literal
        digits_datetime karur_booking_chunk
       karur_vysya_booking "karur_vysya") in
  match r with
  | Ok ?df' =>
      assert (Hprep : prepared decimal_literal integer_literal digits_datetime
                        karur_booking_chunk karur_vysya_booking "karur_vysya"
                      = Ok df') by evaluate;
      exists df';
      let l := eval vm_compute in
        (row_loop decimal_literal integer_literal digits_datetime (iterrows df')
           "karur_vysya" "booking" 40%Z (mkLoop df' [] 0 0)) in
      match l with
      | Ok ?st =>
          assert (Hrun : row_loop decimal_literal integer_literal
              digits_datetime
                           (iterrows df') "karur_vysya" "booking" 40%Z
                           (mkLoop df' [] 0 0) = Ok st) by evaluate;
          exists st
      end
  end.
  split; [exact Hprep|]. split; [exact Hrun|]. split; [evaluate|].
  assert (Hal : aligned karur_booking_chunk).
  { intros l s Hin. simpl in Hin.
    repeat (destruct Hin as [Hin|Hin];
            [injection Hin as <- <-; reflexivity|]).
    contradiction. }
  assert (Hres : resolve "karur_vysya" "booking" = Some karur_vysya_booking)
    by evaluate.
  exact (date_fields_are_timestamps decimal_literal integer_literal
      digits_datetime
           karur_booking_chunk _ "karur_vysya" "booking" karur_vysya_booking
           40%Z _ Hal Hres Hprep Hrun).
Defined.
